(** * Smart attendance: the attendance-marking decision pipeline

    A shallow embedding of the decision core of the attendance tracker:

    - [simulateFaceRecognition]  (utils/faceRecognition.ts)
    - [handleRecognition]        (components/CameraView.tsx)
    - [handleAttendanceMarked]   (App.tsx)
    - [useDatabase] write operations (hooks/useDatabase.ts)
    - [useNotifications]         (hooks/useNotifications.ts)

    and of the code around it: the interval and the working-hours banner
    of the camera view, the student handlers and the statistics of
    [App], the unread count of the notification centre, and the report
    and the exports of utils/faceRecognition.ts.

    Conventions of the embedding.

    - JavaScript numbers that carry confidences and random draws are exact
      rationals ([Q]); integers (epoch milliseconds, minutes) are [Z].
    - Every ambient source of non-determinism is an oracle of the
      environment [Env], read through a cursor kept in the [World]:
      [Math.random()], the wall clock ([Date.now()], [new Date()]), the
      outcome of each storage request and the identifiers the backend
      generates.
    - Effects are threaded by a reader / state / exception monad [M].
      An [await] is a sequencing point: one logical actor, no interleaving.
    - [console.error] and [console.warn] have no effect on the state the
      properties speak about and are dropped. *)

From Stdlib Require Import ZArith QArith Qround Qabs List String Ascii Bool Lia.
From Stdlib Require Import DecimalString Permutation.
Import ListNotations.

Local Open Scope string_scope.
Local Open Scope list_scope.
Local Open Scope Z_scope.

(* ================================================================== *)
(** * The JavaScript runtime the code relies on                        *)
(* ================================================================== *)

Module JS.

(** ** Numbers *)

Definition geq (a b : Q) : bool := Qle_bool b a.          (* a >= b *)
Definition leq (a b : Q) : bool := Qle_bool a b.          (* a <= b *)
Definition gt (a b : Q) : bool := negb (Qle_bool a b).    (* a >  b *)
Definition lt (a b : Q) : bool := negb (Qle_bool b a).    (* a <  b *)

Definition Math_max (a b : Q) : Q := if Qle_bool a b then b else a.
Definition Math_min (a b : Q) : Q := if Qle_bool a b then a else b.

(** [n] such that [n / 100 - x] is as close to zero as possible, the
    larger one on a tie; [x] is non-negative here. *)
Definition nearestHundredth (x : Q) : Z := Qfloor (x * 100 + (1 # 2))%Q.

(** [parseFloat(x.toFixed(2))]: [toFixed] treats the sign apart and
    rounds the magnitude. *)
Definition toFixed2 (x : Q) : Q :=
  if lt x 0%Q then (- nearestHundredth (- x)%Q) # 100
  else nearestHundredth x # 100.

(** ** Strings *)

Fixpoint split (sep : ascii) (s : string) : list string :=
  match s with
  | EmptyString => [EmptyString]
  | String c rest =>
      if Ascii.eqb c sep then EmptyString :: split sep rest
      else match split sep rest with
           | h :: t => String c h :: t
           | [] => [String c EmptyString]
           end
  end.

Definition isWhiteSpace (c : ascii) : bool :=
  let n := nat_of_ascii c in
  (Nat.eqb n 32 || (Nat.leb 9 n && Nat.leb n 13))%bool.

Fixpoint trimStart (s : string) : string :=
  match s with
  | String c rest => if isWhiteSpace c then trimStart rest else s
  | EmptyString => EmptyString
  end.

Definition digitValue (radix : Z) (c : ascii) : option Z :=
  let n := Z.of_nat (nat_of_ascii c) in
  let v := if (48 <=? n) && (n <=? 57) then Some (n - 48)
           else if (97 <=? n) && (n <=? 122) then Some (n - 87)
           else if (65 <=? n) && (n <=? 90) then Some (n - 55)
           else None in
  match v with
  | Some d => if d <? radix then Some d else None
  | None => None
  end.

(** The longest prefix of digits; [None] when there is none. *)
Fixpoint digits (radix : Z) (s : string) (acc : option Z) : option Z :=
  match s with
  | EmptyString => acc
  | String c rest =>
      match digitValue radix c with
      | Some d =>
          digits radix rest
            (Some (match acc with Some a => a * radix + d | None => d end))
      | None => acc
      end
  end.

(** [parseInt(s)] without a radix; [None] is [NaN]. *)
Definition parseInt (s : string) : option Z :=
  let s1 := trimStart s in
  let '(sign, s2) :=
    match s1 with
    | String "-" rest => (-1, rest)
    | String "+" rest => (1, rest)
    | _ => (1, s1)
    end in
  let '(radix, s3) :=
    match s2 with
    | String "0" (String "x" rest) => (16, rest)
    | String "0" (String "X" rest) => (16, rest)
    | _ => (10, s2)
    end in
  match digits radix s3 None with
  | Some n => Some (sign * n)
  | None => None
  end.

(** [parseInt(parts[i])]: a missing element is [undefined], which
    parses to [NaN]. *)
Definition parseIntAt (parts : list string) (i : nat) : option Z :=
  match nth_error parts i with
  | Some p => parseInt p
  | None => None
  end.

(** Arithmetic and comparison in the presence of [NaN]. *)
Definition mul (a b : option Z) : option Z :=
  match a, b with Some x, Some y => Some (x * y) | _, _ => None end.
Definition add (a b : option Z) : option Z :=
  match a, b with Some x, Some y => Some (x + y) | _, _ => None end.
Definition geZ (a b : option Z) : bool :=
  match a, b with Some x, Some y => y <=? x | _, _ => false end.
Definition leZ (a b : option Z) : bool :=
  match a, b with Some x, Some y => x <=? y | _, _ => false end.

(** [n.toString()] for an integer. *)
Definition toString (n : Z) : string := NilZero.string_of_int (Z.to_int n).

(** A value is truthy as a string when it is present and not empty. *)
Definition truthy (s : option string) : bool :=
  match s with
  | Some EmptyString => false
  | Some _ => true
  | None => false
  end.

(** ** Dates

    A [Date] is its time value, milliseconds since the epoch.  Local
    time is the time value shifted by the zone offset the environment
    reports for that instant ([getTimezoneOffset], in minutes, UTC
    minus local). *)

Definition Date := Z.

Definition getTime (d : Date) : Z := d.

Definition msPerDay : Z := 86400000.

Section LocalTime.
Variable tzOffset : Z -> Z.

Definition localTime (d : Date) : Z := d - tzOffset d * 60000.
Definition localDay (d : Date) : Z := localTime d / msPerDay.
Definition getHours (d : Date) : Z := (localTime d mod msPerDay) / 3600000.
Definition getMinutes (d : Date) : Z := (localTime d mod 3600000) / 60000.

(** Year, month (1..12) and day of the month of a day number counted
    from 1970-01-01, in the proleptic Gregorian calendar. *)
Definition civil (z : Z) : Z * Z * Z :=
  let z := z + 719468 in
  let era := z / 146097 in
  let doe := z - era * 146097 in
  let yoe := (doe - doe / 1460 + doe / 36524 - doe / 146096) / 365 in
  let doy := doe - (365 * yoe + yoe / 4 - yoe / 100) in
  let mp := (5 * doy + 2) / 153 in
  let d := doy - (153 * mp + 2) / 5 + 1 in
  let m := if mp <? 10 then mp + 3 else mp - 9 in
  (yoe + era * 400 + (if m <=? 2 then 1 else 0), m, d).

(** [d.toDateString()], e.g. "Sun Nov 01 2026".  The text is
    determined by the local year, month and day (the weekday name
    follows from them), so the triple stands for the string. *)
Definition toDateString (d : Date) : Z * Z * Z := civil (localDay d).

Definition sameDateString (a b : Z * Z * Z) : bool :=
  let '(y1, m1, d1) := a in
  let '(y2, m2, d2) := b in
  (y1 =? y2) && (m1 =? m2) && (d1 =? d2).
End LocalTime.

End JS.

(* ================================================================== *)
(** * Data model (types/index.ts and the storage schema)               *)
(* ================================================================== *)

Module Student.
Record t := {
  id : string;
  name : string;
  email : string;
  studentId : option string;
  department : option string;
  year : option string;
  photo : option string;
  registeredAt : JS.Date;
  isActive : bool
}.
End Student.

Module AttendanceRecord.
Record t := {
  id : string;
  studentId : string;
  studentName : string;
  timestamp : JS.Date;
  confidence : Q;
  photo : option string;
  location : option string;
  deviceInfo : option string
}.
End AttendanceRecord.

(** [Omit<AttendanceRecord, 'id'>]: a proposed record. *)
Module NewRecord.
Record t := {
  studentId : string;
  studentName : string;
  timestamp : JS.Date;
  confidence : Q;
  photo : option string;
  location : option string;
  deviceInfo : option string
}.
End NewRecord.

(** [Omit<Student, 'id' | 'registeredAt' | 'isActive'>]. *)
Module NewStudent.
Record t := {
  name : string;
  email : string;
  studentId : option string;
  department : option string;
  year : option string;
  photo : option string
}.
End NewStudent.

Inductive NotificationType := success | warning | error | info.

Module NotificationMessage.
Record t := {
  id : string;
  type : NotificationType;
  title : string;
  message : string;
  timestamp : JS.Date;
  read : bool
}.
End NotificationMessage.

(** [Omit<NotificationMessage, 'id' | 'timestamp' | 'read'>]. *)
Module NewNotification.
Record t := {
  type : NotificationType;
  title : string;
  message : string
}.
End NewNotification.

Module AttendanceSettings.
Record hours := { start : string; end_ : string }.
Record t := {
  autoMarkingEnabled : bool;
  confidenceThreshold : Q;
  allowMultipleMarking : bool;
  workingHours : hours
}.
End AttendanceSettings.

(** Rows of the two tables of the migration. *)
Module StudentRow.
Record t := {
  id : string;
  name : string;
  email : string;
  student_id : option string;
  department : option string;
  year : option string;
  photo : option string;
  is_active : bool;
  created_at : JS.Date
}.
End StudentRow.

Module RecordRow.
Record t := {
  id : string;
  student_id : string;
  student_name : string;
  timestamp : JS.Date;
  confidence : Q;
  photo : option string;
  location : option string;
  device_info : option string
}.
End RecordRow.

(** What the matcher returns: [{ student, confidence }]. *)
Module Match.
Record t := { student : Student.t; confidence : Q }.
End Match.

(** A thrown value: its message and whether it is an [Error] instance. *)
Record Exn := { exn_message : string; exn_isError : bool }.

(* ================================================================== *)
(** * Environment, world and the effect monad                          *)
(* ================================================================== *)

Record Env := {
  rng : nat -> Q;                 (* the n-th Math.random() *)
  clock : nat -> JS.Date;         (* the n-th reading of the wall clock *)
  tzOffset : Z -> Z;              (* getTimezoneOffset at an instant *)
  faults : nat -> option Exn;     (* the error of the n-th storage request *)
  uuid : nat -> string;           (* gen_random_uuid() in the n-th request *)
  dbNow : nat -> JS.Date;         (* now() of the backend in the n-th request *)
  captureFrame : option string;   (* what useCamera's captureFrame returns *)
  userAgent : string              (* navigator.userAgent *)
}.

Record Backend := {
  tbl_students : list StudentRow.t;
  tbl_records : list RecordRow.t
}.

(** State of [useDatabase]. *)
Record Database := {
  students : list Student.t;
  records : list AttendanceRecord.t;
  db_error : option string
}.

(** State of [CameraView]. *)
Record Camera := {
  isActive : bool;
  isProcessing : bool;
  lastRecognition : option string;
  cam_confidenceThreshold : Q
}.

Record World := {
  rand_pos : nat;                 (* Math.random() calls so far *)
  clock_pos : nat;                (* clock readings so far *)
  call_pos : nat;                 (* storage requests so far *)
  delays : list Q;                (* awaited setTimeout delays, newest first *)
  backend : Backend;
  database : Database;
  notifications : list NotificationMessage.t;
  settings : AttendanceSettings.t;
  camera : Camera
}.

Definition with_rand_pos (n : nat) (w : World) : World :=
  {| rand_pos := n; clock_pos := clock_pos w; call_pos := call_pos w;
     delays := delays w; backend := backend w; database := database w;
     notifications := notifications w; settings := settings w;
     camera := camera w |}.

Definition with_clock_pos (n : nat) (w : World) : World :=
  {| rand_pos := rand_pos w; clock_pos := n; call_pos := call_pos w;
     delays := delays w; backend := backend w; database := database w;
     notifications := notifications w; settings := settings w;
     camera := camera w |}.

Definition with_call_pos (n : nat) (w : World) : World :=
  {| rand_pos := rand_pos w; clock_pos := clock_pos w; call_pos := n;
     delays := delays w; backend := backend w; database := database w;
     notifications := notifications w; settings := settings w;
     camera := camera w |}.

Definition with_delays (d : list Q) (w : World) : World :=
  {| rand_pos := rand_pos w; clock_pos := clock_pos w; call_pos := call_pos w;
     delays := d; backend := backend w; database := database w;
     notifications := notifications w; settings := settings w;
     camera := camera w |}.

Definition with_backend (b : Backend) (w : World) : World :=
  {| rand_pos := rand_pos w; clock_pos := clock_pos w; call_pos := call_pos w;
     delays := delays w; backend := b; database := database w;
     notifications := notifications w; settings := settings w;
     camera := camera w |}.

Definition with_database (d : Database) (w : World) : World :=
  {| rand_pos := rand_pos w; clock_pos := clock_pos w; call_pos := call_pos w;
     delays := delays w; backend := backend w; database := d;
     notifications := notifications w; settings := settings w;
     camera := camera w |}.

Definition with_notifications (l : list NotificationMessage.t) (w : World) : World :=
  {| rand_pos := rand_pos w; clock_pos := clock_pos w; call_pos := call_pos w;
     delays := delays w; backend := backend w; database := database w;
     notifications := l; settings := settings w;
     camera := camera w |}.

Definition with_camera (c : Camera) (w : World) : World :=
  {| rand_pos := rand_pos w; clock_pos := clock_pos w; call_pos := call_pos w;
     delays := delays w; backend := backend w; database := database w;
     notifications := notifications w; settings := settings w;
     camera := c |}.

Inductive Outcome (A : Type) :=
| Returned (a : A)
| Thrown (e : Exn).
Arguments Returned {A} a.
Arguments Thrown {A} e.

Definition M (A : Type) : Type := Env -> World -> Outcome A * World.

Definition ret {A} (a : A) : M A := fun _ w => (Returned a, w).

Definition bind {A B} (m : M A) (k : A -> M B) : M B :=
  fun e w =>
    match m e w with
    | (Returned a, w') => k a e w'
    | (Thrown x, w') => (Thrown x, w')
    end.

Definition throw {A} (x : Exn) : M A := fun _ w => (Thrown x, w).

(** [try { body } catch (err) { handler }]. *)
Definition tryCatch {A} (body : M A) (handler : Exn -> M A) : M A :=
  fun e w =>
    match body e w with
    | (Returned a, w') => (Returned a, w')
    | (Thrown x, w') => handler x e w'
    end.

Definition gets {A} (f : World -> A) : M A := fun _ w => (Returned (f w), w).
Definition asks {A} (f : Env -> A) : M A := fun e w => (Returned (f e), w).
Definition modify (f : World -> World) : M unit := fun _ w => (Returned tt, f w).

Declare Scope js_scope.
Delimit Scope js_scope with js.
Notation "x <- m ;; k" := (bind m (fun x => k))
  (at level 61, m at next level, right associativity) : js_scope.
Notation "m ;; k" := (bind m (fun _ => k))
  (at level 61, right associativity) : js_scope.
Local Open Scope js_scope.

(** The value and the world a computation ends with. *)
Definition result {A} (m : M A) (e : Env) (w : World) : Outcome A := fst (m e w).
Definition after {A} (m : M A) (e : Env) (w : World) : World := snd (m e w).

(** ** Ambient primitives *)

Definition Math_random : M Q :=
  fun e w => (Returned (rng e (rand_pos w)), with_rand_pos (S (rand_pos w)) w).

(** [Date.now()] and [new Date()] both read the wall clock. *)
Definition Date_now : M Z :=
  fun e w => (Returned (JS.getTime (clock e (clock_pos w))),
              with_clock_pos (S (clock_pos w)) w).

Definition new_Date : M JS.Date :=
  fun e w => (Returned (clock e (clock_pos w)), with_clock_pos (S (clock_pos w)) w).

(** [await new Promise(resolve => setTimeout(resolve, ms))]. *)
Definition sleep (ms : Q) : M unit :=
  modify (fun w => with_delays (ms :: delays w) w).

(* ================================================================== *)
(** * The matcher: [simulateFaceRecognition]                           *)
(* ================================================================== *)

(** [students.filter(s => s.photo)] keeps the students whose photo is
    a non-empty string. *)
Definition hasPhoto (s : Student.t) : bool := JS.truthy (Student.photo s).

(** [1000 * 60 * 60 * 24 * 30]: thirty days in milliseconds. *)
Definition thirtyDays : Z := 1000 * 60 * 60 * 24 * 30.

(** The confidence of one candidate, from the clock reading [now] and the
    random draw [r] of its iteration. *)
Definition simulatedConfidence (now : Z) (registeredAt : JS.Date) (r : Q) : Q :=
  let timeSinceRegistration := now - JS.getTime registeredAt in
  let baseConfidence := (0.6 + r * 0.35)%Q in
  let timeBonus :=
    JS.Math_max 0 (0.1 - inject_Z timeSinceRegistration / inject_Z thirtyDays)%Q in
  JS.Math_min 0.98 (baseConfidence + timeBonus)%Q.

(** The guard of the assignment to [bestMatch]. *)
Definition improves (confidence confidenceThreshold : Q) (bestMatch : option Match.t) : bool :=
  JS.geq confidence confidenceThreshold
  && match bestMatch with
     | None => true
     | Some b => JS.gt confidence (Match.confidence b)
     end.

(** One iteration of [for (const student of studentsWithPhotos)]. *)
Definition considerCandidate (confidenceThreshold : Q)
    (bestMatch : option Match.t) (student : Student.t) : M (option Match.t) :=
  now <- Date_now ;;
  r <- Math_random ;;
  let confidence := simulatedConfidence now (Student.registeredAt student) r in
  if improves confidence confidenceThreshold bestMatch
  then ret (Some {| Match.student := student;
                    Match.confidence := JS.toFixed2 confidence |})
  else ret bestMatch.

Fixpoint matchLoop (confidenceThreshold : Q) (studentsWithPhotos : list Student.t)
    (bestMatch : option Match.t) : M (option Match.t) :=
  match studentsWithPhotos with
  | [] => ret bestMatch
  | student :: rest =>
      bestMatch' <- considerCandidate confidenceThreshold bestMatch student ;;
      matchLoop confidenceThreshold rest bestMatch'
  end.

Definition simulateFaceRecognition (imageData : string) (students : list Student.t)
    (confidenceThreshold : Q) : M (option Match.t) :=
  let studentsWithPhotos := filter hasPhoto students in
  if Nat.eqb (List.length studentsWithPhotos) 0 then ret None
  else
    delay <- Math_random ;;
    sleep (1000 + delay * 2000)%Q ;;
    bestMatch <- matchLoop confidenceThreshold studentsWithPhotos None ;;
    miss <- Math_random ;;
    if JS.lt miss 0.15 then ret None else ret bestMatch.

(* ================================================================== *)
(** * Notifications: [useNotifications]                                *)
(* ================================================================== *)

(** [list.slice(0, n)]. *)
Definition slice0 {A} (n : nat) (l : list A) : list A := firstn n l.

(** The browser notification shown when permission was granted does not
    touch the list and is left out. *)
Definition addNotification (notification : NewNotification.t) : M unit :=
  id <- Date_now ;;
  timestamp <- new_Date ;;
  let newNotification :=
    {| NotificationMessage.id := JS.toString id;
       NotificationMessage.type := NewNotification.type notification;
       NotificationMessage.title := NewNotification.title notification;
       NotificationMessage.message := NewNotification.message notification;
       NotificationMessage.timestamp := timestamp;
       NotificationMessage.read := false |} in
  modify (fun w =>
    with_notifications (slice0 50 (newNotification :: notifications w)) w).

Definition markRead (id : string) (n : NotificationMessage.t) : NotificationMessage.t :=
  if String.eqb (NotificationMessage.id n) id
  then {| NotificationMessage.id := NotificationMessage.id n;
          NotificationMessage.type := NotificationMessage.type n;
          NotificationMessage.title := NotificationMessage.title n;
          NotificationMessage.message := NotificationMessage.message n;
          NotificationMessage.timestamp := NotificationMessage.timestamp n;
          NotificationMessage.read := true |}
  else n.

Definition markAsRead (id : string) : M unit :=
  modify (fun w => with_notifications (map (markRead id) (notifications w)) w).

Definition clearAll : M unit :=
  modify (fun w => with_notifications [] w).

(** The operations of the hook that write the list. *)
Inductive NotificationOp :=
| OpAdd (notification : NewNotification.t)
| OpMarkAsRead (id : string)
| OpClearAll.

Definition runNotificationOp (op : NotificationOp) : M unit :=
  match op with
  | OpAdd n => addNotification n
  | OpMarkAsRead id => markAsRead id
  | OpClearAll => clearAll
  end.

(* ================================================================== *)
(** * Storage: the supabase client over the schema of the migration    *)
(* ================================================================== *)

(** [{ data, error }] of a request. *)
Record Response (A : Type) := {
  resp_data : option A;
  resp_error : option Exn
}.
Arguments resp_data {A} r.
Arguments resp_error {A} r.

(** A request fails when the oracle says so; the tables are then left
    as they are.  The oracle stands for transport errors and for the
    violations of the constraints of the schema (unique email, foreign
    key, confidence range), which the embedding does not decide itself. *)
Definition request {A} (op : Env -> nat -> Backend -> A * Backend) : M (Response A) :=
  fun e w =>
    let n := call_pos w in
    let w1 := with_call_pos (S n) w in
    match faults e n with
    | Some x => (Returned {| resp_data := None; resp_error := Some x |}, w1)
    | None =>
        let '(a, b) := op e n (backend w) in
        (Returned {| resp_data := Some a; resp_error := None |}, with_backend b w1)
    end.

(** A request the storage can refuse for a reason of its own: the oracle
    is consulted first, then [op] answers with an error, the tables left
    as they are, or with its result. *)
Definition requestChecked {A} (op : Env -> nat -> Backend -> Exn + A * Backend)
  : M (Response A) :=
  fun e w =>
    let n := call_pos w in
    let w1 := with_call_pos (S n) w in
    match faults e n with
    | Some x => (Returned {| resp_data := None; resp_error := Some x |}, w1)
    | None =>
        match op e n (backend w) with
        | inl x => (Returned {| resp_data := None; resp_error := Some x |}, w1)
        | inr (a, b) =>
            (Returned {| resp_data := Some a; resp_error := None |}, with_backend b w1)
        end
    end.

(** [ORDER BY key DESC], stable. *)
Fixpoint insertDesc {A} (key : A -> Z) (x : A) (l : list A) : list A :=
  match l with
  | [] => [x]
  | y :: l' => if key y <=? key x then x :: y :: l' else y :: insertDesc key x l'
  end.

Definition orderDesc {A} (key : A -> Z) (l : list A) : list A :=
  fold_right (insertDesc key) [] l.

(** Row level security: "Anyone can view active students". *)
Definition visible (r : StudentRow.t) : bool := StudentRow.is_active r.

(** The rows a [.eq('id', id)] filter reaches. *)
Definition targeted (id : string) (r : StudentRow.t) : bool :=
  String.eqb (StudentRow.id r) id && visible r.

Definition selectStudents : M (Response (list StudentRow.t)) :=
  request (fun _ _ b =>
    (orderDesc StudentRow.created_at (filter visible (tbl_students b)), b)).

Definition selectRecords : M (Response (list RecordRow.t)) :=
  request (fun _ _ b => (orderDesc RecordRow.timestamp (tbl_records b), b)).

Definition insertStudent (d : NewStudent.t) : M (Response StudentRow.t) :=
  request (fun e n b =>
    let row :=
      {| StudentRow.id := uuid e n;
         StudentRow.name := NewStudent.name d;
         StudentRow.email := NewStudent.email d;
         StudentRow.student_id := NewStudent.studentId d;
         StudentRow.department := NewStudent.department d;
         StudentRow.year := NewStudent.year d;
         StudentRow.photo := NewStudent.photo d;
         StudentRow.is_active := true;
         StudentRow.created_at := dbNow e n |} in
    (row, {| tbl_students := tbl_students b ++ [row];
             tbl_records := tbl_records b |})).

(** [ON DELETE CASCADE] removes the records of a deleted student. *)
Definition deleteStudent (id : string) : M (Response unit) :=
  request (fun _ _ b =>
    (tt,
     {| tbl_students := filter (fun r => negb (targeted id r)) (tbl_students b);
        tbl_records :=
          if existsb (targeted id) (tbl_students b)
          then filter (fun r => negb (String.eqb (RecordRow.student_id r) id))
                      (tbl_records b)
          else tbl_records b |})).

Definition setActive (v : bool) (r : StudentRow.t) : StudentRow.t :=
  {| StudentRow.id := StudentRow.id r;
     StudentRow.name := StudentRow.name r;
     StudentRow.email := StudentRow.email r;
     StudentRow.student_id := StudentRow.student_id r;
     StudentRow.department := StudentRow.department r;
     StudentRow.year := StudentRow.year r;
     StudentRow.photo := StudentRow.photo r;
     StudentRow.is_active := v;
     StudentRow.created_at := StudentRow.created_at r |}.

(** The error of the storage for a row that a policy does not admit
    (code 42501); the client hands it over as a plain object, not as an
    [Error]. *)
Definition policyViolation : Exn :=
  {| exn_message :=
       String.append "new row violates row-level security policy for table "
         (String (ascii_of_nat 34)
            (String.append "students" (String (ascii_of_nat 34) EmptyString)));
     exn_isError := false |}.

(** An update reads the rows it filters, so the policy "Anyone can view
    active students" applies to the rows it reaches and to their new
    versions as well: the statement is refused when the new version of a
    row it reaches is not visible. *)
Definition refusesUpdate (id : string) (v : bool) (b : Backend) : bool :=
  existsb (fun r => targeted id r && negb (visible (setActive v r))) (tbl_students b).

Definition updateStudentActive (id : string) (v : bool) : M (Response unit) :=
  requestChecked (fun _ _ b =>
    if refusesUpdate id v b then inl policyViolation
    else
      inr (tt,
           {| tbl_students :=
                map (fun r => if targeted id r then setActive v r else r) (tbl_students b);
              tbl_records := tbl_records b |})).

Definition insertRecord (r : NewRecord.t) : M (Response RecordRow.t) :=
  request (fun e n b =>
    let row :=
      {| RecordRow.id := uuid e n;
         RecordRow.student_id := NewRecord.studentId r;
         RecordRow.student_name := NewRecord.studentName r;
         RecordRow.timestamp := NewRecord.timestamp r;
         RecordRow.confidence := NewRecord.confidence r;
         RecordRow.photo := NewRecord.photo r;
         RecordRow.location := NewRecord.location r;
         RecordRow.device_info := NewRecord.deviceInfo r |} in
    (row, {| tbl_students := tbl_students b;
             tbl_records := tbl_records b ++ [row] |})).

(* ================================================================== *)
(** * [useDatabase]                                                    *)
(* ================================================================== *)

Definition formatStudent (r : StudentRow.t) : Student.t :=
  {| Student.id := StudentRow.id r;
     Student.name := StudentRow.name r;
     Student.email := StudentRow.email r;
     Student.studentId := StudentRow.student_id r;
     Student.department := StudentRow.department r;
     Student.year := StudentRow.year r;
     Student.photo := StudentRow.photo r;
     Student.registeredAt := StudentRow.created_at r;
     Student.isActive := StudentRow.is_active r |}.

Definition formatRecord (r : RecordRow.t) : AttendanceRecord.t :=
  {| AttendanceRecord.id := RecordRow.id r;
     AttendanceRecord.studentId := RecordRow.student_id r;
     AttendanceRecord.studentName := RecordRow.student_name r;
     AttendanceRecord.timestamp := RecordRow.timestamp r;
     AttendanceRecord.confidence := RecordRow.confidence r;
     AttendanceRecord.photo := RecordRow.photo r;
     AttendanceRecord.location := RecordRow.location r;
     AttendanceRecord.deviceInfo := RecordRow.device_info r |}.

Definition setStudents (l : list Student.t) : M unit :=
  modify (fun w =>
    with_database {| students := l; records := records (database w);
                     db_error := db_error (database w) |} w).

Definition setRecords (l : list AttendanceRecord.t) : M unit :=
  modify (fun w =>
    with_database {| students := students (database w); records := l;
                     db_error := db_error (database w) |} w).

Definition setError (msg : string) : M unit :=
  modify (fun w =>
    with_database {| students := students (database w);
                     records := records (database w);
                     db_error := Some msg |} w).

(** [err instanceof Error ? err.message : fallback]. *)
Definition errorMessage (err : Exn) (fallback : string) : string :=
  if exn_isError err then exn_message err else fallback.

(** [data || []]. *)
Definition orEmpty {A} (d : option (list A)) : list A :=
  match d with Some l => l | None => [] end.

(** [if (error) throw error;]. *)
Definition throwIfError {A} (r : Response A) : M unit :=
  match resp_error r with
  | Some x => throw x
  | None => ret tt
  end.

Definition fetchStudents : M unit :=
  tryCatch
    (resp <- selectStudents ;;
     throwIfError resp ;;
     setStudents (map formatStudent (orEmpty (resp_data resp))))
    (fun err => setError (errorMessage err "Failed to fetch students")).

Definition fetchRecords : M unit :=
  tryCatch
    (resp <- selectRecords ;;
     throwIfError resp ;;
     setRecords (map formatRecord (orEmpty (resp_data resp))))
    (fun err => setError (errorMessage err "Failed to fetch records")).

Definition addStudent (studentData : NewStudent.t) : M (option StudentRow.t) :=
  tryCatch
    (resp <- insertStudent studentData ;;
     throwIfError resp ;;
     fetchStudents ;;
     ret (resp_data resp))
    (fun err =>
       setError (errorMessage err "Failed to add student") ;;
       throw err).

Definition removeStudent (id : string) : M unit :=
  tryCatch
    (resp <- deleteStudent id ;;
     throwIfError resp ;;
     fetchStudents ;;
     fetchRecords)
    (fun err =>
       setError (errorMessage err "Failed to remove student") ;;
       throw err).

Definition toggleStudentStatus (id : string) : M unit :=
  tryCatch
    (found <- gets (fun w =>
       find (fun s => String.eqb (Student.id s) id) (students (database w))) ;;
     match found with
     | None => ret tt
     | Some student =>
         resp <- updateStudentActive id (negb (Student.isActive student)) ;;
         throwIfError resp ;;
         fetchStudents
     end)
    (fun err =>
       setError (errorMessage err "Failed to update student status") ;;
       throw err).

Definition addAttendanceRecord (record : NewRecord.t) : M (option RecordRow.t) :=
  tryCatch
    (resp <- insertRecord record ;;
     throwIfError resp ;;
     fetchRecords ;;
     ret (resp_data resp))
    (fun err =>
       setError (errorMessage err "Failed to add attendance record") ;;
       throw err).

(** The four storage writes of the hook. *)
Inductive WriteOp :=
| AddStudent (studentData : NewStudent.t)
| RemoveStudent (id : string)
| ToggleStudentStatus (id : string)
| AddAttendanceRecord (record : NewRecord.t).

Definition runWrite (op : WriteOp) : M unit :=
  match op with
  | AddStudent d => _ <- addStudent d ;; ret tt
  | RemoveStudent id => removeStudent id
  | ToggleStudentStatus id => toggleStudentStatus id
  | AddAttendanceRecord r => _ <- addAttendanceRecord r ;; ret tt
  end.

(* ================================================================== *)
(** * The attendance policy: [handleAttendanceMarked] (App.tsx)        *)
(* ================================================================== *)

(** [parseInt(s.split(':')[0]) * 60 + parseInt(s.split(':')[1])]. *)
Definition toMinutes (s : string) : option Z :=
  JS.add (JS.mul (JS.parseIntAt (JS.split ":" s) 0) (Some 60))
         (JS.parseIntAt (JS.split ":" s) 1).

(** [currentTime >= startTime && currentTime <= endTime]. *)
Definition withinHours (currentTime : Z) (startTime endTime : option Z) : bool :=
  JS.geZ (Some currentTime) startTime && JS.leZ (Some currentTime) endTime.

(** The callback of [records.some]; a [Date] object is always truthy. *)
Definition attendedOn (tz : Z -> Z) (record : NewRecord.t) (today : Z * Z * Z)
    (r : AttendanceRecord.t) : bool :=
  String.eqb (AttendanceRecord.studentId r) (NewRecord.studentId record)
  && (true
      && JS.sameDateString (JS.toDateString tz (AttendanceRecord.timestamp r)) today).

Definition attendanceMarked (record : NewRecord.t) : NewNotification.t :=
  {| NewNotification.type := success;
     NewNotification.title := "Attendance Marked";
     NewNotification.message :=
       String.append (NewRecord.studentName record)
                     " attendance recorded successfully." |}.

Definition outsideWorkingHours (record : NewRecord.t) : NewNotification.t :=
  {| NewNotification.type := warning;
     NewNotification.title := "Outside Working Hours";
     NewNotification.message :=
       String.append "Attendance marked for "
         (String.append (NewRecord.studentName record) " outside working hours.") |}.

Definition markFailed : NewNotification.t :=
  {| NewNotification.type := error;
     NewNotification.title := "Error";
     NewNotification.message := "Failed to mark attendance. Please try again." |}.

Definition alreadyMarked (record : NewRecord.t) : NewNotification.t :=
  {| NewNotification.type := warning;
     NewNotification.title := "Already Marked";
     NewNotification.message :=
       String.append (NewRecord.studentName record)
                     " has already marked attendance today." |}.

Definition handleAttendanceMarked (record : NewRecord.t) : M unit :=
  tz <- asks tzOffset ;;
  date <- new_Date ;;
  let today := JS.toDateString tz date in
  recs <- gets (fun w => records (database w)) ;;
  let hasAttendedToday := existsb (attendedOn tz record today) recs in
  cfg <- gets settings ;;
  if negb hasAttendedToday || AttendanceSettings.allowMultipleMarking cfg then
    now <- new_Date ;;
    let currentTime := JS.getHours tz now * 60 + JS.getMinutes tz now in
    let startTime :=
      toMinutes (AttendanceSettings.start (AttendanceSettings.workingHours cfg)) in
    let endTime :=
      toMinutes (AttendanceSettings.end_ (AttendanceSettings.workingHours cfg)) in
    tryCatch
      (_ <- addAttendanceRecord record ;;
       if withinHours currentTime startTime endTime
       then addNotification (attendanceMarked record)
       else addNotification (outsideWorkingHours record))
      (fun _ => addNotification markFailed)
  else
    addNotification (alreadyMarked record).

(* ================================================================== *)
(** * The camera pipeline: [handleRecognition] (CameraView.tsx)        *)
(* ================================================================== *)

Definition setIsProcessing (v : bool) : M unit :=
  modify (fun w =>
    with_camera {| isActive := isActive (camera w); isProcessing := v;
                   lastRecognition := lastRecognition (camera w);
                   cam_confidenceThreshold := cam_confidenceThreshold (camera w) |} w).

(** The reset [setTimeout(() => setLastRecognition(null), 4000)] is a
    later event of the interface and is not part of this run. *)
Definition setLastRecognition (v : option string) : M unit :=
  modify (fun w =>
    with_camera {| isActive := isActive (camera w);
                   isProcessing := isProcessing (camera w);
                   lastRecognition := v;
                   cam_confidenceThreshold := cam_confidenceThreshold (camera w) |} w).

(** [navigator.userAgent.split(' ')[0]]. *)
Definition deviceOf (ua : string) : option string := nth_error (JS.split " " ua) 0.

Definition proposedRecord (result : Match.t) (timestamp : JS.Date)
    (frameData ua : string) : NewRecord.t :=
  {| NewRecord.studentId := Student.id (Match.student result);
     NewRecord.studentName := Student.name (Match.student result);
     NewRecord.timestamp := timestamp;
     NewRecord.confidence := Match.confidence result;
     NewRecord.photo := Some frameData;
     NewRecord.location := Some "Main Campus";
     NewRecord.deviceInfo := deviceOf ua |}.

(** [students] and [onAttendanceMarked] are the props of the component.
    The callback runs to completion where it is called. *)
Definition handleRecognition (students : list Student.t)
    (onAttendanceMarked : NewRecord.t -> M unit) : M unit :=
  cam <- gets camera ;;
  if negb (isActive cam) || isProcessing cam then ret tt
  else
    setIsProcessing true ;;
    frame <- asks captureFrame ;;
    (if JS.truthy frame then
       let frameData := match frame with Some f => f | None => EmptyString end in
       let confidenceThreshold := cam_confidenceThreshold cam in
       tryCatch
         (result <- simulateFaceRecognition frameData students confidenceThreshold ;;
          match result with
          | Some res =>
              if JS.geq (Match.confidence res) confidenceThreshold then
                timestamp <- new_Date ;;
                ua <- asks userAgent ;;
                onAttendanceMarked (proposedRecord res timestamp frameData ua) ;;
                setLastRecognition (Some (Student.name (Match.student res)))
              else ret tt
          | None => ret tt
          end)
         (fun _ => ret tt)
     else ret tt) ;;
    setIsProcessing false.

(** The wiring of [App]: the camera sees the active students and hands
    its proposals to [handleAttendanceMarked]. *)
Definition cameraTrigger : M unit :=
  all <- gets (fun w => students (database w)) ;;
  handleRecognition (filter Student.isActive all) handleAttendanceMarked.

(** The body of the interval of the component (every 3000 ms while the
    camera is active).  [autoMode] is state of the component that the
    world does not hold; the value given to [setFaceDetected] is
    returned.  The second draw is taken only in automatic mode. *)
Definition intervalTick (autoMode : bool) (students : list Student.t)
    (onAttendanceMarked : NewRecord.t -> M unit) : M bool :=
  detect <- Math_random ;;
  let faceDetected := JS.gt detect 0.4 in
  (if autoMode then
     gate <- Math_random ;;
     cam <- gets camera ;;
     if JS.gt gate 0.7 && negb (isProcessing cam)
     then handleRecognition students onAttendanceMarked
     else ret tt
   else ret tt) ;;
  ret faceDetected.

(** [isWithinWorkingHours] of the component, on the settings it is given. *)
Definition isWithinWorkingHours : M bool :=
  tz <- asks tzOffset ;;
  now <- new_Date ;;
  cfg <- gets settings ;;
  let currentTime := JS.getHours tz now * 60 + JS.getMinutes tz now in
  let startTime :=
    toMinutes (AttendanceSettings.start (AttendanceSettings.workingHours cfg)) in
  let endTime :=
    toMinutes (AttendanceSettings.end_ (AttendanceSettings.workingHours cfg)) in
  ret (JS.geZ (Some currentTime) startTime && JS.leZ (Some currentTime) endTime).

(* ================================================================== *)
(** * The student handlers of [App]                                    *)
(* ================================================================== *)

Definition studentAdded (studentData : NewStudent.t) : NewNotification.t :=
  {| NewNotification.type := success;
     NewNotification.title := "Student Added";
     NewNotification.message :=
       String.append (NewStudent.name studentData)
                     " has been successfully registered." |}.

Definition addFailed : NewNotification.t :=
  {| NewNotification.type := error;
     NewNotification.title := "Error";
     NewNotification.message := "Failed to add student. Please try again." |}.

Definition studentRemoved (student : Student.t) : NewNotification.t :=
  {| NewNotification.type := info;
     NewNotification.title := "Student Removed";
     NewNotification.message :=
       String.append (Student.name student) " has been removed from the system." |}.

Definition removeFailed : NewNotification.t :=
  {| NewNotification.type := error;
     NewNotification.title := "Error";
     NewNotification.message := "Failed to remove student. Please try again." |}.

Definition toggleFailed : NewNotification.t :=
  {| NewNotification.type := error;
     NewNotification.title := "Error";
     NewNotification.message := "Failed to update student status. Please try again." |}.

Definition handleAddStudent (studentData : NewStudent.t) : M unit :=
  tryCatch
    (_ <- addStudent studentData ;;
     addNotification (studentAdded studentData))
    (fun _ => addNotification addFailed).

Definition handleRemoveStudent (id : string) : M unit :=
  tryCatch
    (student <- gets (fun w =>
       find (fun s => String.eqb (Student.id s) id) (students (database w))) ;;
     removeStudent id ;;
     match student with
     | Some s => addNotification (studentRemoved s)
     | None => ret tt
     end)
    (fun _ => addNotification removeFailed).

Definition handleToggleStudentStatus (id : string) : M unit :=
  tryCatch
    (toggleStudentStatus id)
    (fun _ => addNotification toggleFailed).

(* ================================================================== *)
(** * The statistics of [App]                                          *)
(* ================================================================== *)

(** [new Set(items).size]: the number of distinct items. *)
Fixpoint setAdd {A} (same : A -> A -> bool) (s : list A) (x : A) : list A :=
  match s with
  | [] => [x]
  | y :: rest => if same y x then s else y :: setAdd same rest x
  end.

Definition newSet {A} (same : A -> A -> bool) (items : list A) : list A :=
  fold_left (setAdd same) items [].

Definition setSize {A} (s : list A) : Z := Z.of_nat (List.length s).

(** [records.filter(r => r.timestamp && r.timestamp.toDateString() ===
    new Date().toDateString())]: the callback reads the clock for every
    record it is given. *)
Fixpoint recordsOfToday (records : list AttendanceRecord.t) : M (list AttendanceRecord.t) :=
  match records with
  | [] => ret []
  | r :: rest =>
      tz <- asks tzOffset ;;
      now <- new_Date ;;
      let keep :=
        true && JS.sameDateString (JS.toDateString tz (AttendanceRecord.timestamp r))
                                  (JS.toDateString tz now) in
      kept <- recordsOfToday rest ;;
      ret (if keep then r :: kept else kept)
  end.

(** [students.filter(s => s.isActive).length]. *)
Definition totalStudents : M Z :=
  all <- gets (fun w => students (database w)) ;;
  ret (Z.of_nat (List.length (filter Student.isActive all))).

Definition presentToday : M Z :=
  recs <- gets (fun w => records (database w)) ;;
  today <- recordsOfToday recs ;;
  ret (setSize (newSet String.eqb (map AttendanceRecord.studentId today))).

Definition attendanceRate : M Q :=
  all <- gets (fun w => students (database w)) ;;
  if 0 <? Z.of_nat (List.length (filter Student.isActive all)) then
    recs <- gets (fun w => records (database w)) ;;
    today <- recordsOfToday recs ;;
    let present := setSize (newSet String.eqb (map AttendanceRecord.studentId today)) in
    let total := Z.of_nat (List.length (filter Student.isActive all)) in
    ret (inject_Z present / inject_Z total * 100)%Q
  else ret 0%Q.

(** [array.sort(compare)]: the sort is stable; an element stays before a
    later one unless the comparison is positive. *)
Fixpoint sortInsert {A} (compare : A -> A -> Z) (x : A) (sorted : list A) : list A :=
  match sorted with
  | [] => [x]
  | y :: rest =>
      if compare x y <=? 0 then x :: y :: rest
      else y :: sortInsert compare x rest
  end.

Definition Array_sort {A} (compare : A -> A -> Z) (l : list A) : list A :=
  fold_right (sortInsert compare) [] l.

(** [(a, b) => new Date(b.timestamp).getTime() - new Date(a.timestamp).getTime()]. *)
Definition newestFirst (a b : AttendanceRecord.t) : Z :=
  JS.getTime (AttendanceRecord.timestamp b) - JS.getTime (AttendanceRecord.timestamp a).

(** [records.filter(r => r.timestamp).sort(...).slice(0, 5)]; a [Date] is
    truthy. *)
Definition recentRecords (records : list AttendanceRecord.t) : list AttendanceRecord.t :=
  slice0 5 (Array_sort newestFirst (filter (fun _ => true) records)).

(* ================================================================== *)
(** * The notification centre: [unreadCount]                           *)
(* ================================================================== *)

(** [notifications.filter(n => !n.read).length]. *)
Definition unreadCount (notifications : list NotificationMessage.t) : nat :=
  List.length (filter (fun n => negb (NotificationMessage.read n)) notifications).

(* ================================================================== *)
(** * The attendance report: [generateAttendanceReport]                *)
(* ================================================================== *)

(** A [Map] with string keys: entries in insertion order, [set] on a
    present key replaces its value in place. *)
Module JSMap.

Definition t (V : Type) : Type := list (string * V).

Fixpoint get {V} (m : t V) (k : string) : option V :=
  match m with
  | [] => None
  | (k', v) :: rest => if String.eqb k' k then Some v else get rest k
  end.

Fixpoint set {V} (m : t V) (k : string) (v : V) : t V :=
  match m with
  | [] => [(k, v)]
  | (k', v') :: rest =>
      if String.eqb k' k then (k', v) :: rest else (k', v') :: set rest k v
  end.

End JSMap.

(** The callback of [records.forEach]: group the records by student. *)
Definition groupStep (attendanceMap : JSMap.t (list AttendanceRecord.t))
    (record : AttendanceRecord.t) : JSMap.t (list AttendanceRecord.t) :=
  let studentRecords :=
    match JSMap.get attendanceMap (AttendanceRecord.studentId record) with
    | Some l => l
    | None => []
    end in
  JSMap.set attendanceMap (AttendanceRecord.studentId record) (studentRecords ++ [record]).

Definition groupByStudent (records : list AttendanceRecord.t)
  : JSMap.t (list AttendanceRecord.t) :=
  fold_left groupStep records [].

(** [x.toFixed(1)]. *)
Definition toFixed1 (x : Q) : string :=
  let negative := JS.lt x 0%Q in
  let n := Qfloor ((if negative then - x else x) * 10 + (1 # 2))%Q in
  String.append (if negative then "-" else EmptyString)
    (String.append (JS.toString (n / 10))
       (String.append "." (JS.toString (n mod 10)))).

(** [value || 'N/A']. *)
Definition orNA (value : option string) : string :=
  match value with
  | Some s => if JS.truthy value then s else "N/A"
  | None => "N/A"
  end.

(** [Math.min(...xs)] and [Math.max(...xs)] of a list that is not empty. *)
Definition Math_minOf (x : Z) (xs : list Z) : Z := fold_left Z.min xs x.
Definition Math_maxOf (x : Z) (xs : list Z) : Z := fold_left Z.max xs x.

(** A row of [reportData]. *)
Module ReportRow.
Record t := {
  name : string;
  studentId : string;
  email : string;
  department : string;
  year : string;
  totalRecords : Z;
  uniqueDays : Z;
  avgConfidence : string;
  firstRecord : string;
  lastRecord : string
}.
End ReportRow.

Section Report.
(** [date.toLocaleDateString()] depends on the locale of the browser. *)
Variable toLocaleDateString : JS.Date -> string.
Variable tz : Z -> Z.

Definition reportRow (attendanceMap : JSMap.t (list AttendanceRecord.t))
    (student : Student.t) : ReportRow.t :=
  let studentRecords :=
    match JSMap.get attendanceMap (Student.id student) with
    | Some l => l
    | None => []
    end in
  let uniqueDays :=
    setSize (newSet JS.sameDateString
               (map (fun r => JS.toDateString tz (AttendanceRecord.timestamp r))
                    studentRecords)) in
  let count := Z.of_nat (List.length studentRecords) in
  let avgConfidence :=
    if 0 <? count
    then (fold_left (fun sum r => sum + AttendanceRecord.confidence r) studentRecords 0
          / inject_Z count)%Q
    else 0%Q in
  let times := map (fun r => JS.getTime (AttendanceRecord.timestamp r)) studentRecords in
  {| ReportRow.name := Student.name student;
     ReportRow.studentId := orNA (Student.studentId student);
     ReportRow.email := Student.email student;
     ReportRow.department := orNA (Student.department student);
     ReportRow.year := orNA (Student.year student);
     ReportRow.totalRecords := count;
     ReportRow.uniqueDays := uniqueDays;
     ReportRow.avgConfidence := toFixed1 (avgConfidence * 100)%Q;
     ReportRow.firstRecord :=
       match times with
       | t0 :: rest => toLocaleDateString (Math_minOf t0 rest)
       | [] => "N/A"
       end;
     ReportRow.lastRecord :=
       match times with
       | t0 :: rest => toLocaleDateString (Math_maxOf t0 rest)
       | [] => "N/A"
       end |}.

(** The statistics of [generateAttendanceReport], before they are
    joined into the text of the report. *)
Definition reportData (records : list AttendanceRecord.t) (students : list Student.t)
  : list ReportRow.t :=
  let attendanceMap := groupByStudent records in
  map (reportRow attendanceMap) students.
End Report.

(* ================================================================== *)
(** * The exports: [exportToCSV], [exportDetailedReport]               *)
(* ================================================================== *)

(** [parts.join(sep)]. *)
Definition join (sep : string) (parts : list string) : string := String.concat sep parts.

Definition newline : string := String (ascii_of_nat 10) EmptyString.

(** [new Map(students.map(s => [s.id, s]))]: a later entry of the same
    key replaces the value of the earlier one. *)
Definition studentMapOf (students : list Student.t) : JSMap.t Student.t :=
  fold_left (fun m s => JSMap.set m (Student.id s) s) students [].

(** [student?.field || 'N/A'] for an optional field and for a field that
    is always present. *)
Definition fieldOrNA (student : option Student.t) (field : Student.t -> option string)
  : string :=
  match student with
  | Some s => orNA (field s)
  | None => "N/A"
  end.

Section CsvExport.
(** The two formats depend on the locale of the browser. *)
Variable toLocaleDateString : JS.Date -> string.
Variable toLocaleTimeString : JS.Date -> string.

Definition csvHeaders : list string :=
  ["Student Name"; "Date"; "Time"; "Confidence"; "Location"; "Device"].

(** The fields of the line of one record in [exportToCSV]. *)
Definition csvFields (record : AttendanceRecord.t) : list string :=
  [ AttendanceRecord.studentName record;
    toLocaleDateString (AttendanceRecord.timestamp record);
    toLocaleTimeString (AttendanceRecord.timestamp record);
    String.append (toFixed1 (AttendanceRecord.confidence record * 100)%Q) "%";
    orNA (AttendanceRecord.location record);
    orNA (AttendanceRecord.deviceInfo record) ].

Definition csvLines (records : list AttendanceRecord.t) : list string :=
  join "," csvHeaders :: map (fun record => join "," (csvFields record)) records.

(** [csvContent] of [exportToCSV]; the download that follows hands this
    text to the browser. *)
Definition csvContent (records : list AttendanceRecord.t) : string :=
  join newline (csvLines records).

Definition detailedHeaders : list string :=
  ["Student Name"; "Student ID"; "Email"; "Department"; "Year";
   "Date"; "Time"; "Confidence"; "Location"; "Device"].

(** The fields of the line of one record in [exportDetailedReport]. *)
Definition detailedFields (studentMap : JSMap.t Student.t) (record : AttendanceRecord.t)
  : list string :=
  let student := JSMap.get studentMap (AttendanceRecord.studentId record) in
  [ AttendanceRecord.studentName record;
    fieldOrNA student Student.studentId;
    fieldOrNA student (fun s => Some (Student.email s));
    fieldOrNA student Student.department;
    fieldOrNA student Student.year;
    toLocaleDateString (AttendanceRecord.timestamp record);
    toLocaleTimeString (AttendanceRecord.timestamp record);
    String.append (toFixed1 (AttendanceRecord.confidence record * 100)%Q) "%";
    orNA (AttendanceRecord.location record);
    orNA (AttendanceRecord.deviceInfo record) ].

Definition detailedLines (records : list AttendanceRecord.t) (students : list Student.t)
  : list string :=
  let studentMap := studentMapOf students in
  join "," detailedHeaders
  :: map (fun record => join "," (detailedFields studentMap record)) records.
End CsvExport.

(* ================================================================== *)
(** * Pure views of the matcher                                        *)
(* ================================================================== *)

(** The confidences of the candidates of one run, in iteration order:
    the i-th candidate reads the i-th next clock value and random draw.
    The threshold is not an argument. *)
Fixpoint candidateConfidences (e : Env) (c r : nat) (l : list Student.t) : list Q :=
  match l with
  | [] => []
  | s :: rest =>
      simulatedConfidence (JS.getTime (clock e c)) (Student.registeredAt s) (rng e r)
      :: candidateConfidences e (S c) (S r) rest
  end.

(** The loop over candidates whose confidences are known. *)
Fixpoint keepBest (confidenceThreshold : Q) (l : list (Student.t * Q))
    (bestMatch : option Match.t) : option Match.t :=
  match l with
  | [] => bestMatch
  | (student, confidence) :: rest =>
      keepBest confidenceThreshold rest
        (if improves confidence confidenceThreshold bestMatch
         then Some {| Match.student := student;
                      Match.confidence := JS.toFixed2 confidence |}
         else bestMatch)
  end.

(** The world after [n] iterations of the loop. *)
Definition loopWorld (n : nat) (w : World) : World :=
  with_rand_pos (rand_pos w + n) (with_clock_pos (clock_pos w + n) w).

(** The world after a run over [n] candidates, [n > 0]. *)
Definition matchedWorld (e : Env) (n : nat) (w : World) : World :=
  with_rand_pos (rand_pos w + n + 2)
    (with_clock_pos (clock_pos w + n)
       (with_delays ((1000 + rng e (rand_pos w) * 2000)%Q :: delays w) w)).

Definition isSome {A} (o : option A) : bool :=
  match o with Some _ => true | None => false end.

(** [x] is a number of hundredths. *)
Definition twoDecimals (x : Q) : Prop := exists n : Z, (x == n # 100)%Q.

(* ================================================================== *)
(** * Pure views of the hooks                                          *)
(* ================================================================== *)

(** The notification [addNotification] builds from its argument, the
    clock reading that becomes its id and the one that becomes its
    timestamp. *)
Definition stamp (n : NewNotification.t) (id : Z) (timestamp : JS.Date)
  : NotificationMessage.t :=
  {| NotificationMessage.id := JS.toString id;
     NotificationMessage.type := NewNotification.type n;
     NotificationMessage.title := NewNotification.title n;
     NotificationMessage.message := NewNotification.message n;
     NotificationMessage.timestamp := timestamp;
     NotificationMessage.read := false |}.

(** The world after [addNotification n]. *)
Definition notified (e : Env) (n : NewNotification.t) (w : World) : World :=
  with_notifications
    (slice0 50 (stamp n (JS.getTime (clock e (clock_pos w))) (clock e (S (clock_pos w)))
                :: notifications w))
    (with_clock_pos (S (S (clock_pos w))) w).

(** The newest notification of [w] is the one built from [n]. *)
Definition announced (n : NewNotification.t) (w : World) : Prop :=
  exists id timestamp rest, notifications w = stamp n id timestamp :: rest.

(** The notifications that successive calls of [addNotification] build
    from [ns], in the order of the calls, when the readings of the clock
    start at the [c]-th: each call reads the clock twice. *)
Fixpoint stampedFrom (e : Env) (c : nat) (ns : list NewNotification.t)
  : list NotificationMessage.t :=
  match ns with
  | [] => []
  | n :: rest =>
      stamp n (JS.getTime (clock e c)) (clock e (S c)) :: stampedFrom e (S (S c)) rest
  end.

(** The world after a sequence of operations of the notification hook. *)
Definition runNotificationOps (ops : list NotificationOp) (e : Env) (w : World) : World :=
  fold_left (fun w' op => after (runNotificationOp op) e w') ops w.

Definition withError (msg : string) (w : World) : World :=
  with_database {| students := students (database w);
                   records := records (database w);
                   db_error := Some msg |} w.

(** What a successful [fetchStudents] / [fetchRecords] stores. *)
Definition listedStudents (b : Backend) : list Student.t :=
  map formatStudent (orderDesc StudentRow.created_at (filter visible (tbl_students b))).

Definition listedRecords (b : Backend) : list AttendanceRecord.t :=
  map formatRecord (orderDesc RecordRow.timestamp (tbl_records b)).

(** The world after [fetchStudents]. *)
Definition studentsFetched (e : Env) (w : World) : World :=
  let w1 := with_call_pos (S (call_pos w)) w in
  match faults e (call_pos w) with
  | Some x => withError (errorMessage x "Failed to fetch students") w1
  | None =>
      with_database {| students := listedStudents (backend w);
                       records := records (database w);
                       db_error := db_error (database w) |} w1
  end.

(** The world after [fetchRecords]. *)
Definition recordsFetched (e : Env) (w : World) : World :=
  let w1 := with_call_pos (S (call_pos w)) w in
  match faults e (call_pos w) with
  | Some x => withError (errorMessage x "Failed to fetch records") w1
  | None =>
      with_database {| students := students (database w);
                       records := listedRecords (backend w);
                       db_error := db_error (database w) |} w1
  end.

(** The row [insertRecord] adds in the [n]-th request. *)
Definition insertedRow (e : Env) (n : nat) (r : NewRecord.t) : RecordRow.t :=
  {| RecordRow.id := uuid e n;
     RecordRow.student_id := NewRecord.studentId r;
     RecordRow.student_name := NewRecord.studentName r;
     RecordRow.timestamp := NewRecord.timestamp r;
     RecordRow.confidence := NewRecord.confidence r;
     RecordRow.photo := NewRecord.photo r;
     RecordRow.location := NewRecord.location r;
     RecordRow.device_info := NewRecord.deviceInfo r |}.

(** The world after a successful [insertRecord]. *)
Definition recordInserted (e : Env) (r : NewRecord.t) (w : World) : World :=
  with_backend
    {| tbl_students := tbl_students (backend w);
       tbl_records := tbl_records (backend w) ++ [insertedRow e (call_pos w) r] |}
    (with_call_pos (S (call_pos w)) w).

(** Whether the operation issues its write, in the world it starts in:
    [toggleStudentStatus] returns early for an unknown student. *)
Definition issuesWrite (op : WriteOp) (w : World) : bool :=
  match op with
  | ToggleStudentStatus id =>
      isSome (find (fun s => String.eqb (Student.id s) id) (students (database w)))
  | _ => true
  end.

(* ================================================================== *)
(** * Pure views of the policy                                         *)
(* ================================================================== *)

(** [now.getHours() * 60 + now.getMinutes()]. *)
Definition minutesOfDay (tz : Z -> Z) (now : JS.Date) : Z :=
  JS.getHours tz now * 60 + JS.getMinutes tz now.

(** The test of the policy on the configured window. *)
Definition inWorkingHours (cfg : AttendanceSettings.t) (currentTime : Z) : bool :=
  withinHours currentTime
    (toMinutes (AttendanceSettings.start (AttendanceSettings.workingHours cfg)))
    (toMinutes (AttendanceSettings.end_ (AttendanceSettings.workingHours cfg))).

(** The notice of an accepted proposal. *)
Definition acceptanceNotice (cfg : AttendanceSettings.t) (currentTime : Z)
    (record : NewRecord.t) : NewNotification.t :=
  if inWorkingHours cfg currentTime then attendanceMarked record
  else outsideWorkingHours record.

(** [hasAttendedToday], with [today] the date of the instant [day]. *)
Definition hasAttended (e : Env) (record : NewRecord.t) (day : JS.Date) (w : World) : bool :=
  existsb (attendedOn (tzOffset e) record (JS.toDateString (tzOffset e) day))
          (records (database w)).

(** Some held record is of the student of [record] and of the calendar
    date of the instant [day]. *)
Definition markedOnDayOf (e : Env) (record : NewRecord.t) (day : JS.Date) (w : World) : Prop :=
  exists r, In r (records (database w)) /\
            AttendanceRecord.studentId r = NewRecord.studentId record /\
            JS.toDateString (tzOffset e) (AttendanceRecord.timestamp r)
            = JS.toDateString (tzOffset e) day.

(** The camera with its processing flag set to [v]. *)
Definition processing (v : bool) (w : World) : World :=
  with_camera {| isActive := isActive (camera w); isProcessing := v;
                 lastRecognition := lastRecognition (camera w);
                 cam_confidenceThreshold := cam_confidenceThreshold (camera w) |} w.

(** The camera showing [name] as the last recognition. *)
Definition recognised (name : string) (w : World) : World :=
  with_camera {| isActive := isActive (camera w);
                 isProcessing := isProcessing (camera w);
                 lastRecognition := Some name;
                 cam_confidenceThreshold := cam_confidenceThreshold (camera w) |} w.

(** The frame the camera works on when [captureFrame] gave one. *)
Definition frameOf (e : Env) : string :=
  match captureFrame e with Some f => f | None => EmptyString end.

(* ================================================================== *)
(** * Pure views of the further code                                   *)
(* ================================================================== *)

(** The row [insertStudent] adds in the [n]-th request. *)
Definition insertedStudent (e : Env) (n : nat) (d : NewStudent.t) : StudentRow.t :=
  {| StudentRow.id := uuid e n;
     StudentRow.name := NewStudent.name d;
     StudentRow.email := NewStudent.email d;
     StudentRow.student_id := NewStudent.studentId d;
     StudentRow.department := NewStudent.department d;
     StudentRow.year := NewStudent.year d;
     StudentRow.photo := NewStudent.photo d;
     StudentRow.is_active := true;
     StudentRow.created_at := dbNow e n |}.

(** The worlds after a successful insert, delete and update of a student. *)
Definition studentInserted (e : Env) (d : NewStudent.t) (w : World) : World :=
  with_backend
    {| tbl_students := tbl_students (backend w) ++ [insertedStudent e (call_pos w) d];
       tbl_records := tbl_records (backend w) |}
    (with_call_pos (S (call_pos w)) w).

Definition studentDeleted (id : string) (w : World) : World :=
  with_backend
    {| tbl_students := filter (fun r => negb (targeted id r)) (tbl_students (backend w));
       tbl_records :=
         if existsb (targeted id) (tbl_students (backend w))
         then filter (fun r => negb (String.eqb (RecordRow.student_id r) id))
                     (tbl_records (backend w))
         else tbl_records (backend w) |}
    (with_call_pos (S (call_pos w)) w).

Definition statusUpdated (id : string) (v : bool) (w : World) : World :=
  with_backend
    {| tbl_students :=
         map (fun r => if targeted id r then setActive v r else r)
             (tbl_students (backend w));
       tbl_records := tbl_records (backend w) |}
    (with_call_pos (S (call_pos w)) w).

(** The student held locally under [id], as [students.find] gives it. *)
Definition heldStudent (id : string) (w : World) : option Student.t :=
  find (fun s => String.eqb (Student.id s) id) (students (database w)).

(** Whether the storage refuses the update that [toggleStudentStatus id]
    sends from the world [w]. *)
Definition toggleRefused (id : string) (w : World) : bool :=
  match heldStudent id w with
  | Some s => refusesUpdate id (negb (Student.isActive s)) (backend w)
  | None => false
  end.

(** The operations of [useDatabase] that reach the storage. *)
Inductive HookOp :=
| FetchStudents
| FetchRecords
| Write (op : WriteOp).

Definition runHookOp (op : HookOp) : M unit :=
  match op with
  | FetchStudents => fetchStudents
  | FetchRecords => fetchRecords
  | Write o => runWrite o
  end.

(** The student handlers of [App]. *)
Inductive StudentAction :=
| DoAdd (studentData : NewStudent.t)
| DoRemove (id : string)
| DoToggle (id : string).

Definition runStudentAction (a : StudentAction) : M unit :=
  match a with
  | DoAdd d => handleAddStudent d
  | DoRemove id => handleRemoveStudent id
  | DoToggle id => handleToggleStudentStatus id
  end.

Definition writeOf (a : StudentAction) : WriteOp :=
  match a with
  | DoAdd d => AddStudent d
  | DoRemove id => RemoveStudent id
  | DoToggle id => ToggleStudentStatus id
  end.

Definition failureNotice (a : StudentAction) : NewNotification.t :=
  match a with
  | DoAdd _ => addFailed
  | DoRemove _ => removeFailed
  | DoToggle _ => toggleFailed
  end.

(** The records of [student], in the order they are held. *)
Definition recordsOf (id : string) (records : list AttendanceRecord.t)
  : list AttendanceRecord.t :=
  filter (fun r => String.eqb (AttendanceRecord.studentId r) id) records.

(** A list in descending order of [key]. *)
Fixpoint descending {A} (key : A -> Z) (l : list A) : Prop :=
  match l with
  | [] => True
  | x :: rest => (forall y, In y rest -> key y <= key x) /\ descending key rest
  end.

(** The records [recordsOfToday] keeps when the readings of the clock
    start at the [c]-th. *)
Fixpoint keptToday (e : Env) (c : nat) (records : list AttendanceRecord.t)
  : list AttendanceRecord.t :=
  match records with
  | [] => []
  | r :: rest =>
      if JS.sameDateString (JS.toDateString (tzOffset e) (AttendanceRecord.timestamp r))
                           (JS.toDateString (tzOffset e) (clock e c))
      then r :: keptToday e (S c) rest
      else keptToday e (S c) rest
  end.

(** Every held record is of a student that is held as active. *)
Definition recordsOfActiveStudents (w : World) : Prop :=
  forall r, In r (records (database w)) ->
    exists s, In s (students (database w)) /\ Student.isActive s = true /\
              Student.id s = AttendanceRecord.studentId r.

Definition sumZ (l : list Z) : Z := fold_right Z.add 0 l.

(** The time value of a record. *)
Definition timeOf (r : AttendanceRecord.t) : Z := JS.getTime (AttendanceRecord.timestamp r).

(** What the map holds for a key when the records [done] went in. *)
Definition grouped (done : list AttendanceRecord.t) (id : string)
  : option (list AttendanceRecord.t) :=
  match recordsOf id done with
  | [] => None
  | l => Some l
  end.

(** The number of occurrences of a character in a text. *)
Fixpoint countChar (c : ascii) (s : string) : nat :=
  match s with
  | EmptyString => 0
  | String a rest => (if Ascii.eqb a c then 1 else 0) + countChar c rest
  end.

Definition countIn (c : ascii) (parts : list string) : nat :=
  fold_right (fun p n => countChar c p + n)%nat 0%nat parts.

(* ================================================================== *)
(** * Concrete environments and worlds                                 *)
(* ================================================================== *)

Module Sample.

(** 2026-11-01T00:00:00Z; the zone of the samples is UTC. *)
Definition midnight : Z := 20758 * JS.msPerDay.

Definition at_ (h m : Z) : JS.Date := midnight + h * 3600000 + m * 60000.

Definition mkStudent (id name : string) (photo : option string) : Student.t :=
  {| Student.id := id; Student.name := name;
     Student.email := String.append id "@example.org";
     Student.studentId := None; Student.department := None;
     Student.year := None; Student.photo := photo;
     Student.registeredAt := 0; Student.isActive := true |}.

Definition alice : Student.t := mkStudent "s-1" "Alice" (Some "data:image/jpeg;base64,AA").
Definition bob : Student.t := mkStudent "s-2" "Bob" (Some "data:image/jpeg;base64,BB").
Definition carol : Student.t := mkStudent "s-3" "Carol" None.
Definition dave : Student.t := mkStudent "s-4" "Dave" (Some EmptyString).

Definition rowOf (s : Student.t) : StudentRow.t :=
  {| StudentRow.id := Student.id s; StudentRow.name := Student.name s;
     StudentRow.email := Student.email s;
     StudentRow.student_id := Student.studentId s;
     StudentRow.department := Student.department s;
     StudentRow.year := Student.year s; StudentRow.photo := Student.photo s;
     StudentRow.is_active := Student.isActive s;
     StudentRow.created_at := Student.registeredAt s |}.

Definition mkEnv (draws : list Q) (ticks : list JS.Date)
    (errors : list (option Exn)) : Env :=
  {| rng := fun n => nth n draws 0.5%Q;
     clock := fun n => nth n ticks (last ticks midnight);
     tzOffset := fun _ => 0;
     faults := fun n => nth n errors None;
     uuid := fun n => String.append "row-" (JS.toString (Z.of_nat n));
     dbNow := fun _ => midnight;
     captureFrame := Some "data:image/jpeg;base64,FRAME";
     userAgent := "Mozilla/5.0 (X11; Linux x86_64)" |}.

Definition defaultSettings : AttendanceSettings.t :=
  {| AttendanceSettings.autoMarkingEnabled := true;
     AttendanceSettings.confidenceThreshold := 0.75;
     AttendanceSettings.allowMultipleMarking := false;
     AttendanceSettings.workingHours :=
       {| AttendanceSettings.start := "09:00"; AttendanceSettings.end_ := "17:00" |} |}.

Definition multipleSettings : AttendanceSettings.t :=
  {| AttendanceSettings.autoMarkingEnabled := true;
     AttendanceSettings.confidenceThreshold := 0.75;
     AttendanceSettings.allowMultipleMarking := true;
     AttendanceSettings.workingHours :=
       {| AttendanceSettings.start := "09:00"; AttendanceSettings.end_ := "17:00" |} |}.

(** A window that crosses midnight. *)
Definition nightSettings : AttendanceSettings.t :=
  {| AttendanceSettings.autoMarkingEnabled := true;
     AttendanceSettings.confidenceThreshold := 0.75;
     AttendanceSettings.allowMultipleMarking := false;
     AttendanceSettings.workingHours :=
       {| AttendanceSettings.start := "22:00"; AttendanceSettings.end_ := "06:00" |} |}.

Definition mkWorld (cfg : AttendanceSettings.t) (threshold : Q)
    (sts : list Student.t) (recs : list RecordRow.t)
    (notes : list NotificationMessage.t) : World :=
  {| rand_pos := 0; clock_pos := 0; call_pos := 0; delays := [];
     backend := {| tbl_students := map rowOf sts; tbl_records := recs |};
     database := {| students := sts; records := map formatRecord recs;
                    db_error := None |};
     notifications := notes;
     settings := cfg;
     camera := {| isActive := true; isProcessing := false;
                  lastRecognition := None;
                  cam_confidenceThreshold := threshold |} |}.

Definition world0 : World := mkWorld defaultSettings 0.75 [alice; bob; carol] [] [].

Definition transportError : Exn :=
  {| exn_message := "TypeError: Failed to fetch"; exn_isError := true |}.

(** A record of Alice at the given instant. *)
Definition aliceAt (t : JS.Date) : NewRecord.t :=
  {| NewRecord.studentId := "s-1"; NewRecord.studentName := "Alice";
     NewRecord.timestamp := t; NewRecord.confidence := 0.88;
     NewRecord.photo := Some "data:image/jpeg;base64,FRAME";
     NewRecord.location := Some "Main Campus";
     NewRecord.deviceInfo := Some "Mozilla/5.0" |}.

Definition aliceRow (id : string) (t : JS.Date) : RecordRow.t :=
  {| RecordRow.id := id; RecordRow.student_id := "s-1";
     RecordRow.student_name := "Alice"; RecordRow.timestamp := t;
     RecordRow.confidence := 0.88;
     RecordRow.photo := Some "data:image/jpeg;base64,FRAME";
     RecordRow.location := Some "Main Campus";
     RecordRow.device_info := Some "Mozilla/5.0" |}.

Definition bobRow (id : string) (t : JS.Date) : RecordRow.t :=
  {| RecordRow.id := id; RecordRow.student_id := "s-2";
     RecordRow.student_name := "Bob"; RecordRow.timestamp := t;
     RecordRow.confidence := 0.91;
     RecordRow.photo := Some "data:image/jpeg;base64,FRAME";
     RecordRow.location := Some "Main Campus";
     RecordRow.device_info := Some "Mozilla/5.0" |}.

Definition note (n : Z) : NotificationMessage.t :=
  {| NotificationMessage.id := JS.toString n;
     NotificationMessage.type := info;
     NotificationMessage.title := "Student Removed";
     NotificationMessage.message := "Carol has been removed from the system.";
     NotificationMessage.timestamp := n;
     NotificationMessage.read := false |}.

(** Fifty notifications, the newest (largest id) first. *)
Definition fifty : list NotificationMessage.t :=
  map (fun k => note (Z.of_nat k)) (rev (seq 1 50)).

(** A callback that refuses what lies below 0.75. *)
Definition gated (r : NewRecord.t) : M unit :=
  if JS.geq (NewRecord.confidence r) 0.75 then handleAttendanceMarked r
  else throw transportError.

End Sample.

(* ================================================================== *)
(** * The runtime: checks                                              *)
(* ================================================================== *)

Example split_hhmm : JS.split ":" "09:00" = ["09"; "00"].
Proof. reflexivity. Qed.

Example parseInt_09 : JS.parseInt "09" = Some 9.
Proof. reflexivity. Qed.

Example parseInt_nan : JS.parseInt "nine" = None.
Proof. reflexivity. Qed.

Example toFixed2_round_up : JS.toFixed2 (8765 # 10000) = (88 # 100)%Q.
Proof. reflexivity. Qed.

Example toFixed2_round_down : JS.toFixed2 (754 # 1000) = (75 # 100)%Q.
Proof. reflexivity. Qed.

(** Day numbers of the epoch and their dates. *)
Example civil_epoch : JS.civil 0 = (1970, 1, 1).
Proof. reflexivity. Qed.

Example civil_before_epoch : JS.civil (-1) = (1969, 12, 31).
Proof. reflexivity. Qed.

Example civil_leap_day : JS.civil 11016 = (2000, 2, 29).
Proof. reflexivity. Qed.

Example civil_sample_day : JS.civil 20758 = (2026, 11, 1).
Proof. reflexivity. Qed.

(** In a zone five and a half hours ahead of UTC, 2026-11-01T20:00Z is
    already 2 November, 01:30. *)
Example local_time_ahead :
  let tz := fun _ : Z => -330 in
  let d := Sample.at_ 20 0 in
  JS.toDateString tz d = (2026, 11, 2) /\ JS.getHours tz d = 1 /\ JS.getMinutes tz d = 30.
Proof. cbv zeta. repeat split. Qed.

(* ================================================================== *)
(** * The matcher: proofs                                              *)
(* ================================================================== *)

Arguments simulatedConfidence : simpl never.
Arguments improves : simpl never.
Arguments JS.toFixed2 : simpl never.
Arguments JS.lt : simpl never.
Arguments JS.geq : simpl never.
Arguments JS.gt : simpl never.

Ltac unfold_monad :=
  unfold result, after, bind, ret, throw, tryCatch, gets, asks, modify,
    Math_random, Date_now, new_Date, sleep in *.

Lemma matchLoop_spec (e : Env) (t : Q) (l : list Student.t) :
  forall (b : option Match.t) (w : World),
    matchLoop t l b e w =
    (Returned (keepBest t (combine l (candidateConfidences e (clock_pos w) (rand_pos w) l)) b),
     loopWorld (List.length l) w).
Proof.
  induction l as [| s rest IH]; intros b w.
  - cbn. unfold ret, loopWorld, with_rand_pos, with_clock_pos. cbn.
    rewrite !Nat.add_0_r. destruct w; reflexivity.
  - cbn [matchLoop]. unfold bind at 1.
    unfold considerCandidate. unfold_monad. cbn.
    destruct (improves _ t b) eqn:Himp;
      rewrite IH; cbn; f_equal;
      unfold loopWorld, with_rand_pos, with_clock_pos; cbn;
      f_equal; lia.
Qed.

Lemma simulateFaceRecognition_empty (e : Env) (w : World) (img : string)
    (sts : list Student.t) (t : Q) :
  filter hasPhoto sts = [] ->
  simulateFaceRecognition img sts t e w = (Returned None, w).
Proof.
  intros H. unfold simulateFaceRecognition. rewrite H. reflexivity.
Qed.

Lemma simulateFaceRecognition_spec (e : Env) (w : World) (img : string)
    (sts : list Student.t) (t : Q) :
  filter hasPhoto sts <> [] ->
  let cands := filter hasPhoto sts in
  let n := List.length cands in
  simulateFaceRecognition img sts t e w =
  (Returned
     (if JS.lt (rng e (rand_pos w + n + 1)) 0.15 then None
      else keepBest t
             (combine cands (candidateConfidences e (clock_pos w) (S (rand_pos w)) cands))
             None),
   matchedWorld e n w).
Proof.
  intros H cands n. unfold simulateFaceRecognition. fold cands.
  assert (Hn : n <> 0%nat).
  { subst n cands. destruct (filter hasPhoto sts); [congruence | discriminate]. }
  fold n. destruct (Nat.eqb_spec n 0) as [|_]; [contradiction |].
  unfold bind at 1. unfold Math_random at 1.
  unfold bind at 1. unfold sleep, modify.
  unfold bind at 1. rewrite matchLoop_spec. fold n.
  unfold bind at 1. unfold Math_random, ret. cbn.
  replace (S (rand_pos w + n)) with (rand_pos w + n + 1)%nat by lia.
  assert (Hw : with_rand_pos (S (rand_pos w + n + 1))
                 (loopWorld n
                    (with_delays ((1000 + rng e (rand_pos w) * 2000)%Q :: delays w)
                       (with_rand_pos (S (rand_pos w)) w)))
               = matchedWorld e n w).
  { unfold matchedWorld, loopWorld, with_rand_pos, with_clock_pos, with_delays.
    cbn. f_equal; lia. }
  destruct (JS.lt _ _); rewrite Hw; reflexivity.
Qed.

(** ** Rounding to two decimals *)

Lemma lt_true (a b : Q) : JS.lt a b = true <-> (a < b)%Q.
Proof.
  unfold JS.lt. rewrite negb_true_iff. split; intros H.
  - apply Qnot_le_lt. intros Hle. apply Qle_bool_iff in Hle. congruence.
  - destruct (Qle_bool b a) eqn:E; [| reflexivity].
    apply Qle_bool_iff in E. exfalso. exact (Qlt_not_le _ _ H E).
Qed.

Lemma lt_false (a b : Q) : JS.lt a b = false <-> (b <= a)%Q.
Proof.
  unfold JS.lt. rewrite negb_false_iff. apply Qle_bool_iff.
Qed.

Lemma geq_true (a b : Q) : JS.geq a b = true <-> (b <= a)%Q.
Proof. unfold JS.geq. apply Qle_bool_iff. Qed.

Lemma hundredths_le (a b : Z) : (a <= b)%Z -> (a # 100 <= b # 100)%Q.
Proof. intros H. unfold Qle. cbn. lia. Qed.

Lemma nearestHundredth_mono (x y : Q) :
  (x <= y)%Q -> (JS.nearestHundredth x <= JS.nearestHundredth y)%Z.
Proof.
  intros H. unfold JS.nearestHundredth. apply Qfloor_resp_le.
  apply Qplus_le_l. apply Qmult_le_compat_r; [exact H | discriminate].
Qed.

Lemma nearestHundredth_nonneg (x : Q) : (0 <= x)%Q -> (0 <= JS.nearestHundredth x)%Z.
Proof.
  intros H. change 0%Z with (JS.nearestHundredth 0). now apply nearestHundredth_mono.
Qed.

Lemma toFixed2_mono (x y : Q) : (x <= y)%Q -> (JS.toFixed2 x <= JS.toFixed2 y)%Q.
Proof.
  intros H. unfold JS.toFixed2.
  destruct (JS.lt x 0) eqn:Hx; destruct (JS.lt y 0) eqn:Hy.
  - apply hundredths_le.
    assert (JS.nearestHundredth (- y) <= JS.nearestHundredth (- x))%Z
      by (apply nearestHundredth_mono; now apply Qopp_le_compat).
    lia.
  - apply lt_true in Hx. apply lt_false in Hy. apply hundredths_le.
    assert (0 <= JS.nearestHundredth (- x))%Z.
    { apply nearestHundredth_nonneg. apply Qlt_le_weak in Hx.
      apply Qopp_le_compat in Hx. exact Hx. }
    assert (0 <= JS.nearestHundredth y)%Z by now apply nearestHundredth_nonneg.
    lia.
  - apply lt_false in Hx. apply lt_true in Hy. exfalso.
    apply (Qlt_not_le _ _ Hy). now apply Qle_trans with x.
  - apply hundredths_le. now apply nearestHundredth_mono.
Qed.

Lemma toFixed2_twoDecimals (x : Q) : twoDecimals (JS.toFixed2 x).
Proof.
  unfold twoDecimals, JS.toFixed2.
  destruct (JS.lt x 0); eexists; reflexivity.
Qed.

Lemma toFixed2_hundredth (n : Z) : (JS.toFixed2 (n # 100) == n # 100)%Q.
Proof.
  unfold JS.toFixed2, JS.nearestHundredth, JS.lt, Qle_bool, Qfloor, Qeq.
  cbn. destruct (Z.leb_spec 0 (n * 1)); cbn.
  - replace ((n * 100 * 2 + 100) / 200)%Z with n; [lia |].
    apply Z.div_unique with (r := 100%Z); lia.
  - replace ((- n * 100 * 2 + 100) / 200)%Z with (- n)%Z; [lia |].
    apply Z.div_unique with (r := 100%Z); lia.
Qed.

Lemma toFixed2_fixpoint (t : Q) : twoDecimals t -> (JS.toFixed2 t == t)%Q.
Proof.
  intros [n Hn].
  assert (H1 : (JS.toFixed2 t <= JS.toFixed2 (n # 100))%Q)
    by (apply toFixed2_mono, Qle_lteq; right; exact Hn).
  assert (H2 : (JS.toFixed2 (n # 100) <= JS.toFixed2 t)%Q)
    by (apply toFixed2_mono, Qle_lteq; right; symmetry; exact Hn).
  pose proof (toFixed2_hundredth n) as Hf.
  apply Qeq_trans with (n # 100); [| symmetry; exact Hn].
  apply Qle_antisym.
  - apply Qle_trans with (JS.toFixed2 (n # 100)); [exact H1 |].
    apply Qle_lteq; right; exact Hf.
  - apply Qle_trans with (JS.toFixed2 (n # 100)); [| exact H2].
    apply Qle_lteq; right; symmetry; exact Hf.
Qed.

(** ** Confidences *)

Lemma Math_min_le_l (a b : Q) : (JS.Math_min a b <= a)%Q.
Proof.
  unfold JS.Math_min. destruct (Qle_bool a b) eqn:E.
  - apply Qle_refl.
  - destruct (Qlt_le_dec b a) as [H | H]; [now apply Qlt_le_weak |].
    apply Qle_bool_iff in H. congruence.
Qed.

Lemma simulatedConfidence_le (now : Z) (reg : JS.Date) (r : Q) :
  (simulatedConfidence now reg r <= 0.98)%Q.
Proof. unfold simulatedConfidence. apply Math_min_le_l. Qed.

Lemma candidateConfidences_le (e : Env) (l : list Student.t) :
  forall (c r : nat) (x : Q),
    In x (candidateConfidences e c r l) -> (x <= 0.98)%Q.
Proof.
  induction l as [| s rest IH]; intros c r x Hin; cbn in Hin.
  - contradiction.
  - destruct Hin as [<- | Hin]; [apply simulatedConfidence_le | eauto].
Qed.

(** ** The loop *)

Lemma improves_valid (c t : Q) (b : option Match.t) :
  improves c t b = true -> (t <= c)%Q.
Proof.
  unfold improves. intros H. apply andb_true_iff in H. now apply geq_true.
Qed.

Lemma keepBest_origin (t : Q) (l : list (Student.t * Q)) :
  forall (b : option Match.t) (m : Match.t),
    keepBest t l b = Some m ->
    b = Some m \/
    exists s c, In (s, c) l /\ (t <= c)%Q /\
                m = {| Match.student := s; Match.confidence := JS.toFixed2 c |}.
Proof.
  induction l as [| [s c] rest IH]; intros b m H; cbn in H.
  - now left.
  - apply IH in H. destruct H as [H | (s' & c' & Hin & Hc & Hm)].
    + destruct (improves c t b) eqn:Himp.
      * right. exists s, c. repeat split.
        -- now left.
        -- now apply improves_valid in Himp.
        -- congruence.
      * now left.
    + right. exists s', c'. repeat split; auto. now right.
Qed.

Lemma keepBest_isSome (t : Q) (l : list (Student.t * Q)) :
  forall b : option Match.t,
    isSome (keepBest t l b) = isSome b || existsb (fun sc => JS.geq (snd sc) t) l.
Proof.
  induction l as [| [s c] rest IH]; intros b; cbn.
  - now rewrite orb_false_r.
  - rewrite IH. unfold improves.
    destruct b as [m |]; cbn.
    + now destruct (JS.geq c t && JS.gt c (Match.confidence m)).
    + rewrite andb_true_r. now destruct (JS.geq c t).
Qed.

Lemma valid_weaken (t t' : Q) (l : list (Student.t * Q)) :
  (t' <= t)%Q ->
  existsb (fun sc => JS.geq (snd sc) t) l = true ->
  existsb (fun sc => JS.geq (snd sc) t') l = true.
Proof.
  intros Hle H. apply existsb_exists in H. destruct H as (sc & Hin & Hv).
  apply existsb_exists. exists sc. split; [exact Hin |].
  apply geq_true in Hv. apply geq_true. now apply Qle_trans with t.
Qed.

(* ================================================================== *)
(** * The matcher: the properties                                      *)
(* ================================================================== *)

(** C6. When no student has a non-empty reference photo the matcher
    returns no match, for every frame and threshold, and leaves the world
    as it found it: no random draw is taken, no delay is awaited. *)
Theorem empty_candidates_no_match (e : Env) (w : World) (img : string)
    (sts : list Student.t) (t : Q) :
  filter hasPhoto sts = [] ->
  result (simulateFaceRecognition img sts t) e w = Returned None /\
  after (simulateFaceRecognition img sts t) e w = w /\
  rand_pos (after (simulateFaceRecognition img sts t) e w) = rand_pos w /\
  delays (after (simulateFaceRecognition img sts t) e w) = delays w.
Proof.
  intros H. unfold result, after.
  rewrite (simulateFaceRecognition_empty e w img sts t H). cbn. auto.
Qed.

Lemma empty_candidates_no_match_witness :
  filter hasPhoto [Sample.carol; Sample.dave] = [] /\
  result (simulateFaceRecognition "frame" [Sample.carol; Sample.dave] 0.75)
         (Sample.mkEnv [] [] []) Sample.world0 = Returned None.
Proof.
  split; [reflexivity |].
  apply (empty_candidates_no_match (Sample.mkEnv [] [] []) Sample.world0 "frame"
           [Sample.carol; Sample.dave] 0.75).
  reflexivity.
Defined.

(** C5. Threshold monotonicity: with the same environment (the same random
    draws and clock readings), a match at threshold [t] implies a match at
    every threshold [t' <= t].  The runs end in the same world, so they
    consume the same draws, and at every threshold the result is read off
    the same list of candidate confidences, which does not mention the
    threshold: only the test against it changes. *)
Theorem threshold_monotonicity (e : Env) (w : World) (img : string)
    (sts : list Student.t) (t t' : Q) (m : Match.t) :
  (t' <= t)%Q ->
  result (simulateFaceRecognition img sts t) e w = Returned (Some m) ->
  (exists m', result (simulateFaceRecognition img sts t') e w = Returned (Some m')) /\
  after (simulateFaceRecognition img sts t') e w =
  after (simulateFaceRecognition img sts t) e w /\
  (let cands := filter hasPhoto sts in
   let confidences := candidateConfidences e (clock_pos w) (S (rand_pos w)) cands in
   forall threshold,
     result (simulateFaceRecognition img sts threshold) e w =
     Returned (if JS.lt (rng e (rand_pos w + List.length cands + 1)) 0.15 then None
               else keepBest threshold (combine cands confidences) None)).
Proof.
  intros Hle Hres. unfold result, after in *.
  assert (Hne : filter hasPhoto sts <> []).
  { intros Hc. rewrite (simulateFaceRecognition_empty e w img sts t Hc) in Hres.
    discriminate. }
  pose proof (fun th => simulateFaceRecognition_spec e w img sts th Hne) as Hs.
  cbv zeta in Hs. rewrite (Hs t) in *. rewrite (Hs t'). cbn [fst snd] in *.
  split; [| split; [reflexivity | intros th; now rewrite (Hs th)]].
  destruct (JS.lt _ 0.15); [discriminate |].
  injection Hres as Hres.
  match goal with
  | |- exists _, Returned (keepBest t' ?l None) = _ =>
      pose proof (keepBest_isSome t l None) as Ha;
      pose proof (keepBest_isSome t' l None) as Hb;
      destruct (keepBest t' l None) as [m' |] eqn:Hk'
  end.
  - now exists m'.
  - rewrite Hres in Ha. cbn in Ha, Hb. symmetry in Ha.
    rewrite (valid_weaken t t' _ Hle Ha) in Hb. discriminate.
Qed.

Lemma threshold_monotonicity_witness :
  let e := Sample.mkEnv [0.5; 0.79; 0.795; 0.5]%Q [Sample.at_ 9 0] [] in
  let alice := {| Match.student := Sample.alice; Match.confidence := 0.88 |} in
  (0.5 <= 0.75)%Q /\
  result (simulateFaceRecognition "frame" [Sample.alice; Sample.bob] 0.75)
         e Sample.world0 = Returned (Some alice) /\
  exists m',
    result (simulateFaceRecognition "frame" [Sample.alice; Sample.bob] 0.5)
           e Sample.world0 = Returned (Some m').
Proof.
  intros e alice.
  assert (Hle : (0.5 <= 0.75)%Q) by discriminate.
  split; [exact Hle |]. split; [reflexivity |].
  apply (threshold_monotonicity e Sample.world0 "frame" [Sample.alice; Sample.bob]
           0.75 0.5 alice Hle eq_refl).
Defined.

(** C7. On a run that reaches the matching (some student has a photo),
    the false-negative draw is taken once, after the loop over the [n]
    candidates: the run takes [n + 2] draws (delay, one per candidate,
    gate), the gate is the last of them, and a gate draw below 0.15 gives
    no match whatever the loop kept; otherwise the result is what the
    loop kept. *)
Theorem false_negative_gate (e : Env) (w : World) (img : string)
    (sts : list Student.t) (t : Q) :
  filter hasPhoto sts <> [] ->
  let cands := filter hasPhoto sts in
  let n := List.length cands in
  let kept :=
    keepBest t (combine cands (candidateConfidences e (clock_pos w) (S (rand_pos w)) cands))
             None in
  let gate := rng e (rand_pos w + n + 1) in
  rand_pos (after (simulateFaceRecognition img sts t) e w) = (rand_pos w + n + 2)%nat /\
  ((gate < 0.15)%Q ->
     result (simulateFaceRecognition img sts t) e w = Returned None) /\
  ((0.15 <= gate)%Q ->
     result (simulateFaceRecognition img sts t) e w = Returned kept).
Proof.
  intros Hne cands n kept gate. unfold result, after.
  pose proof (simulateFaceRecognition_spec e w img sts t Hne) as Hs.
  cbv zeta in Hs. rewrite Hs. cbn [fst snd]. fold cands n gate kept.
  split; [reflexivity |]. split; intros Hg.
  - apply lt_true in Hg. now rewrite Hg.
  - apply lt_false in Hg. now rewrite Hg.
Qed.

(** Alice's simulated confidence (0.8765) clears the threshold 0.75 and
    the loop keeps her, yet the gate draw 0.1 turns the result into no
    match. *)
Lemma false_negative_gate_witness :
  let e := Sample.mkEnv [0.5; 0.79; 0.1]%Q [Sample.at_ 9 0] [] in
  filter hasPhoto [Sample.alice; Sample.carol] <> [] /\
  (rng e 2 < 0.15)%Q /\
  keepBest 0.75
    (combine [Sample.alice] (candidateConfidences e 0 1 [Sample.alice])) None
  = Some {| Match.student := Sample.alice; Match.confidence := 0.88 |} /\
  rand_pos (after (simulateFaceRecognition "frame" [Sample.alice; Sample.carol] 0.75)
                  e Sample.world0) = 3%nat /\
  result (simulateFaceRecognition "frame" [Sample.alice; Sample.carol] 0.75)
         e Sample.world0 = Returned None.
Proof.
  intros e.
  assert (Hne : filter hasPhoto [Sample.alice; Sample.carol] <> []) by discriminate.
  assert (Hg : (rng e 2 < 0.15)%Q) by reflexivity.
  destruct (false_negative_gate e Sample.world0 "frame" [Sample.alice; Sample.carol]
              0.75 Hne) as (Hpos & Hmiss & _).
  split; [exact Hne |]. split; [exact Hg |]. split; [reflexivity |].
  split; [exact Hpos | exact (Hmiss Hg)].
Defined.

(** C4, refuted as stated: at threshold 0.753 a candidate of simulated
    confidence 0.754 is accepted and reported with confidence 0.75, below
    the threshold. *)
Lemma rounded_confidence_below_threshold :
  exists m,
    result (simulateFaceRecognition "frame" [Sample.alice] 0.753)
           (Sample.mkEnv [0.5; 0.44; 0.5]%Q [Sample.at_ 9 0] [])
           Sample.world0 = Returned (Some m) /\
    ~ (0.753 <= Match.confidence m)%Q.
Proof.
  eexists. split; [reflexivity |]. intros H. vm_compute in H. now apply H.
Qed.

(** The bounds of the confidence of a match, shared by the matcher and
    the camera pipeline. *)
Lemma match_confidence (e : Env) (w : World) (img : string)
    (sts : list Student.t) (t : Q) (m : Match.t) :
  result (simulateFaceRecognition img sts t) e w = Returned (Some m) ->
  twoDecimals (Match.confidence m) /\
  (JS.toFixed2 t <= Match.confidence m)%Q /\
  (Match.confidence m <= 0.98)%Q.
Proof.
  intros Hres. unfold result in Hres.
  assert (Hne : filter hasPhoto sts <> []).
  { intros Hc. rewrite (simulateFaceRecognition_empty e w img sts t Hc) in Hres.
    discriminate. }
  pose proof (simulateFaceRecognition_spec e w img sts t Hne) as Hs.
  cbv zeta in Hs. rewrite Hs in Hres. cbn [fst] in Hres.
  destruct (JS.lt _ 0.15); [discriminate |].
  injection Hres as Hres.
  apply keepBest_origin in Hres.
  destruct Hres as [Hres | (s' & c & Hin & Hc' & ->)]; [discriminate Hres |].
  apply in_combine_r in Hin. apply candidateConfidences_le in Hin.
  cbn [Match.confidence]. repeat split.
  - apply toFixed2_twoDecimals.
  - now apply toFixed2_mono.
  - change 0.98%Q with (JS.toFixed2 0.98). now apply toFixed2_mono.
Qed.

(** C4, amended.  The confidence of every match is a number of
    hundredths, at most 0.98 and at least the threshold rounded to two
    decimals; it is at least the threshold itself when the threshold has
    at most two decimals. *)
Theorem matcher_confidence_bounds (e : Env) (w : World) (img : string)
    (sts : list Student.t) (t : Q) (m : Match.t) :
  result (simulateFaceRecognition img sts t) e w = Returned (Some m) ->
  twoDecimals (Match.confidence m) /\
  (JS.toFixed2 t <= Match.confidence m)%Q /\
  (Match.confidence m <= 0.98)%Q /\
  (twoDecimals t -> (t <= Match.confidence m)%Q).
Proof.
  intros Hres.
  destruct (match_confidence e w img sts t m Hres) as (Hdec & Hlow & Hhigh).
  repeat split; try assumption.
  intros Ht. apply toFixed2_fixpoint in Ht.
  apply Qle_trans with (JS.toFixed2 t); [| exact Hlow].
  apply Qle_lteq; right; symmetry; exact Ht.
Qed.

Lemma matcher_confidence_bounds_witness :
  let e := Sample.mkEnv [0.5; 0.79; 0.795; 0.5]%Q [Sample.at_ 9 0] [] in
  let alice := {| Match.student := Sample.alice; Match.confidence := 0.88 |} in
  result (simulateFaceRecognition "frame" [Sample.alice; Sample.bob] 0.75)
         e Sample.world0 = Returned (Some alice) /\
  twoDecimals 0.88 /\ (JS.toFixed2 0.75 <= 0.88)%Q /\ (0.88 <= 0.98)%Q.
Proof.
  intros e alice.
  assert (Hres : result (simulateFaceRecognition "frame" [Sample.alice; Sample.bob] 0.75)
                        e Sample.world0 = Returned (Some alice)) by reflexivity.
  destruct (matcher_confidence_bounds e Sample.world0 "frame" [Sample.alice; Sample.bob]
              0.75 alice Hres) as (Hdec & Hlow & Hhigh & _).
  split; [exact Hres |]. split; [exact Hdec |]. split; [exact Hlow | exact Hhigh].
Defined.

(** The candidate of a match cleared the threshold with its simulated
    confidence, and the match carries that confidence rounded. *)
Lemma returned_match_is_valid (e : Env) (w : World) (img : string)
    (sts : list Student.t) (t : Q) (m : Match.t) :
  result (simulateFaceRecognition img sts t) e w = Returned (Some m) ->
  exists c,
    In (Match.student m, c)
       (combine (filter hasPhoto sts)
          (candidateConfidences e (clock_pos w) (S (rand_pos w)) (filter hasPhoto sts))) /\
    (t <= c)%Q /\ Match.confidence m = JS.toFixed2 c.
Proof.
  intros Hres. unfold result in Hres.
  assert (Hne : filter hasPhoto sts <> []).
  { intros Hc. rewrite (simulateFaceRecognition_empty e w img sts t Hc) in Hres.
    discriminate. }
  pose proof (simulateFaceRecognition_spec e w img sts t Hne) as Hs.
  cbv zeta in Hs. rewrite Hs in Hres. cbn [fst] in Hres.
  destruct (JS.lt _ 0.15); [discriminate |].
  injection Hres as Hres. apply keepBest_origin in Hres.
  destruct Hres as [Hres | (s' & c & Hin & Hv & ->)]; [discriminate Hres |].
  exists c. cbn [Match.student Match.confidence]. auto.
Qed.

(** C3, the code at the failing inputs.  Both candidates clear the
    threshold 0.75.  (1) Bob's simulated confidence 0.87825 is strictly
    higher than Alice's 0.8765, but it is compared with Alice's stored,
    rounded 0.88, and Alice is returned.  (2) With equal simulated
    confidences 0.8835 the candidate evaluated second replaces the first,
    since 0.8835 exceeds the stored 0.88. *)
Theorem best_match_compares_with_rounded :
  let now := JS.getTime (Sample.at_ 9 0) in
  let e1 := Sample.mkEnv [0.5; 0.79; 0.795; 0.5]%Q [Sample.at_ 9 0] [] in
  let e2 := Sample.mkEnv [0.5; 0.81; 0.81; 0.5]%Q [Sample.at_ 9 0] [] in
  ((0.75 <= simulatedConfidence now (Student.registeredAt Sample.alice) 0.79)%Q /\
   (simulatedConfidence now (Student.registeredAt Sample.alice) 0.79
      < simulatedConfidence now (Student.registeredAt Sample.bob) 0.795)%Q /\
   result (simulateFaceRecognition "frame" [Sample.alice; Sample.bob] 0.75)
          e1 Sample.world0
   = Returned (Some {| Match.student := Sample.alice; Match.confidence := 0.88 |}))
  /\
  ((0.75 <= simulatedConfidence now (Student.registeredAt Sample.alice) 0.81)%Q /\
   (simulatedConfidence now (Student.registeredAt Sample.alice) 0.81
      == simulatedConfidence now (Student.registeredAt Sample.bob) 0.81)%Q /\
   result (simulateFaceRecognition "frame" [Sample.alice; Sample.bob] 0.75)
          e2 Sample.world0
   = Returned (Some {| Match.student := Sample.bob; Match.confidence := 0.88 |})).
Proof.
  cbv zeta. repeat split; try reflexivity; vm_compute; congruence.
Qed.

(* ================================================================== *)
(** * Notifications: proofs                                            *)
(* ================================================================== *)

Arguments slice0 : simpl never.
Arguments notified : simpl never.

Lemma addNotification_run (n : NewNotification.t) (e : Env) (w : World) :
  addNotification n e w = (Returned tt, notified e n w).
Proof. reflexivity. Qed.

Lemma notified_announced (e : Env) (n : NewNotification.t) (w : World) :
  announced n (notified e n w).
Proof.
  unfold announced, notified. cbn [notifications with_notifications].
  unfold slice0. cbn [firstn]. eauto.
Qed.

Lemma slice0_length {A} (n : nat) (l : list A) : (List.length (slice0 n l) <= n)%nat.
Proof. unfold slice0. apply firstn_le_length. Qed.

Lemma slice0_full {A} (x : A) (l : list A) (n : nat) :
  List.length l = S n -> slice0 (S n) (x :: l) = x :: removelast l.
Proof.
  intros H. unfold slice0. cbn [firstn]. f_equal.
  rewrite removelast_firstn_len, H. reflexivity.
Qed.

Lemma runNotificationOp_bound (op : NotificationOp) (e : Env) (w : World) :
  (List.length (notifications w) <= 50)%nat ->
  (List.length (notifications (after (runNotificationOp op) e w)) <= 50)%nat.
Proof.
  intros Hb. destruct op as [n | id |]; unfold after; cbn [runNotificationOp].
  - rewrite addNotification_run. apply (slice0_length 50).
  - cbn. now rewrite length_map.
  - cbn. lia.
Qed.

Lemma firstn_app_firstn {A} (n : nat) (a b : list A) :
  firstn n (a ++ firstn n b) = firstn n (a ++ b).
Proof.
  rewrite !firstn_app, firstn_firstn. f_equal. f_equal. lia.
Qed.

(** Successive additions: the list is what was added, the latest first,
    in front of what was held, cut to 50 entries. *)
Lemma additions_newest_first (e : Env) (ns : list NewNotification.t) :
  forall w : World,
    (List.length (notifications w) <= 50)%nat ->
    notifications (runNotificationOps (map OpAdd ns) e w)
    = firstn 50 (rev (stampedFrom e (clock_pos w) ns) ++ notifications w).
Proof.
  unfold runNotificationOps.
  induction ns as [| n ns IH]; intros w Hb; cbn [map fold_left stampedFrom rev].
  - cbn [app]. symmetry. now apply firstn_all2.
  - unfold after at 2. cbn [runNotificationOp]. rewrite addNotification_run. cbn [snd].
    rewrite IH by apply (slice0_length 50).
    unfold notified at 1 2. cbn [clock_pos notifications with_notifications with_clock_pos].
    unfold slice0. rewrite firstn_app_firstn, <- app_assoc. reflexivity.
Qed.

(** C8. Every operation of the hook keeps the list within 50 entries and
    in insertion order, newest first.  [addNotification] puts the new
    notification (unread, with the given kind, title and message) first
    and keeps behind it the first 49 of the list held before, in their
    order: below the bound that is the whole former list, and on a list
    of 50 it is the former list without its last, oldest entry, 50 entries
    again.  [markAsRead] keeps length and order and changes read flags
    only, [clearAll] empties the list.  After any number of additions the
    list is the additions, the latest first, in front of what was held,
    cut to 50. *)
Theorem notification_bound (op : NotificationOp) (e : Env) (w : World) :
  (List.length (notifications w) <= 50)%nat ->
  let before := notifications w in
  let after_ := notifications (after (runNotificationOp op) e w) in
  (List.length after_ <= 50)%nat /\
  (forall n, op = OpAdd n ->
     let new := stamp n (JS.getTime (clock e (clock_pos w))) (clock e (S (clock_pos w))) in
     after_ = new :: firstn 49 before /\
     ((List.length before < 50)%nat ->
      after_ = new :: before /\ List.length after_ = S (List.length before)) /\
     (List.length before = 50%nat ->
      List.length after_ = 50%nat /\ after_ = new :: removelast before)) /\
  (forall id, op = OpMarkAsRead id ->
     after_ = map (markRead id) before /\
     List.length after_ = List.length before /\
     map NotificationMessage.id after_ = map NotificationMessage.id before) /\
  (op = OpClearAll -> after_ = []) /\
  (forall ns,
     notifications (runNotificationOps (map OpAdd ns) e w)
     = firstn 50 (rev (stampedFrom e (clock_pos w) ns) ++ before)).
Proof.
  intros Hb before after_. subst before after_.
  split; [now apply runNotificationOp_bound |].
  split; [| split; [| split]].
  - intros n ->. cbv zeta. unfold after; cbn [runNotificationOp].
    rewrite addNotification_run. cbn [snd]. unfold notified.
    cbn [notifications with_notifications].
    set (new := stamp n _ _). set (l := notifications w) in *.
    assert (Hadd : slice0 50 (new :: l) = new :: firstn 49 l) by reflexivity.
    rewrite Hadd. split; [reflexivity |]. split.
    + intros Hlt. rewrite firstn_all2 by lia. split; reflexivity.
    + intros Hlen. split.
      * cbn [List.length]. rewrite length_firstn, Hlen. reflexivity.
      * rewrite removelast_firstn_len, Hlen. reflexivity.
  - intros id ->.
    assert (Hrun : notifications (after (runNotificationOp (OpMarkAsRead id)) e w)
                   = map (markRead id) (notifications w)) by reflexivity.
    rewrite Hrun. split; [reflexivity |]. split; [apply length_map |].
    rewrite map_map. apply map_ext. intros n. unfold markRead.
    now destruct (String.eqb _ id).
  - intros ->. reflexivity.
  - intros ns. now apply additions_newest_first.
Qed.

Lemma notification_bound_witness :
  let e := Sample.mkEnv [] [Sample.at_ 9 0] [] in
  let n := attendanceMarked (Sample.aliceAt (Sample.at_ 9 0)) in
  let new := stamp n (Sample.at_ 9 0) (Sample.at_ 9 0) in
  let full := Sample.mkWorld Sample.defaultSettings 0.75 [] [] Sample.fifty in
  let two := Sample.mkWorld Sample.defaultSettings 0.75 [] []
               [Sample.note 2; Sample.note 1] in
  List.length Sample.fifty = 50%nat /\
  notifications (after (addNotification n) e full) = new :: removelast Sample.fifty /\
  notifications (after (addNotification n) e two) = [new; Sample.note 2; Sample.note 1] /\
  notifications (runNotificationOps [OpAdd markFailed; OpAdd n] e two)
    = [new; stamp markFailed (Sample.at_ 9 0) (Sample.at_ 9 0);
       Sample.note 2; Sample.note 1].
Proof.
  intros e n new full two.
  assert (Hfull : (List.length (notifications full) <= 50)%nat) by (cbn; lia).
  assert (Htwo : (List.length (notifications two) <= 50)%nat) by (cbn; lia).
  destruct (notification_bound (OpAdd n) e full Hfull) as (_ & Hadd & _).
  destruct (Hadd n eq_refl) as (_ & _ & Hat).
  destruct (Hat eq_refl) as [_ Hevict].
  destruct (notification_bound (OpAdd n) e two Htwo) as (_ & Hadd2 & _ & _ & Hseq).
  destruct (Hadd2 n eq_refl) as (_ & Hbelow & _).
  assert (Hlt : (List.length (notifications two) < 50)%nat) by (cbn; lia).
  destruct (Hbelow Hlt) as [Hkeep _].
  split; [reflexivity |]. split; [exact Hevict |]. split; [exact Hkeep |].
  exact (Hseq [markFailed; n]).
Defined.

(** From the empty list the hook starts with, no sequence of operations
    leads beyond 50 entries. *)
Lemma notifications_stay_bounded (ops : list NotificationOp) (e : Env) :
  forall w : World,
    (List.length (notifications w) <= 50)%nat ->
    (List.length (notifications (runNotificationOps ops e w)) <= 50)%nat.
Proof.
  unfold runNotificationOps.
  induction ops as [| op ops IH]; intros w Hb; cbn [fold_left].
  - exact Hb.
  - apply IH. now apply runNotificationOp_bound.
Qed.

(* ================================================================== *)
(** * [useDatabase]: proofs                                            *)
(* ================================================================== *)

Lemma fetchStudents_run (e : Env) (w : World) :
  fetchStudents e w = (Returned tt, studentsFetched e w).
Proof.
  unfold fetchStudents, studentsFetched, tryCatch, bind, selectStudents, request.
  destruct (faults e (call_pos w)); reflexivity.
Qed.

Lemma fetchRecords_run (e : Env) (w : World) :
  fetchRecords e w = (Returned tt, recordsFetched e w).
Proof.
  unfold fetchRecords, recordsFetched, tryCatch, bind, selectRecords, request.
  destruct (faults e (call_pos w)); reflexivity.
Qed.

Lemma addAttendanceRecord_run (r : NewRecord.t) (e : Env) (w : World) :
  addAttendanceRecord r e w =
  match faults e (call_pos w) with
  | Some x =>
      (Thrown x,
       withError (errorMessage x "Failed to add attendance record")
                 (with_call_pos (S (call_pos w)) w))
  | None =>
      (Returned (Some (insertedRow e (call_pos w) r)),
       recordsFetched e (recordInserted e r w))
  end.
Proof.
  unfold addAttendanceRecord, tryCatch. unfold bind at 1.
  unfold insertRecord, request.
  destruct (faults e (call_pos w)) eqn:Hf.
  - reflexivity.
  - cbn [throwIfError resp_error resp_data]. unfold bind at 1. unfold ret at 1.
    unfold bind at 1. rewrite fetchRecords_run. reflexivity.
Qed.

Lemma addStudent_fails (d : NewStudent.t) (e : Env) (w : World) (x : Exn) :
  faults e (call_pos w) = Some x ->
  addStudent d e w =
  (Thrown x, withError (errorMessage x "Failed to add student")
                       (with_call_pos (S (call_pos w)) w)).
Proof.
  intros Hf. unfold addStudent, tryCatch. unfold bind at 1.
  unfold insertStudent, request. rewrite Hf. reflexivity.
Qed.

Lemma removeStudent_fails (id : string) (e : Env) (w : World) (x : Exn) :
  faults e (call_pos w) = Some x ->
  removeStudent id e w =
  (Thrown x, withError (errorMessage x "Failed to remove student")
                       (with_call_pos (S (call_pos w)) w)).
Proof.
  intros Hf. unfold removeStudent, tryCatch. unfold bind at 1.
  unfold deleteStudent, request. rewrite Hf. reflexivity.
Qed.




(** A write that succeeds refreshes the local collection from storage. *)
Lemma addAttendanceRecord_refetches (r : NewRecord.t) (e : Env) (w : World) :
  faults e (call_pos w) = None ->
  faults e (S (call_pos w)) = None ->
  let w' := after (addAttendanceRecord r) e w in
  tbl_records (backend w') = tbl_records (backend w) ++ [insertedRow e (call_pos w) r] /\
  records (database w') = listedRecords (backend w').
Proof.
  intros H1 H2 w'. subst w'. unfold after.
  rewrite addAttendanceRecord_run, H1. cbn [snd].
  unfold recordsFetched. cbn [call_pos recordInserted with_backend with_call_pos].
  rewrite H2. split; reflexivity.
Qed.

Lemma notified_backend (e : Env) (n : NewNotification.t) (w : World) :
  backend (notified e n w) = backend w.
Proof. reflexivity. Qed.

Lemma recordsFetched_backend (e : Env) (w : World) :
  backend (recordsFetched e w) = backend w.
Proof. unfold recordsFetched. destruct (faults e (call_pos w)); reflexivity. Qed.

Lemma recordInserted_records (e : Env) (r : NewRecord.t) (w : World) :
  tbl_records (backend (recordInserted e r w)) =
  tbl_records (backend w) ++ [insertedRow e (call_pos w) r].
Proof. reflexivity. Qed.

(* ================================================================== *)
(** * The attendance policy: proofs                                    *)
(* ================================================================== *)

Arguments JS.toDateString : simpl never.
Arguments withinHours : simpl never.
Arguments toMinutes : simpl never.

Lemma sameDateString_eq (a b : Z * Z * Z) : JS.sameDateString a b = true <-> a = b.
Proof.
  destruct a as [[y1 m1] d1], b as [[y2 m2] d2]. unfold JS.sameDateString.
  rewrite !andb_true_iff, !Z.eqb_eq. split.
  - intros [[-> ->] ->]. reflexivity.
  - intros H. injection H as -> -> ->. auto.
Qed.

Lemma attendedOn_iff (tz : Z -> Z) (record : NewRecord.t) (today : Z * Z * Z)
    (r : AttendanceRecord.t) :
  attendedOn tz record today r = true <->
  AttendanceRecord.studentId r = NewRecord.studentId record /\
  JS.toDateString tz (AttendanceRecord.timestamp r) = today.
Proof.
  unfold attendedOn. generalize (JS.toDateString tz (AttendanceRecord.timestamp r)).
  intros d. rewrite andb_true_iff, andb_true_l, String.eqb_eq, sameDateString_eq.
  tauto.
Qed.

Lemma hasAttended_iff (e : Env) (record : NewRecord.t) (day : JS.Date) (w : World) :
  hasAttended e record day w = true <-> markedOnDayOf e record day w.
Proof.
  unfold hasAttended, markedOnDayOf. rewrite existsb_exists.
  split; intros (r & Hin & H); exists r; (split; [exact Hin |]).
  - apply attendedOn_iff in H. exact H.
  - apply attendedOn_iff. exact H.
Qed.

Lemma handleAttendanceMarked_run (record : NewRecord.t) (e : Env) (w : World) :
  handleAttendanceMarked record e w =
  if negb (hasAttended e record (clock e (clock_pos w)) w)
     || AttendanceSettings.allowMultipleMarking (settings w)
  then
    let w2 := with_clock_pos (S (S (clock_pos w))) w in
    match faults e (call_pos w) with
    | Some x =>
        (Returned tt,
         notified e markFailed
           (withError (errorMessage x "Failed to add attendance record")
                      (with_call_pos (S (call_pos w)) w2)))
    | None =>
        (Returned tt,
         notified e
           (acceptanceNotice (settings w)
              (minutesOfDay (tzOffset e) (clock e (S (clock_pos w)))) record)
           (recordsFetched e (recordInserted e record w2)))
    end
  else
    (Returned tt, notified e (alreadyMarked record) (with_clock_pos (S (clock_pos w)) w)).
Proof.
  unfold handleAttendanceMarked.
  unfold bind at 1. unfold asks at 1.
  unfold bind at 1. unfold new_Date at 1.
  unfold bind at 1. unfold gets at 1.
  unfold bind at 1. unfold gets at 1.
  cbn [records database settings with_clock_pos].
  fold (hasAttended e record (clock e (clock_pos w)) w).
  destruct (negb _ || _).
  - unfold bind at 1. unfold new_Date at 1. unfold tryCatch.
    unfold bind at 1. rewrite addAttendanceRecord_run.
    cbn [call_pos with_clock_pos clock_pos].
    destruct (faults e (call_pos w)).
    + rewrite addNotification_run. reflexivity.
    + unfold acceptanceNotice, inWorkingHours, minutesOfDay.
      destruct (withinHours _ _ _); rewrite addNotification_run; reflexivity.
  - rewrite addNotification_run. reflexivity.
Qed.

Lemma withinHours_iff (c s f : Z) :
  withinHours c (Some s) (Some f) = true <-> s <= c <= f.
Proof.
  unfold withinHours, JS.geZ, JS.leZ. rewrite andb_true_iff, !Z.leb_le. tauto.
Qed.

(** C1, refuted as stated.  Alice holds a record of 1 November and
    multiple marking is off; a proposal stamped 1 November 23:59 that is
    handled when the clock shows 2 November 00:00 is compared with
    2 November, accepted (outside working hours) and stored. *)
Lemma duplicate_check_reads_the_clock :
  let e := Sample.mkEnv [] [Sample.at_ 24 0] [] in
  let w := Sample.mkWorld Sample.defaultSettings 0.75 [Sample.alice]
             [Sample.aliceRow "row-a" (Sample.at_ 10 0)] [] in
  let record := Sample.aliceAt (Sample.at_ 23 59) in
  let w' := after (handleAttendanceMarked record) e w in
  AttendanceSettings.allowMultipleMarking (settings w) = false /\
  markedOnDayOf e record (NewRecord.timestamp record) w /\
  announced (outsideWorkingHours record) w' /\
  ~ announced (alreadyMarked record) w' /\
  tbl_records (backend w') =
    [Sample.aliceRow "row-a" (Sample.at_ 10 0); insertedRow e 0 record].
Proof.
  cbv zeta. split; [reflexivity |]. split.
  - eexists. split; [left; reflexivity |]. split; reflexivity.
  - split; [| split].
    + exists (Sample.at_ 24 0), (Sample.at_ 24 0), []. vm_compute. reflexivity.
    + intros (id & ts & rest & H). vm_compute in H. discriminate.
    + vm_compute. reflexivity.
Qed.

(** C1, amended.  The duplicate check compares the held records with the
    calendar date the clock shows when the proposal is handled.  With
    multiple marking off, a held record of the same student on that date
    makes the proposal rejected: the "Already Marked" warning is issued,
    no storage request is made, tables and local collections stay as they
    are.  With multiple marking on, every proposal is written to storage,
    and is stored with an acceptance notice when the write succeeds. *)
Theorem duplicate_suppression (e : Env) (w : World) (record : NewRecord.t) :
  let w' := after (handleAttendanceMarked record) e w in
  (AttendanceSettings.allowMultipleMarking (settings w) = false ->
   markedOnDayOf e record (clock e (clock_pos w)) w ->
   announced (alreadyMarked record) w' /\
   backend w' = backend w /\ call_pos w' = call_pos w /\ database w' = database w)
  /\
  (AttendanceSettings.allowMultipleMarking (settings w) = true ->
   faults e (call_pos w) = None ->
   tbl_records (backend w') =
     tbl_records (backend w) ++ [insertedRow e (call_pos w) record] /\
   (announced (attendanceMarked record) w' \/ announced (outsideWorkingHours record) w')).
Proof.
  intros w'. subst w'. unfold after. rewrite handleAttendanceMarked_run. split.
  - intros Hoff Hdup. apply hasAttended_iff in Hdup. rewrite Hdup, Hoff. cbn [negb orb snd].
    split; [apply notified_announced |]. repeat split.
  - intros Hon Hok. rewrite Hon, orb_true_r, Hok. cbn [snd]. split.
    + rewrite notified_backend, recordsFetched_backend, recordInserted_records.
      reflexivity.
    + unfold acceptanceNotice. destruct (inWorkingHours _ _);
        [left | right]; apply notified_announced.
Qed.

Lemma duplicate_suppression_witness :
  let e := Sample.mkEnv [] [Sample.at_ 11 30] [] in
  let w := Sample.mkWorld Sample.defaultSettings 0.75 [Sample.alice]
             [Sample.aliceRow "row-a" (Sample.at_ 10 0)] [] in
  let record := Sample.aliceAt (Sample.at_ 11 30) in
  AttendanceSettings.allowMultipleMarking (settings w) = false /\
  markedOnDayOf e record (clock e (clock_pos w)) w /\
  announced (alreadyMarked record) (after (handleAttendanceMarked record) e w) /\
  backend (after (handleAttendanceMarked record) e w) = backend w.
Proof.
  intros e w record.
  assert (Hdup : markedOnDayOf e record (clock e (clock_pos w)) w).
  { eexists. split; [left; reflexivity |]. split; reflexivity. }
  destruct (proj1 (duplicate_suppression e w record) eq_refl Hdup) as (Ha & Hb & _).
  split; [reflexivity |]. split; [exact Hdup |]. split; [exact Ha | exact Hb].
Defined.

(** With multiple marking on, two proposals for Alice on the same day are
    both stored; with it off, the second one is turned down. *)
Example two_proposals_same_day :
  let e := Sample.mkEnv [] [Sample.at_ 10 0] [] in
  let first := Sample.aliceAt (Sample.at_ 10 0) in
  let second := Sample.aliceAt (Sample.at_ 10 5) in
  let twice cfg :=
    after (handleAttendanceMarked second) e
      (after (handleAttendanceMarked first) e
         (Sample.mkWorld cfg 0.75 [Sample.alice] [] [])) in
  tbl_records (backend (twice Sample.multipleSettings))
    = [insertedRow e 0 first; insertedRow e 2 second] /\
  tbl_records (backend (twice Sample.defaultSettings)) = [insertedRow e 0 first] /\
  map NotificationMessage.title (notifications (twice Sample.defaultSettings))
    = ["Already Marked"; "Attendance Marked"].
Proof. cbv zeta. repeat split; vm_compute; reflexivity. Qed.

(** C2, refuted as stated.  A proposal stamped 17:00 (inside the window
    09:00-17:00) that is handled when the clock shows 17:01 is classified
    as outside working hours. *)
Lemma classification_reads_the_clock :
  let e := Sample.mkEnv [] [Sample.at_ 17 1] [] in
  let w := Sample.mkWorld Sample.defaultSettings 0.75 [Sample.alice] [] [] in
  let record := Sample.aliceAt (Sample.at_ 17 0) in
  let w' := after (handleAttendanceMarked record) e w in
  hasAttended e record (NewRecord.timestamp record) w = false /\
  inWorkingHours (settings w) (minutesOfDay (tzOffset e) (NewRecord.timestamp record)) = true /\
  announced (outsideWorkingHours record) w' /\
  ~ announced (attendanceMarked record) w'.
Proof.
  cbv zeta. split; [reflexivity |]. split; [reflexivity |]. split.
  - exists (Sample.at_ 17 1), (Sample.at_ 17 1), []. vm_compute. reflexivity.
  - intros (id & ts & rest & H). vm_compute in H. discriminate.
Qed.

(** C2, amended.  A proposal that passes the duplicate check is
    classified by the local time of day the clock shows when it is
    handled (the second clock reading of the handler), against the
    configured window with both ends included.  When the storage write
    succeeds the record is stored, with the success notice inside the
    window and the warning outside it.  With the window 09:00-17:00 the
    minutes 08:59 and 17:01 are outside, 09:00 and 17:00 inside. *)
Theorem working_hours_classification (e : Env) (w : World) (record : NewRecord.t) :
  let currentTime := minutesOfDay (tzOffset e) (clock e (S (clock_pos w))) in
  let w' := after (handleAttendanceMarked record) e w in
  (hasAttended e record (clock e (clock_pos w)) w = false \/
   AttendanceSettings.allowMultipleMarking (settings w) = true) ->
  faults e (call_pos w) = None ->
  In (insertedRow e (call_pos w) record) (tbl_records (backend w')) /\
  (inWorkingHours (settings w) currentTime = true ->
     announced (attendanceMarked record) w' /\
     NewNotification.type (attendanceMarked record) = success) /\
  (inWorkingHours (settings w) currentTime = false ->
     announced (outsideWorkingHours record) w' /\
     NewNotification.type (outsideWorkingHours record) = warning) /\
  (forall s f,
     toMinutes (AttendanceSettings.start (AttendanceSettings.workingHours (settings w)))
       = Some s ->
     toMinutes (AttendanceSettings.end_ (AttendanceSettings.workingHours (settings w)))
       = Some f ->
     (inWorkingHours (settings w) currentTime = true <-> s <= currentTime <= f)) /\
  (AttendanceSettings.workingHours (settings w)
     = {| AttendanceSettings.start := "09:00"; AttendanceSettings.end_ := "17:00" |} ->
   inWorkingHours (settings w) (8 * 60 + 59) = false /\
   inWorkingHours (settings w) (9 * 60) = true /\
   inWorkingHours (settings w) (17 * 60) = true /\
   inWorkingHours (settings w) (17 * 60 + 1) = false).
Proof.
  intros currentTime w' Hpass Hok. subst w'. unfold after.
  rewrite handleAttendanceMarked_run.
  assert (Hc : negb (hasAttended e record (clock e (clock_pos w)) w)
               || AttendanceSettings.allowMultipleMarking (settings w) = true).
  { destruct Hpass as [-> | ->]; [reflexivity | apply orb_true_r]. }
  rewrite Hc, Hok. cbn [snd]. fold currentTime.
  split; [| split; [| split; [| split]]].
  - rewrite notified_backend, recordsFetched_backend, recordInserted_records.
    apply in_or_app; right; now left.
  - intros Hin. unfold acceptanceNotice. rewrite Hin.
    split; [apply notified_announced | reflexivity].
  - intros Hout. unfold acceptanceNotice. rewrite Hout.
    split; [apply notified_announced | reflexivity].
  - intros s f Hs Hf. unfold inWorkingHours. rewrite Hs, Hf. apply withinHours_iff.
  - intros Hwin. unfold inWorkingHours. rewrite Hwin. repeat split.
Qed.

Lemma working_hours_classification_witness :
  let e := Sample.mkEnv [] [Sample.at_ 8 59] [] in
  let w := Sample.mkWorld Sample.defaultSettings 0.75 [Sample.alice] [] [] in
  let record := Sample.aliceAt (Sample.at_ 8 59) in
  hasAttended e record (clock e (clock_pos w)) w = false /\
  faults e (call_pos w) = None /\
  inWorkingHours (settings w) (minutesOfDay (tzOffset e) (clock e (S (clock_pos w)))) = false /\
  announced (outsideWorkingHours record) (after (handleAttendanceMarked record) e w) /\
  In (insertedRow e (call_pos w) record)
     (tbl_records (backend (after (handleAttendanceMarked record) e w))).
Proof.
  intros e w record.
  destruct (working_hours_classification e w record (or_introl eq_refl) eq_refl)
    as (Hin & _ & Hout & _).
  split; [reflexivity |]. split; [reflexivity |]. split; [reflexivity |].
  split; [apply (Hout eq_refl) | exact Hin].
Defined.

(** The four boundary cases of the window 09:00-17:00, run end to end:
    the title of the notice issued when the clock shows the given time. *)
Example boundary_runs :
  let titleAt h m :=
    map NotificationMessage.title
      (notifications
         (after (handleAttendanceMarked (Sample.aliceAt (Sample.at_ h m)))
                (Sample.mkEnv [] [Sample.at_ h m] [])
                (Sample.mkWorld Sample.defaultSettings 0.75 [Sample.alice] [] []))) in
  titleAt 8 59 = ["Outside Working Hours"] /\
  titleAt 9 0 = ["Attendance Marked"] /\
  titleAt 17 0 = ["Attendance Marked"] /\
  titleAt 17 1 = ["Outside Working Hours"].
Proof. cbv zeta. repeat split; vm_compute; reflexivity. Qed.

(** A failed write is reported and nothing is stored. *)
Example failed_write_is_reported :
  let e := Sample.mkEnv [] [Sample.at_ 10 0] [Some Sample.transportError] in
  let w := Sample.mkWorld Sample.defaultSettings 0.75 [Sample.alice] [] [] in
  let w' := after (handleAttendanceMarked (Sample.aliceAt (Sample.at_ 10 0))) e w in
  map NotificationMessage.title (notifications w') = ["Error"] /\
  tbl_records (backend w') = [] /\ records (database w') = [].
Proof. cbv zeta. repeat split; vm_compute; reflexivity. Qed.

(* ================================================================== *)
(** * The camera pipeline: proofs                                      *)
(* ================================================================== *)

(** The matcher touches the cursors and the delays only. *)
Lemma simulateFaceRecognition_frame (e : Env) (w : World) (img : string)
    (sts : list Student.t) (t : Q) :
  let w' := after (simulateFaceRecognition img sts t) e w in
  backend w' = backend w /\ database w' = database w /\
  notifications w' = notifications w /\ settings w' = settings w /\
  camera w' = camera w /\ call_pos w' = call_pos w /\
  exists o, result (simulateFaceRecognition img sts t) e w = Returned o.
Proof.
  intros w'. subst w'. unfold after, result.
  destruct (filter hasPhoto sts) as [| s rest] eqn:Hc.
  - rewrite (simulateFaceRecognition_empty e w img sts t Hc). cbn. eauto 10.
  - assert (Hne : filter hasPhoto sts <> []) by (rewrite Hc; discriminate).
    pose proof (simulateFaceRecognition_spec e w img sts t Hne) as Hs.
    cbv zeta in Hs. rewrite Hs. cbn. eauto 10.
Qed.

(** The tables after the policy handled a proposal. *)
Lemma handleAttendanceMarked_tables (record : NewRecord.t) (e : Env) (w : World) :
  let w' := after (handleAttendanceMarked record) e w in
  tbl_records (backend w') = tbl_records (backend w) \/
  tbl_records (backend w') = tbl_records (backend w) ++ [insertedRow e (call_pos w) record].
Proof.
  intros w'. subst w'. unfold after. rewrite handleAttendanceMarked_run.
  destruct (negb _ || _); [| left; reflexivity].
  destruct (faults e (call_pos w)); [left; reflexivity | right].
  cbn [snd]. rewrite notified_backend, recordsFetched_backend, recordInserted_records.
  reflexivity.
Qed.

Lemma handleRecognition_run (sts : list Student.t)
    (cb : NewRecord.t -> M unit) (e : Env) (w : World) :
  handleRecognition sts cb e w =
  if negb (isActive (camera w)) || isProcessing (camera w) then (Returned tt, w)
  else if JS.truthy (captureFrame e) then
    match simulateFaceRecognition (frameOf e) sts (cam_confidenceThreshold (camera w)) e
            (processing true w) with
    | (Returned (Some res), w2) =>
        if JS.geq (Match.confidence res) (cam_confidenceThreshold (camera w)) then
          match cb (proposedRecord res (clock e (clock_pos w2)) (frameOf e) (userAgent e))
                   e (with_clock_pos (S (clock_pos w2)) w2) with
          | (Returned _, w3) =>
              (Returned tt,
               processing false (recognised (Student.name (Match.student res)) w3))
          | (Thrown _, w3) => (Returned tt, processing false w3)
          end
        else (Returned tt, processing false w2)
    | (Returned None, w2) => (Returned tt, processing false w2)
    | (Thrown _, w2) => (Returned tt, processing false w2)
    end
  else (Returned tt, processing false (processing true w)).
Proof.
  unfold handleRecognition, bind, tryCatch, gets, asks, ret, setIsProcessing,
    setLastRecognition, modify, new_Date, frameOf.
  destruct (negb _ || _); [reflexivity |].
  destruct (JS.truthy (captureFrame e)); [| reflexivity].
  fold (processing true w).
  destruct (simulateFaceRecognition _ sts _ e _) as [[[res |] | x] w2]; try reflexivity.
  destruct (JS.geq _ _); [| reflexivity].
  destruct (cb _ e _) as [[[] | x] w3]; reflexivity.
Qed.

Lemma handleRecognition_agree (sts : list Student.t)
    (cb1 cb2 : NewRecord.t -> M unit) (e : Env) (w : World) :
  (forall r e' w',
      (cam_confidenceThreshold (camera w) <= NewRecord.confidence r)%Q ->
      cb1 r e' w' = cb2 r e' w') ->
  handleRecognition sts cb1 e w = handleRecognition sts cb2 e w.
Proof.
  intros Hagree. rewrite !handleRecognition_run.
  destruct (negb _ || _); [reflexivity |].
  destruct (JS.truthy (captureFrame e)); [| reflexivity].
  destruct (simulateFaceRecognition _ sts _ e _) as [[[res |] | x] w2]; try reflexivity.
  destruct (JS.geq _ _) eqn:Hg; [| reflexivity].
  rewrite Hagree; [reflexivity |].
  cbn [proposedRecord NewRecord.confidence]. now apply geq_true.
Qed.

Lemma cameraTrigger_tables (e : Env) (w : World) (row : RecordRow.t) :
  In row (tbl_records (backend (after cameraTrigger e w))) ->
  In row (tbl_records (backend w)) \/
  ((cam_confidenceThreshold (camera w) <= RecordRow.confidence row)%Q /\
   twoDecimals (RecordRow.confidence row)).
Proof.
  unfold after, cameraTrigger. unfold bind at 1. unfold gets at 1.
  rewrite handleRecognition_run.
  destruct (negb _ || _); [cbn; now left |].
  destruct (JS.truthy (captureFrame e)); [| cbn; now left].
  match goal with
  | |- context [simulateFaceRecognition ?img ?sts ?t e ?w0] =>
      pose proof (simulateFaceRecognition_frame e w0 img sts t) as Hfr;
      pose proof (match_confidence e w0 img sts t) as Hbd;
      unfold after, result in Hfr, Hbd; cbv zeta in Hfr;
      destruct (simulateFaceRecognition img sts t e w0) as [o w1]
  end.
  cbn [fst snd] in Hfr, Hbd.
  destruct Hfr as (Hb & _ & _ & _ & _ & _ & res & ->).
  change (backend (processing true w)) with (backend w) in Hb.
  destruct res as [m |]; [| cbn; rewrite Hb; now left].
  destruct (JS.geq (Match.confidence m) _) eqn:Hg; [| cbn; rewrite Hb; now left].
  match goal with
  | |- context [handleAttendanceMarked ?r e ?w0] =>
      pose proof (handleAttendanceMarked_tables r e w0) as Ht;
      unfold after in Ht; cbv zeta in Ht;
      destruct (handleAttendanceMarked r e w0) as [[[] | x] w2]
  end; cbn [snd] in Ht; cbn; intros Hin;
    (destruct Ht as [Ht | Ht]; rewrite Ht in Hin; cbn in Hin; rewrite Hb in Hin;
     [now left |]);
    (apply in_app_or in Hin; destruct Hin as [Hin | [<- | []]]; [now left | right]);
    (cbn; split; [now apply geq_true | now apply (Hbd m eq_refl)]).
Qed.

(** C10.  The camera pipeline hands a record to its callback only when
    the rounded confidence of the match is at least the threshold held by
    the camera: two callbacks that agree on such records give the same
    run.  With the policy of the application as the callback, every row
    a trigger adds to the attendance table has a confidence of two
    decimals that is at least that threshold. *)
Theorem proposals_respect_threshold :
  (forall (sts : list Student.t) (cb1 cb2 : NewRecord.t -> M unit) (e : Env) (w : World),
      (forall r e' w',
          (cam_confidenceThreshold (camera w) <= NewRecord.confidence r)%Q ->
          cb1 r e' w' = cb2 r e' w') ->
      handleRecognition sts cb1 e w = handleRecognition sts cb2 e w)
  /\
  (forall (e : Env) (w : World) (row : RecordRow.t),
      In row (tbl_records (backend (after cameraTrigger e w))) ->
      In row (tbl_records (backend w)) \/
      ((cam_confidenceThreshold (camera w) <= RecordRow.confidence row)%Q /\
       twoDecimals (RecordRow.confidence row))).
Proof.
  split.
  - intros sts cb1 cb2 e w. apply handleRecognition_agree.
  - intros e w row. apply cameraTrigger_tables.
Qed.

Lemma proposals_respect_threshold_witness :
  let e := Sample.mkEnv [0.5; 0.79; 0.795; 0.5]%Q [Sample.at_ 9 0] [] in
  let row := insertedRow e 0 (Sample.aliceAt (Sample.at_ 9 0)) in
  handleRecognition [Sample.alice; Sample.bob] handleAttendanceMarked e Sample.world0
  = handleRecognition [Sample.alice; Sample.bob] Sample.gated e Sample.world0 /\
  In row (tbl_records (backend (after cameraTrigger e Sample.world0))) /\
  (cam_confidenceThreshold (camera Sample.world0) <= RecordRow.confidence row)%Q.
Proof.
  intros e row.
  assert (Hin : In row (tbl_records (backend (after cameraTrigger e Sample.world0))))
    by (vm_compute; left; reflexivity).
  split; [| split; [exact Hin |]].
  - apply (proj1 proposals_respect_threshold).
    intros r e' w' Hge. unfold Sample.gated.
    apply geq_true in Hge. cbn [cam_confidenceThreshold camera Sample.world0 Sample.mkWorld] in Hge.
    now rewrite Hge.
  - destruct (proj2 proposals_respect_threshold e Sample.world0 row Hin) as [[] | [Hc _]].
    exact Hc.
Defined.

(** At threshold 0.753 the matcher accepts a simulated confidence of
    0.754 and reports it as 0.75; the pipeline then proposes nothing:
    nothing is stored and nobody is notified. *)
Example rounded_below_threshold_not_proposed :
  let e := Sample.mkEnv [0.5; 0.44; 0.5]%Q [Sample.at_ 9 0] [] in
  let w := Sample.mkWorld Sample.defaultSettings 0.753 [Sample.alice] [] [] in
  result (simulateFaceRecognition "frame" [Sample.alice] 0.753) e w
    = Returned (Some {| Match.student := Sample.alice; Match.confidence := 0.75 |}) /\
  tbl_records (backend (after cameraTrigger e w)) = [] /\
  notifications (after cameraTrigger e w) = [] /\
  call_pos (after cameraTrigger e w) = 0%nat.
Proof. cbv zeta. repeat split; vm_compute; reflexivity. Qed.

(** The same run at threshold 0.75 stores Alice's record with the
    rounded confidence 0.75. *)
Example rounded_at_threshold_is_proposed :
  let e := Sample.mkEnv [0.5; 0.44; 0.5]%Q [Sample.at_ 9 0] [] in
  let w := Sample.mkWorld Sample.defaultSettings 0.75 [Sample.alice] [] [] in
  map RecordRow.confidence (tbl_records (backend (after cameraTrigger e w))) = [0.75%Q] /\
  map NotificationMessage.title (notifications (after cameraTrigger e w))
    = ["Attendance Marked"].
Proof. cbv zeta. repeat split; vm_compute; reflexivity. Qed.

(* ================================================================== *)
(** * [useDatabase]: further properties                                *)
(* ================================================================== *)

Lemma insertDesc_In {A} (key : A -> Z) (x y : A) (l : list A) :
  In y (insertDesc key x l) <-> y = x \/ In y l.
Proof.
  induction l as [| z l IH]; cbn.
  - intuition.
  - destruct (key z <=? key x); cbn; [intuition |].
    rewrite IH. intuition.
Qed.

Lemma orderDesc_In {A} (key : A -> Z) (y : A) (l : list A) :
  In y (orderDesc key l) <-> In y l.
Proof.
  unfold orderDesc. induction l as [| x l IH]; cbn; [tauto |].
  rewrite insertDesc_In, IH. intuition.
Qed.

Lemma withError_database (msg : string) (w : World) :
  students (database (withError msg w)) = students (database w) /\
  records (database (withError msg w)) = records (database w) /\
  db_error (database (withError msg w)) = Some msg.
Proof. repeat split. Qed.

Lemma studentsFetched_error (e : Env) (w : World) :
  isSome (db_error (database w)) = true ->
  isSome (db_error (database (studentsFetched e w))) = true.
Proof.
  intros H. unfold studentsFetched. destruct (faults e (call_pos w)); [reflexivity | exact H].
Qed.

Lemma recordsFetched_error (e : Env) (w : World) :
  isSome (db_error (database w)) = true ->
  isSome (db_error (database (recordsFetched e w))) = true.
Proof.
  intros H. unfold recordsFetched. destruct (faults e (call_pos w)); [reflexivity | exact H].
Qed.

Lemma addStudent_run (d : NewStudent.t) (e : Env) (w : World) :
  addStudent d e w =
  match faults e (call_pos w) with
  | Some x =>
      (Thrown x, withError (errorMessage x "Failed to add student")
                           (with_call_pos (S (call_pos w)) w))
  | None =>
      (Returned (Some (insertedStudent e (call_pos w) d)),
       studentsFetched e (studentInserted e d w))
  end.
Proof.
  destruct (faults e (call_pos w)) eqn:Hf.
  - now apply addStudent_fails.
  - unfold addStudent, tryCatch. unfold bind at 1.
    unfold insertStudent, request. rewrite Hf.
    cbn [throwIfError resp_error resp_data]. unfold bind at 1. unfold ret at 1.
    unfold bind at 1. rewrite fetchStudents_run. reflexivity.
Qed.

Lemma removeStudent_run (id : string) (e : Env) (w : World) :
  removeStudent id e w =
  match faults e (call_pos w) with
  | Some x =>
      (Thrown x, withError (errorMessage x "Failed to remove student")
                           (with_call_pos (S (call_pos w)) w))
  | None =>
      (Returned tt, recordsFetched e (studentsFetched e (studentDeleted id w)))
  end.
Proof.
  destruct (faults e (call_pos w)) eqn:Hf.
  - now apply removeStudent_fails.
  - unfold removeStudent, tryCatch. unfold bind at 1.
    unfold deleteStudent, request. rewrite Hf.
    cbn [throwIfError resp_error resp_data]. unfold bind at 1. unfold ret at 1.
    unfold bind at 1. rewrite fetchStudents_run, fetchRecords_run. reflexivity.
Qed.

Lemma toggleStudentStatus_run (id : string) (e : Env) (w : World) :
  toggleStudentStatus id e w =
  match heldStudent id w with
  | None => (Returned tt, w)
  | Some s =>
      match faults e (call_pos w) with
      | Some x =>
          (Thrown x, withError (errorMessage x "Failed to update student status")
                               (with_call_pos (S (call_pos w)) w))
      | None =>
          if refusesUpdate id (negb (Student.isActive s)) (backend w)
          then
            (Thrown policyViolation,
             withError (errorMessage policyViolation "Failed to update student status")
                       (with_call_pos (S (call_pos w)) w))
          else
            (Returned tt,
             studentsFetched e (statusUpdated id (negb (Student.isActive s)) w))
      end
  end.
Proof.
  unfold toggleStudentStatus, tryCatch, heldStudent.
  unfold bind at 1. unfold gets.
  destruct (find _ (students (database w))) as [s |]; [| reflexivity].
  unfold bind at 1. unfold updateStudentActive, requestChecked.
  destruct (faults e (call_pos w)) eqn:Hf; [reflexivity |].
  destruct (refusesUpdate id _ (backend w)); [reflexivity |].
  cbn [throwIfError resp_error resp_data]. unfold bind at 1. unfold ret at 1.
  rewrite fetchStudents_run. reflexivity.
Qed.

Lemma studentsFetched_backend (e : Env) (w : World) :
  backend (studentsFetched e w) = backend w.
Proof. unfold studentsFetched. destruct (faults e (call_pos w)); reflexivity. Qed.

(** X1. Once the hook holds an error text, no fetch and no write clears
    it: whatever the storage answers afterwards, the text stays set. *)
Theorem error_text_is_never_cleared (op : HookOp) (e : Env) (w : World) :
  isSome (db_error (database w)) = true ->
  isSome (db_error (database (after (runHookOp op) e w))) = true.
Proof.
  intros H. unfold after.
  destruct op as [| | [d | id | id | r]]; cbn [runHookOp runWrite].
  - rewrite fetchStudents_run. now apply studentsFetched_error.
  - rewrite fetchRecords_run. now apply recordsFetched_error.
  - unfold bind. rewrite addStudent_run.
    destruct (faults e (call_pos w)); [reflexivity |].
    cbn [snd]. now apply studentsFetched_error.
  - rewrite removeStudent_run.
    destruct (faults e (call_pos w)); [reflexivity |].
    cbn [snd]. now apply recordsFetched_error, studentsFetched_error.
  - rewrite toggleStudentStatus_run.
    destruct (heldStudent id w); [| exact H].
    destruct (faults e (call_pos w)); [reflexivity |].
    destruct (refusesUpdate id _ (backend w)); [reflexivity |].
    cbn [snd]. now apply studentsFetched_error.
  - unfold bind. rewrite addAttendanceRecord_run.
    destruct (faults e (call_pos w)); [reflexivity |].
    cbn [snd]. now apply recordsFetched_error.
Qed.

Lemma error_text_is_never_cleared_witness :
  let e := Sample.mkEnv [] [Sample.at_ 9 0] [Some Sample.transportError] in
  let w := after fetchRecords e Sample.world0 in
  db_error (database w) = Some "TypeError: Failed to fetch" /\
  isSome (db_error (database (after (runHookOp FetchStudents) e w))) = true.
Proof.
  intros e w. split; [reflexivity |].
  apply (error_text_is_never_cleared FetchStudents e w). reflexivity.
Defined.

(** X2. A fetch never throws and issues one request.  When the request
    fails the collection held before is kept and the error text is the
    message of the error (or the fixed text when it is no [Error]);
    when it succeeds the collection is replaced by what the storage
    lists, and the other collection is not touched either way. *)
Theorem fetch_outcomes (e : Env) (w : World) :
  result fetchStudents e w = Returned tt /\
  result fetchRecords e w = Returned tt /\
  call_pos (after fetchStudents e w) = S (call_pos w) /\
  call_pos (after fetchRecords e w) = S (call_pos w) /\
  records (database (after fetchStudents e w)) = records (database w) /\
  students (database (after fetchRecords e w)) = students (database w) /\
  (forall x, faults e (call_pos w) = Some x ->
     students (database (after fetchStudents e w)) = students (database w) /\
     db_error (database (after fetchStudents e w))
       = Some (if exn_isError x then exn_message x else "Failed to fetch students") /\
     records (database (after fetchRecords e w)) = records (database w) /\
     db_error (database (after fetchRecords e w))
       = Some (if exn_isError x then exn_message x else "Failed to fetch records")) /\
  (faults e (call_pos w) = None ->
     students (database (after fetchStudents e w)) = listedStudents (backend w) /\
     records (database (after fetchRecords e w)) = listedRecords (backend w)).
Proof.
  unfold result, after. rewrite fetchStudents_run, fetchRecords_run. cbn [fst snd].
  unfold studentsFetched, recordsFetched.
  destruct (faults e (call_pos w)) as [x |].
  - do 6 (split; [reflexivity |]). split; [| discriminate].
    intros y Hy. injection Hy as <-. repeat split.
  - do 6 (split; [reflexivity |]). split; [discriminate |].
    intros _. split; reflexivity.
Qed.

Lemma fetch_outcomes_witness :
  let e := Sample.mkEnv [] [Sample.at_ 9 0] [Some Sample.transportError] in
  faults e (call_pos Sample.world0) = Some Sample.transportError /\
  students (database (after fetchStudents e Sample.world0))
    = students (database Sample.world0) /\
  db_error (database (after fetchStudents e Sample.world0))
    = Some "TypeError: Failed to fetch".
Proof.
  intros e.
  destruct (fetch_outcomes e Sample.world0) as (_ & _ & _ & _ & _ & _ & Hfail & _).
  destruct (Hfail Sample.transportError eq_refl) as (Hs & He & _).
  split; [reflexivity |]. split; [exact Hs | exact He].
Defined.

Lemma studentsFetched_call_pos (e : Env) (w : World) :
  call_pos (studentsFetched e w) = S (call_pos w).
Proof. unfold studentsFetched. destruct (faults e (call_pos w)); reflexivity. Qed.

Lemma studentsFetched_ok (e : Env) (w : World) :
  faults e (call_pos w) = None ->
  students (database (studentsFetched e w)) = listedStudents (backend w).
Proof. intros H. unfold studentsFetched. rewrite H. reflexivity. Qed.

Lemma recordsFetched_ok (e : Env) (w : World) :
  faults e (call_pos w) = None ->
  records (database (recordsFetched e w)) = listedRecords (backend w).
Proof. intros H. unfold recordsFetched. rewrite H. reflexivity. Qed.

Lemma recordsFetched_students (e : Env) (w : World) :
  students (database (recordsFetched e w)) = students (database w).
Proof. unfold recordsFetched. destruct (faults e (call_pos w)); reflexivity. Qed.

Lemma studentsFetched_records (e : Env) (w : World) :
  records (database (studentsFetched e w)) = records (database w).
Proof. unfold studentsFetched. destruct (faults e (call_pos w)); reflexivity. Qed.

Lemma studentDeleted_students (id : string) (w : World) (r : StudentRow.t) :
  In r (tbl_students (backend (studentDeleted id w))) ->
  In r (tbl_students (backend w)) /\ targeted id r = false.
Proof.
  cbn. rewrite filter_In, negb_true_iff. tauto.
Qed.

(** X3. Cascade deletion.  A successful [removeStudent] removes from the
    students table exactly the rows the request reaches, keeps the other
    rows in order, and when it removed a student it removes every record
    of that student and no other record.  After the two refetches
    succeeded no student and no record of that id is held locally. *)
Theorem remove_student_cascades (id : string) (e : Env) (w : World) :
  faults e (call_pos w) = None ->
  let w' := after (removeStudent id) e w in
  tbl_students (backend w') =
    filter (fun r => negb (targeted id r)) (tbl_students (backend w)) /\
  (existsb (targeted id) (tbl_students (backend w)) = true ->
   tbl_records (backend w') =
     filter (fun r => negb (String.eqb (RecordRow.student_id r) id))
            (tbl_records (backend w)) /\
   (forall r, In r (tbl_records (backend w')) <->
              In r (tbl_records (backend w)) /\ RecordRow.student_id r <> id) /\
   (faults e (S (S (call_pos w))) = None ->
    forall r, In r (records (database w')) -> AttendanceRecord.studentId r <> id)) /\
  (faults e (S (call_pos w)) = None ->
   forall s, In s (students (database w')) -> Student.id s <> id).
Proof.
  intros Hok w'. subst w'. unfold after. rewrite removeStudent_run, Hok. cbn [snd].
  rewrite recordsFetched_backend, studentsFetched_backend.
  split; [reflexivity |]. split.
  - intros Hex.
    assert (Hrec : tbl_records (backend (studentDeleted id w)) =
                   filter (fun r => negb (String.eqb (RecordRow.student_id r) id))
                          (tbl_records (backend w))).
    { cbn. now rewrite Hex. }
    split; [exact Hrec |]. split.
    + intros r. rewrite Hrec, filter_In, negb_true_iff, String.eqb_neq. tauto.
    + intros Hok2 r Hin.
      rewrite recordsFetched_ok in Hin
        by (rewrite studentsFetched_call_pos; exact Hok2).
      rewrite studentsFetched_backend in Hin. unfold listedRecords in Hin.
      apply in_map_iff in Hin. destruct Hin as (row & <- & Hin).
      apply orderDesc_In in Hin. rewrite Hrec in Hin.
      apply filter_In in Hin. destruct Hin as [_ Hne].
      apply negb_true_iff, String.eqb_neq in Hne. exact Hne.
  - intros Hok1 s Hin.
    rewrite recordsFetched_students, studentsFetched_ok in Hin by exact Hok1.
    unfold listedStudents in Hin.
    apply in_map_iff in Hin. destruct Hin as (row & <- & Hin).
    apply orderDesc_In, filter_In in Hin. destruct Hin as [Hin Hvis].
    apply studentDeleted_students in Hin. destruct Hin as [_ Ht].
    unfold targeted in Ht. rewrite Hvis, andb_true_r in Ht.
    apply String.eqb_neq in Ht. exact Ht.
Qed.

Lemma remove_student_cascades_witness :
  let e := Sample.mkEnv [] [Sample.at_ 9 0] [] in
  let w := Sample.mkWorld Sample.defaultSettings 0.75 [Sample.alice; Sample.bob]
             [Sample.aliceRow "row-a" (Sample.at_ 8 0)] [] in
  faults e (call_pos w) = None /\
  existsb (targeted "s-1") (tbl_students (backend w)) = true /\
  tbl_records (backend (after (removeStudent "s-1") e w)) = [] /\
  map Student.id (students (database (after (removeStudent "s-1") e w))) = ["s-2"].
Proof.
  intros e w.
  destruct (remove_student_cascades "s-1" e w eq_refl) as (_ & Hrec & _).
  destruct (Hrec eq_refl) as (Hr & _).
  split; [reflexivity |]. split; [reflexivity |]. split; [| reflexivity].
  rewrite Hr. reflexivity.
Defined.

(** X4. A successful [addStudent] returns the row the storage created
    (active, with the submitted fields); when the refetch succeeds too,
    the new student is held locally. *)
Theorem added_student_is_listed (d : NewStudent.t) (e : Env) (w : World) :
  faults e (call_pos w) = None ->
  let row := insertedStudent e (call_pos w) d in
  let w' := after (addStudent d) e w in
  result (addStudent d) e w = Returned (Some row) /\
  StudentRow.is_active row = true /\
  tbl_students (backend w') = tbl_students (backend w) ++ [row] /\
  tbl_records (backend w') = tbl_records (backend w) /\
  (faults e (S (call_pos w)) = None -> In (formatStudent row) (students (database w'))).
Proof.
  intros Hok row w'. subst w'. unfold result, after. rewrite addStudent_run, Hok.
  cbn [fst snd]. rewrite studentsFetched_backend.
  split; [reflexivity |]. split; [reflexivity |]. split; [reflexivity |].
  split; [reflexivity |].
  intros Hok1. rewrite studentsFetched_ok by exact Hok1. unfold listedStudents.
  apply in_map, orderDesc_In, filter_In. split; [| reflexivity].
  cbn. apply in_or_app. right. now left.
Qed.

Lemma added_student_is_listed_witness :
  let e := Sample.mkEnv [] [Sample.at_ 9 0] [] in
  let d := {| NewStudent.name := "Erin"; NewStudent.email := "erin@example.org";
              NewStudent.studentId := None; NewStudent.department := None;
              NewStudent.year := None; NewStudent.photo := Some "data:image/jpeg;base64,EE" |} in
  faults e (call_pos Sample.world0) = None /\
  faults e (S (call_pos Sample.world0)) = None /\
  In (formatStudent (insertedStudent e 0 d))
     (students (database (after (addStudent d) e Sample.world0))).
Proof.
  intros e d.
  destruct (added_student_is_listed d e Sample.world0 eq_refl) as (_ & _ & _ & _ & Hin).
  split; [reflexivity |]. split; [reflexivity |]. exact (Hin eq_refl).
Defined.

Lemma refusesUpdate_spec (id : string) (v : bool) (b : Backend) :
  refusesUpdate id v b = negb v && existsb (targeted id) (tbl_students b).
Proof.
  unfold refusesUpdate. induction (tbl_students b) as [| r l IH]; cbn [existsb].
  - now rewrite andb_false_r.
  - rewrite IH. change (visible (setActive v r)) with v.
    destruct (targeted id r), v; reflexivity.
Qed.

Lemma setActive_same (r : StudentRow.t) :
  setActive (StudentRow.is_active r) r = r.
Proof. destruct r; reflexivity. Qed.

Lemma update_changes_nothing (id : string) (v : bool) (b : Backend) :
  refusesUpdate id v b = false ->
  map (fun r => if targeted id r then setActive v r else r) (tbl_students b)
  = tbl_students b.
Proof.
  unfold refusesUpdate. induction (tbl_students b) as [| r l IH]; intros H;
    cbn [existsb map] in *; [reflexivity |].
  apply orb_false_iff in H. destruct H as [Hr Hl]. rewrite (IH Hl). f_equal.
  destruct (targeted id r) eqn:Ht; [| reflexivity].
  change (visible (setActive v r)) with v in Hr. cbn in Hr.
  apply negb_false_iff in Hr. subst v.
  unfold targeted, visible in Ht. apply andb_true_iff in Ht. destruct Ht as [_ Ha].
  rewrite <- Ha at 1. apply setActive_same.
Qed.

Lemma statusUpdated_backend (id : string) (v : bool) (w : World) :
  refusesUpdate id v (backend w) = false ->
  backend (statusUpdated id v w) = backend w.
Proof.
  intros H. cbn. rewrite (update_changes_nothing id v (backend w) H).
  destruct (backend w); reflexivity.
Qed.

(** X5. [toggleStudentStatus] never changes a row of the storage, nor the
    records held locally.  On an id that is not held locally it issues no
    request and changes nothing.  On a held student whose request the
    transport does not fail: deactivating (the held flag is set) a student
    whose row the request reaches is refused by the storage, because the
    new version of the row would not be visible under the policy on
    reading; the hook throws that error, keeps its students, sets its
    error text and does not refetch.  In every other case the request
    succeeds, without changing a row, and the students are refetched. *)
Theorem toggle_status_effect (id : string) (e : Env) (w : World) :
  let w' := after (toggleStudentStatus id) e w in
  (heldStudent id w = None ->
   toggleStudentStatus id e w = (Returned tt, w)) /\
  backend w' = backend w /\
  records (database w') = records (database w) /\
  (forall s, heldStudent id w = Some s -> faults e (call_pos w) = None ->
     Student.isActive s = true ->
     existsb (targeted id) (tbl_students (backend w)) = true ->
     result (toggleStudentStatus id) e w = Thrown policyViolation /\
     students (database w') = students (database w) /\
     db_error (database w') = Some "Failed to update student status" /\
     call_pos w' = S (call_pos w)) /\
  (forall s, heldStudent id w = Some s -> faults e (call_pos w) = None ->
     Student.isActive s = false \/
     existsb (targeted id) (tbl_students (backend w)) = false ->
     result (toggleStudentStatus id) e w = Returned tt /\
     call_pos w' = S (S (call_pos w))).
Proof.
  intros w'. subst w'. unfold result, after. rewrite toggleStudentStatus_run.
  split; [intros ->; reflexivity |].
  destruct (heldStudent id w) as [s |].
  - destruct (faults e (call_pos w)) as [x |].
    + cbn [fst snd]. split; [reflexivity |]. split; [reflexivity |].
      split; intros s' _ Hx; discriminate Hx.
    + destruct (refusesUpdate id (negb (Student.isActive s)) (backend w)) eqn:Hr.
      * cbn [fst snd]. split; [reflexivity |]. split; [reflexivity |].
        rewrite refusesUpdate_spec, negb_involutive in Hr.
        apply andb_true_iff in Hr. destruct Hr as [Hact Hreach]. split.
        -- intros s' Hs _ _ _. repeat split.
        -- intros s' Hs _ [Hoff | Hnone]; injection Hs as <-; congruence.
      * cbn [fst snd].
        rewrite studentsFetched_backend, studentsFetched_records,
          (statusUpdated_backend _ _ _ Hr).
        split; [reflexivity |]. split; [reflexivity |].
        rewrite refusesUpdate_spec, negb_involutive in Hr. split.
        -- intros s' Hs _ Hact Hreach. injection Hs as <-.
           rewrite Hact, Hreach in Hr. discriminate.
        -- intros s' _ _ _. split; [reflexivity |].
           now rewrite studentsFetched_call_pos.
  - cbn [fst snd]. split; [reflexivity |]. split; [reflexivity |].
    split; intros s' Hs; discriminate Hs.
Qed.

Lemma toggle_status_effect_witness :
  let e := Sample.mkEnv [] [Sample.at_ 9 0] [] in
  let stale := Sample.mkWorld Sample.defaultSettings 0.75 [Sample.bob] [] [] in
  let gone := with_backend {| tbl_students := []; tbl_records := [] |} stale in
  heldStudent "s-9" Sample.world0 = None /\
  toggleStudentStatus "s-9" e Sample.world0 = (Returned tt, Sample.world0) /\
  heldStudent "s-2" Sample.world0 = Some Sample.bob /\
  existsb (targeted "s-2") (tbl_students (backend Sample.world0)) = true /\
  result (toggleStudentStatus "s-2") e Sample.world0 = Thrown policyViolation /\
  backend (after (toggleStudentStatus "s-2") e Sample.world0) = backend Sample.world0 /\
  existsb (targeted "s-2") (tbl_students (backend gone)) = false /\
  result (toggleStudentStatus "s-2") e gone = Returned tt.
Proof.
  intros e stale gone.
  destruct (toggle_status_effect "s-9" e Sample.world0) as [Hnone _].
  destruct (toggle_status_effect "s-2" e Sample.world0) as (_ & Hsame & _ & Hrefused & _).
  destruct (Hrefused Sample.bob eq_refl eq_refl eq_refl eq_refl) as (Hthrown & _).
  destruct (toggle_status_effect "s-2" e gone) as (_ & _ & _ & _ & Hpass).
  destruct (Hpass Sample.bob eq_refl eq_refl (or_intror eq_refl)) as (Hret & _).
  split; [reflexivity |]. split; [exact (Hnone eq_refl) |].
  split; [reflexivity |]. split; [reflexivity |]. split; [exact Hthrown |].
  split; [exact Hsame |]. split; [reflexivity | exact Hret].
Defined.

(** X6. When the write of an accepted proposal succeeds but the refetch
    that follows fails, the record is stored and the acceptance notice is
    issued, yet the records held locally are the ones held before: the
    duplicate check of every later proposal gives what it gave before the
    record was stored. *)
Theorem failed_refetch_hides_stored_record (e : Env) (w : World)
    (record : NewRecord.t) (x : Exn) :
  (hasAttended e record (clock e (clock_pos w)) w = false \/
   AttendanceSettings.allowMultipleMarking (settings w) = true) ->
  faults e (call_pos w) = None ->
  faults e (S (call_pos w)) = Some x ->
  let w' := after (handleAttendanceMarked record) e w in
  In (insertedRow e (call_pos w) record) (tbl_records (backend w')) /\
  (announced (attendanceMarked record) w' \/ announced (outsideWorkingHours record) w') /\
  records (database w') = records (database w) /\
  (forall later day, hasAttended e later day w' = hasAttended e later day w).
Proof.
  intros Hpass Hok Hfail w'. subst w'. unfold after.
  rewrite handleAttendanceMarked_run.
  assert (Hc : negb (hasAttended e record (clock e (clock_pos w)) w)
               || AttendanceSettings.allowMultipleMarking (settings w) = true).
  { destruct Hpass as [-> | ->]; [reflexivity | apply orb_true_r]. }
  rewrite Hc, Hok. cbn [snd].
  assert (Hrecs : records (database
                    (notified e
                       (acceptanceNotice (settings w)
                          (minutesOfDay (tzOffset e) (clock e (S (clock_pos w)))) record)
                       (recordsFetched e
                          (recordInserted e record (with_clock_pos (S (S (clock_pos w))) w)))))
                  = records (database w)).
  { unfold recordsFetched. cbn [call_pos recordInserted with_backend with_call_pos with_clock_pos].
    rewrite Hfail. reflexivity. }
  split; [| split; [| split]].
  - rewrite notified_backend, recordsFetched_backend, recordInserted_records.
    apply in_or_app; right; now left.
  - unfold acceptanceNotice. destruct (inWorkingHours _ _);
      [left | right]; apply notified_announced.
  - exact Hrecs.
  - intros later day. unfold hasAttended. now rewrite Hrecs.
Qed.

Lemma failed_refetch_hides_stored_record_witness :
  let e := Sample.mkEnv [] [Sample.at_ 10 0] [None; Some Sample.transportError] in
  let w := Sample.mkWorld Sample.defaultSettings 0.75 [Sample.alice] [] [] in
  let record := Sample.aliceAt (Sample.at_ 10 0) in
  let w' := after (handleAttendanceMarked record) e w in
  faults e (S (call_pos w)) = Some Sample.transportError /\
  tbl_records (backend w') = [insertedRow e 0 record] /\
  records (database w') = [] /\
  hasAttended e record (Sample.at_ 10 5) w' = false.
Proof.
  intros e w record w'.
  destruct (failed_refetch_hides_stored_record e w record Sample.transportError
              (or_introl eq_refl) eq_refl eq_refl) as (_ & _ & Hrecs & Hlater).
  split; [reflexivity |]. split; [reflexivity |]. split; [exact Hrecs |].
  subst w'. rewrite (Hlater record (Sample.at_ 10 5)). reflexivity.
Defined.

Lemma studentsFetched_notifications (e : Env) (w : World) :
  notifications (studentsFetched e w) = notifications w.
Proof. unfold studentsFetched. destruct (faults e (call_pos w)); reflexivity. Qed.

Lemma recordsFetched_notifications (e : Env) (w : World) :
  notifications (recordsFetched e w) = notifications w.
Proof. unfold recordsFetched. destruct (faults e (call_pos w)); reflexivity. Qed.

(* ================================================================== *)
(** * The student handlers of [App]: properties                        *)
(* ================================================================== *)

Lemma handleAddStudent_run (d : NewStudent.t) (e : Env) (w : World) :
  handleAddStudent d e w =
  match faults e (call_pos w) with
  | Some x =>
      (Returned tt,
       notified e addFailed
         (withError (errorMessage x "Failed to add student")
                    (with_call_pos (S (call_pos w)) w)))
  | None =>
      (Returned tt, notified e (studentAdded d) (studentsFetched e (studentInserted e d w)))
  end.
Proof.
  unfold handleAddStudent, tryCatch. unfold bind at 1. rewrite addStudent_run.
  destruct (faults e (call_pos w)); rewrite addNotification_run; reflexivity.
Qed.

Lemma handleRemoveStudent_run (id : string) (e : Env) (w : World) :
  handleRemoveStudent id e w =
  match faults e (call_pos w) with
  | Some x =>
      (Returned tt,
       notified e removeFailed
         (withError (errorMessage x "Failed to remove student")
                    (with_call_pos (S (call_pos w)) w)))
  | None =>
      let w1 := recordsFetched e (studentsFetched e (studentDeleted id w)) in
      match heldStudent id w with
      | Some s => (Returned tt, notified e (studentRemoved s) w1)
      | None => (Returned tt, w1)
      end
  end.
Proof.
  unfold handleRemoveStudent, tryCatch. unfold bind at 1. unfold gets at 1.
  fold (heldStudent id w). unfold bind at 1. rewrite removeStudent_run.
  destruct (faults e (call_pos w)).
  - rewrite addNotification_run. reflexivity.
  - cbv zeta. destruct (heldStudent id w); [rewrite addNotification_run |]; reflexivity.
Qed.

Lemma handleToggleStudentStatus_run (id : string) (e : Env) (w : World) :
  handleToggleStudentStatus id e w =
  match heldStudent id w with
  | None => (Returned tt, w)
  | Some s =>
      match faults e (call_pos w) with
      | Some x =>
          (Returned tt,
           notified e toggleFailed
             (withError (errorMessage x "Failed to update student status")
                        (with_call_pos (S (call_pos w)) w)))
      | None =>
          if refusesUpdate id (negb (Student.isActive s)) (backend w)
          then
            (Returned tt,
             notified e toggleFailed
               (withError (errorMessage policyViolation "Failed to update student status")
                          (with_call_pos (S (call_pos w)) w)))
          else
            (Returned tt,
             studentsFetched e (statusUpdated id (negb (Student.isActive s)) w))
      end
  end.
Proof.
  unfold handleToggleStudentStatus, tryCatch. rewrite toggleStudentStatus_run.
  destruct (heldStudent id w); [| reflexivity].
  destruct (faults e (call_pos w)); [rewrite addNotification_run; reflexivity |].
  destruct (refusesUpdate id _ (backend w)); [rewrite addNotification_run |]; reflexivity.
Qed.

Lemma issuesWrite_toggle (id : string) (w : World) :
  issuesWrite (ToggleStudentStatus id) w = isSome (heldStudent id w).
Proof. reflexivity. Qed.

(** X7. The three student handlers of the application never throw.  When
    the storage request of the write fails they issue their "Error"
    notice, and the local students and records and the tables stay as
    they were. *)
Theorem student_handlers_report_failure (a : StudentAction) (e : Env) (w : World) :
  let w' := after (runStudentAction a) e w in
  result (runStudentAction a) e w = Returned tt /\
  (forall x, faults e (call_pos w) = Some x -> issuesWrite (writeOf a) w = true ->
     announced (failureNotice a) w' /\
     NewNotification.type (failureNotice a) = error /\
     students (database w') = students (database w) /\
     records (database w') = records (database w) /\
     backend w' = backend w).
Proof.
  intros w'. subst w'. unfold result, after.
  destruct a as [d | id | id]; cbn [runStudentAction writeOf failureNotice].
  - rewrite handleAddStudent_run. destruct (faults e (call_pos w)) as [y |].
    + split; [reflexivity |]. intros x _ _. cbn [snd].
      split; [apply notified_announced |]. repeat split.
    + split; [reflexivity |]. discriminate.
  - rewrite handleRemoveStudent_run. destruct (faults e (call_pos w)) as [y |].
    + split; [reflexivity |]. intros x _ _. cbn [snd].
      split; [apply notified_announced |]. repeat split.
    + cbv zeta. destruct (heldStudent id w); (split; [reflexivity | discriminate]).
  - rewrite handleToggleStudentStatus_run, issuesWrite_toggle.
    destruct (heldStudent id w) as [s |].
    + destruct (faults e (call_pos w)) as [y |].
      * split; [reflexivity |]. intros x _ _. cbn [snd].
        split; [apply notified_announced |]. repeat split.
      * destruct (refusesUpdate id _ (backend w)); (split; [reflexivity | discriminate]).
    + split; [reflexivity |]. discriminate.
Qed.

Lemma student_handlers_report_failure_witness :
  let e := Sample.mkEnv [] [Sample.at_ 9 0] [Some Sample.transportError] in
  faults e (call_pos Sample.world0) = Some Sample.transportError /\
  issuesWrite (writeOf (DoRemove "s-1")) Sample.world0 = true /\
  announced removeFailed (after (handleRemoveStudent "s-1") e Sample.world0) /\
  students (database (after (handleRemoveStudent "s-1") e Sample.world0))
    = [Sample.alice; Sample.bob; Sample.carol].
Proof.
  intros e.
  destruct (student_handlers_report_failure (DoRemove "s-1") e Sample.world0)
    as [_ Hfail].
  destruct (Hfail Sample.transportError eq_refl eq_refl) as (Ha & _ & Hs & _).
  split; [reflexivity |]. split; [reflexivity |]. split; [exact Ha | exact Hs].
Defined.

(** X8. What the handlers say when the transport does not fail the
    write.  An added student is announced ("Student Added") whether or
    not the refetch worked.  A removal is announced with the name found
    in the local list before the delete; when the id is not held locally
    the delete is still sent but nothing is announced.  A toggle that the
    storage accepts announces nothing; a toggle that the storage refuses
    (X5) gets the "Error" notice. *)
Theorem student_handlers_success_notices (e : Env) (w : World) :
  faults e (call_pos w) = None ->
  (forall d, announced (studentAdded d) (after (handleAddStudent d) e w)) /\
  (forall id s, heldStudent id w = Some s ->
     announced (studentRemoved s) (after (handleRemoveStudent id) e w)) /\
  (forall id, heldStudent id w = None ->
     notifications (after (handleRemoveStudent id) e w) = notifications w /\
     backend (after (handleRemoveStudent id) e w) = backend (studentDeleted id w)) /\
  (forall id, toggleRefused id w = false ->
     notifications (after (handleToggleStudentStatus id) e w) = notifications w) /\
  (forall id, toggleRefused id w = true ->
     announced toggleFailed (after (handleToggleStudentStatus id) e w)).
Proof.
  intros Hok. unfold after. split; [| split; [| split; [| split]]].
  - intros d. rewrite handleAddStudent_run, Hok. apply notified_announced.
  - intros id s H. rewrite handleRemoveStudent_run, Hok. cbv zeta. rewrite H.
    apply notified_announced.
  - intros id H. rewrite handleRemoveStudent_run, Hok. cbv zeta. rewrite H. cbn [snd].
    split.
    + now rewrite recordsFetched_notifications, studentsFetched_notifications.
    + now rewrite recordsFetched_backend, studentsFetched_backend.
  - intros id Hacc. rewrite handleToggleStudentStatus_run, Hok.
    unfold toggleRefused in Hacc.
    destruct (heldStudent id w); [| reflexivity]. rewrite Hacc. cbn [snd].
    now rewrite studentsFetched_notifications.
  - intros id Href. rewrite handleToggleStudentStatus_run, Hok.
    unfold toggleRefused in Href.
    destruct (heldStudent id w); [| discriminate]. rewrite Href.
    apply notified_announced.
Qed.

Lemma student_handlers_success_notices_witness :
  let e := Sample.mkEnv [] [Sample.at_ 9 0] [] in
  faults e (call_pos Sample.world0) = None /\
  heldStudent "s-2" Sample.world0 = Some Sample.bob /\
  announced (studentRemoved Sample.bob) (after (handleRemoveStudent "s-2") e Sample.world0) /\
  toggleRefused "s-2" Sample.world0 = true /\
  announced toggleFailed (after (handleToggleStudentStatus "s-2") e Sample.world0) /\
  toggleRefused "s-9" Sample.world0 = false /\
  notifications (after (handleToggleStudentStatus "s-9") e Sample.world0) = [].
Proof.
  intros e.
  destruct (student_handlers_success_notices e Sample.world0 eq_refl)
    as (_ & Hrem & _ & Hquiet & Hloud).
  split; [reflexivity |]. split; [reflexivity |].
  split; [exact (Hrem "s-2" Sample.bob eq_refl) |].
  split; [reflexivity |]. split; [exact (Hloud "s-2" eq_refl) |].
  split; [reflexivity |]. exact (Hquiet "s-9" eq_refl).
Defined.

(** With no failure of the transport, the toggle of a held, active
    student is refused by the storage and reported as an error. *)
Example refused_toggle_is_reported :
  let e := Sample.mkEnv [] [Sample.at_ 9 0] [] in
  let w' := after (handleToggleStudentStatus "s-2") e Sample.world0 in
  faults e (call_pos Sample.world0) = None /\
  map NotificationMessage.message (notifications w')
    = ["Failed to update student status. Please try again."] /\
  backend w' = backend Sample.world0 /\
  db_error (database w') = Some "Failed to update student status".
Proof. cbv zeta. repeat split. Qed.

(* ================================================================== *)
(** * Notifications: further properties                                *)
(* ================================================================== *)

Lemma markRead_read (id : string) (n : NotificationMessage.t) :
  NotificationMessage.read (markRead id n)
  = NotificationMessage.read n || String.eqb (NotificationMessage.id n) id.
Proof.
  unfold markRead. destruct (String.eqb _ id); cbn.
  - now rewrite orb_true_r.
  - now rewrite orb_false_r.
Qed.

Lemma markRead_idempotent (id : string) (n : NotificationMessage.t) :
  markRead id (markRead id n) = markRead id n.
Proof.
  unfold markRead. destruct (String.eqb (NotificationMessage.id n) id) eqn:E; cbn.
  - now rewrite E.
  - now rewrite E.
Qed.

Lemma markRead_other (id : string) (n : NotificationMessage.t) :
  NotificationMessage.id n <> id -> markRead id n = n.
Proof.
  intros H. unfold markRead. apply String.eqb_neq in H. now rewrite H.
Qed.

Lemma unreadCount_markRead (id : string) (l : list NotificationMessage.t) :
  unreadCount (map (markRead id) l)
  = List.length
      (filter (fun n => negb (NotificationMessage.read n)
                        && negb (String.eqb (NotificationMessage.id n) id)) l).
Proof.
  unfold unreadCount. induction l as [| n l IH]; [reflexivity |].
  cbn [map filter]. rewrite markRead_read, negb_orb.
  destruct (negb (NotificationMessage.read n) && negb (String.eqb _ id));
    cbn [List.length]; now rewrite IH.
Qed.

Lemma filter_length_le2 {A} (f g : A -> bool) (l : list A) :
  (forall x, f x = true -> g x = true) ->
  (List.length (filter f l) <= List.length (filter g l))%nat.
Proof.
  intros H. induction l as [| x l IH]; [reflexivity |]. cbn.
  destruct (f x) eqn:Ef.
  - rewrite (H x Ef). cbn. lia.
  - destruct (g x); cbn; lia.
Qed.

(** X9. [markAsRead id] keeps the list as it is (order, length and every
    field) except that the notifications of that id become read; those
    that were read stay read.  The number of unread ones becomes the
    number of unread ones of another id, so it never grows.  An id that
    no notification carries changes nothing, and marking twice is marking
    once. *)
Theorem mark_as_read_effect (id : string) (e : Env) (w : World) :
  let before := notifications w in
  let after_ := notifications (after (markAsRead id) e w) in
  List.length after_ = List.length before /\
  map NotificationMessage.id after_ = map NotificationMessage.id before /\
  map NotificationMessage.message after_ = map NotificationMessage.message before /\
  (forall n, In n after_ -> NotificationMessage.id n = id -> NotificationMessage.read n = true) /\
  unreadCount after_ =
    List.length (filter (fun n => negb (NotificationMessage.read n)
                                  && negb (String.eqb (NotificationMessage.id n) id)) before) /\
  (unreadCount after_ <= unreadCount before)%nat /\
  ((forall n, In n before -> NotificationMessage.id n <> id) -> after_ = before) /\
  notifications (after (markAsRead id) e (after (markAsRead id) e w)) = after_.
Proof.
  cbv zeta. unfold after, markAsRead, modify. cbn [snd notifications with_notifications].
  split; [apply length_map |]. split; [| split; [| split; [| split; [| split; [| split]]]]].
  - rewrite map_map. apply map_ext. intros n. unfold markRead.
    now destruct (String.eqb _ id).
  - rewrite map_map. apply map_ext. intros n. unfold markRead.
    now destruct (String.eqb _ id).
  - intros n Hin Hid. apply in_map_iff in Hin. destruct Hin as (m & <- & _).
    rewrite markRead_read.
    assert (Hm : NotificationMessage.id m = id).
    { revert Hid. unfold markRead. now destruct (String.eqb _ id). }
    apply String.eqb_eq in Hm. rewrite Hm. apply orb_true_r.
  - apply unreadCount_markRead.
  - rewrite unreadCount_markRead. unfold unreadCount. apply filter_length_le2.
    intros n H. now apply andb_true_iff in H.
  - intros Habsent. rewrite <- (map_id (notifications w)) at 2.
    apply map_ext_in. intros n Hin. now apply markRead_other, Habsent.
  - rewrite map_map. apply map_ext. intros n. apply markRead_idempotent.
Qed.

Lemma mark_as_read_effect_witness :
  let e := Sample.mkEnv [] [Sample.at_ 9 0] [] in
  let w := Sample.mkWorld Sample.defaultSettings 0.75 [] [] Sample.fifty in
  (forall n, In n (notifications w) -> NotificationMessage.id n <> "51") /\
  notifications (after (markAsRead "51") e w) = notifications w.
Proof.
  intros e w.
  assert (Habsent : forall n, In n (notifications w) -> NotificationMessage.id n <> "51").
  { intros n Hin. apply String.eqb_neq.
    assert (Hall : forallb (fun m => negb (String.eqb (NotificationMessage.id m) "51"))
                           (notifications w) = true) by (vm_compute; reflexivity).
    rewrite forallb_forall in Hall. apply negb_true_iff. now apply Hall. }
  split; [exact Habsent |].
  destruct (mark_as_read_effect "51" e w) as (_ & _ & _ & _ & _ & _ & Hsame & _).
  exact (Hsame Habsent).
Defined.

(** X10. After [addNotification] at least one notification is unread (the
    new one, at the head), and the number of unread ones has grown by at
    most one: it does not grow when the entry that is dropped at the
    bound was unread. *)
Theorem add_notification_unread (n : NewNotification.t) (e : Env) (w : World) :
  let after_ := notifications (after (addNotification n) e w) in
  (1 <= unreadCount after_)%nat /\
  (unreadCount after_ <= S (unreadCount (notifications w)))%nat /\
  (forall last, List.length (notifications w) = 50%nat ->
     nth_error (notifications w) 49 = Some last ->
     NotificationMessage.read last = false ->
     unreadCount after_ = unreadCount (notifications w)).
Proof.
  cbv zeta. unfold after. rewrite addNotification_run. cbn [snd].
  unfold notified. cbn [notifications with_notifications].
  set (m := stamp n _ _). set (l := notifications w).
  unfold slice0. change (firstn 50 (m :: l)) with (m :: firstn 49 l).
  unfold unreadCount. cbn [filter NotificationMessage.read stamp m negb List.length].
  assert (Hle : (List.length (filter (fun x => negb (NotificationMessage.read x)) (firstn 49 l))
                 <= List.length (filter (fun x => negb (NotificationMessage.read x)) l))%nat).
  { rewrite <- (firstn_skipn 49 l) at 2. rewrite filter_app, length_app. lia. }
  split; [lia |]. split; [lia |].
  intros last Hlen Hnth Hunread.
  rewrite <- (firstn_skipn 49 l) at 2. rewrite filter_app, length_app.
  assert (Hsk : skipn 49 l = [last]).
  { pose proof (firstn_skipn 49 l) as Hsplit.
    assert (Hl49 : List.length (skipn 49 l) = 1%nat) by (rewrite length_skipn; lia).
    destruct (skipn 49 l) as [| a [| b t]] eqn:Es; try discriminate.
    f_equal.
    assert (Hn : nth_error l 49 = Some a).
    { rewrite <- Hsplit. rewrite nth_error_app2 by (rewrite length_firstn; lia).
      rewrite length_firstn. replace (49 - Nat.min 49 (List.length l))%nat with 0%nat by lia.
      reflexivity. }
    congruence. }
  rewrite Hsk. cbn [filter]. rewrite Hunread. cbn. lia.
Qed.

Lemma add_notification_unread_witness :
  let e := Sample.mkEnv [] [Sample.at_ 9 0] [] in
  let w := Sample.mkWorld Sample.defaultSettings 0.75 [] [] Sample.fifty in
  List.length (notifications w) = 50%nat /\
  nth_error (notifications w) 49 = Some (Sample.note 1) /\
  unreadCount (notifications (after (addNotification markFailed) e w)) = 50%nat.
Proof.
  intros e w.
  destruct (add_notification_unread markFailed e w) as (_ & _ & Hfull).
  split; [reflexivity |]. split; [reflexivity |].
  rewrite (Hfull (Sample.note 1) eq_refl eq_refl eq_refl). reflexivity.
Defined.

(* ================================================================== *)
(** * The camera pipeline: further properties                          *)
(* ================================================================== *)

Lemma intervalTick_idle (autoMode : bool) (sts : list Student.t)
    (cb : NewRecord.t -> M unit) (e : Env) (w : World) :
  handleRecognition sts cb e (with_rand_pos (S (S (rand_pos w))) w)
    = (Returned tt, with_rand_pos (S (S (rand_pos w))) w) ->
  intervalTick autoMode sts cb e w =
  (Returned (JS.gt (rng e (rand_pos w)) 0.4),
   with_rand_pos (if autoMode then S (S (rand_pos w)) else S (rand_pos w)) w).
Proof.
  intros Hskip. unfold intervalTick. unfold bind at 1. unfold Math_random at 1.
  destruct autoMode.
  - unfold bind at 1. unfold bind at 1. unfold Math_random at 1.
    unfold bind at 1. unfold gets at 1.
    cbn [rand_pos with_rand_pos camera].
    change (with_rand_pos (S (S (rand_pos w))) (with_rand_pos (S (rand_pos w)) w))
      with (with_rand_pos (S (S (rand_pos w))) w).
    destruct (JS.gt _ 0.7 && negb (isProcessing (camera w))).
    + rewrite Hskip. reflexivity.
    + reflexivity.
  - reflexivity.
Qed.

(** X11. Single flight.  While the camera is not active or an attempt is
    in progress, a manual trigger does nothing at all, and a tick of the
    automatic mode only takes its random draws (one, or two in automatic
    mode): no matcher run, no delay, no clock reading, no storage request,
    no notification. *)
Theorem single_flight (autoMode : bool) (sts : list Student.t)
    (cb : NewRecord.t -> M unit) (e : Env) (w : World) :
  isActive (camera w) = false \/ isProcessing (camera w) = true ->
  handleRecognition sts cb e w = (Returned tt, w) /\
  after (intervalTick autoMode sts cb) e w
    = with_rand_pos (if autoMode then S (S (rand_pos w)) else S (rand_pos w)) w.
Proof.
  intros Hbusy.
  assert (Hskip : forall w0, camera w0 = camera w ->
            handleRecognition sts cb e w0 = (Returned tt, w0)).
  { intros w0 Hc. rewrite handleRecognition_run, Hc.
    destruct Hbusy as [-> | ->]; [reflexivity | now rewrite orb_true_r]. }
  split; [now apply Hskip |].
  unfold after. rewrite intervalTick_idle; [reflexivity |]. now apply Hskip.
Qed.

Lemma single_flight_witness :
  let e := Sample.mkEnv [0.9; 0.9]%Q [Sample.at_ 9 0] [] in
  let w := processing true Sample.world0 in
  isProcessing (camera w) = true /\
  handleRecognition [Sample.alice] handleAttendanceMarked e w = (Returned tt, w) /\
  after (intervalTick true [Sample.alice] handleAttendanceMarked) e w = with_rand_pos 2 w.
Proof.
  intros e w.
  destruct (single_flight true [Sample.alice] handleAttendanceMarked e w
              (or_intror eq_refl)) as [Hm Ha].
  split; [reflexivity |]. split; [exact Hm | exact Ha].
Defined.

(** X12. A run of [handleRecognition] that starts (camera active, no
    attempt in progress) returns normally and ends with the in-progress
    flag cleared, whatever the matcher returns and whatever the callback
    does, also when the callback throws. *)
Theorem processing_flag_released (sts : list Student.t)
    (cb : NewRecord.t -> M unit) (e : Env) (w : World) :
  isActive (camera w) = true ->
  isProcessing (camera w) = false ->
  result (handleRecognition sts cb) e w = Returned tt /\
  isProcessing (camera (after (handleRecognition sts cb) e w)) = false.
Proof.
  intros Hact Hidle. unfold result, after. rewrite handleRecognition_run, Hact, Hidle.
  cbn [negb orb].
  destruct (JS.truthy (captureFrame e)); [| split; reflexivity].
  destruct (simulateFaceRecognition _ sts _ e _) as [[[res |] | x] w2];
    try (split; reflexivity).
  destruct (JS.geq _ _); [| split; reflexivity].
  destruct (cb _ e _) as [[[] | x] w3]; split; reflexivity.
Qed.

Lemma processing_flag_released_witness :
  let e := Sample.mkEnv [0.5; 0.79; 0.795; 0.5]%Q [Sample.at_ 9 0] [] in
  let thrower := fun _ : NewRecord.t => throw Sample.transportError : M unit in
  isActive (camera Sample.world0) = true /\
  isProcessing (camera Sample.world0) = false /\
  isProcessing (camera (after (handleRecognition [Sample.alice; Sample.bob] thrower)
                              e Sample.world0)) = false.
Proof.
  intros e thrower.
  destruct (processing_flag_released [Sample.alice; Sample.bob] thrower e Sample.world0
              eq_refl eq_refl) as [_ Hflag].
  split; [reflexivity |]. split; [reflexivity | exact Hflag].
Defined.

(* ================================================================== *)
(** * The working-hours window: further properties                    *)
(* ================================================================== *)

Lemma minutesOfDay_bounds (tz : Z -> Z) (d : JS.Date) :
  0 <= minutesOfDay tz d <= 1439.
Proof.
  unfold minutesOfDay, JS.getHours, JS.getMinutes, JS.msPerDay.
  generalize (JS.localTime tz d). intros t.
  pose proof (Z.mod_pos_bound t 86400000 eq_refl) as H1.
  pose proof (Z.mod_pos_bound t 3600000 eq_refl) as H2.
  assert (0 <= t mod 86400000 / 3600000 <= 23).
  { split; [apply Z.div_pos; lia |].
    apply Z.lt_succ_r, Z.div_lt_upper_bound; lia. }
  assert (0 <= t mod 3600000 / 60000 <= 59).
  { split; [apply Z.div_pos; lia |].
    apply Z.lt_succ_r, Z.div_lt_upper_bound; lia. }
  lia.
Qed.

Lemma isWithinWorkingHours_run (e : Env) (w : World) :
  isWithinWorkingHours e w =
  (Returned (inWorkingHours (settings w) (minutesOfDay (tzOffset e) (clock e (clock_pos w)))),
   with_clock_pos (S (clock_pos w)) w).
Proof. reflexivity. Qed.

Lemma withinHours_nan (c : Z) (s f : option Z) :
  s = None \/ f = None -> withinHours c s f = false.
Proof.
  unfold withinHours, JS.geZ, JS.leZ.
  intros [-> | ->]; [reflexivity |]. destruct s; [apply andb_false_r | reflexivity].
Qed.

(** X13. A window that cannot be read, or whose end lies before its start
    (an overnight window such as 22:00-06:00), is never open: at every
    instant the banner of the camera view reports "outside working
    hours", and every proposal the policy accepts gets the "Outside
    Working Hours" notice. *)
Theorem unreadable_or_inverted_window_is_closed (e : Env) (w : World) :
  let startTime :=
    toMinutes (AttendanceSettings.start (AttendanceSettings.workingHours (settings w))) in
  let endTime :=
    toMinutes (AttendanceSettings.end_ (AttendanceSettings.workingHours (settings w))) in
  (startTime = None \/ endTime = None \/
   exists s f, startTime = Some s /\ endTime = Some f /\ f < s) ->
  result isWithinWorkingHours e w = Returned false /\
  (forall currentTime record,
     acceptanceNotice (settings w) currentTime record = outsideWorkingHours record).
Proof.
  intros startTime endTime Hclosed.
  assert (Hnever : forall c, inWorkingHours (settings w) c = false).
  { intros c. unfold inWorkingHours. fold startTime endTime.
    destruct Hclosed as [H | [H | (s & f & Hs & Hf & Hlt)]].
    - apply withinHours_nan. now left.
    - apply withinHours_nan. now right.
    - rewrite Hs, Hf. destruct (withinHours c (Some s) (Some f)) eqn:E; [| reflexivity].
      apply withinHours_iff in E. lia. }
  split.
  - unfold result. rewrite isWithinWorkingHours_run. cbn [fst]. now rewrite Hnever.
  - intros c record. unfold acceptanceNotice. now rewrite Hnever.
Qed.

Lemma unreadable_or_inverted_window_is_closed_witness :
  let e := Sample.mkEnv [] [Sample.at_ 23 0] [] in
  let w := Sample.mkWorld Sample.nightSettings 0.75 [Sample.alice] [] [] in
  toMinutes "22:00" = Some 1320 /\ toMinutes "06:00" = Some 360 /\
  result isWithinWorkingHours e w = Returned false.
Proof.
  intros e w. split; [reflexivity |]. split; [reflexivity |].
  apply (unreadable_or_inverted_window_is_closed e w).
  right. right. exists 1320, 360. repeat split.
Defined.

(** X14. The time of day the policy compares lies between 0 and 1439
    minutes at every instant and in every zone; so a window from 00:00
    (or earlier) to 23:59 (or later) is open at every instant, and a
    window with [start <= end] is open exactly at the minutes between
    start and end, both included. *)
Theorem window_open_times (e : Env) (w : World) (s f : Z) :
  toMinutes (AttendanceSettings.start (AttendanceSettings.workingHours (settings w)))
    = Some s ->
  toMinutes (AttendanceSettings.end_ (AttendanceSettings.workingHours (settings w)))
    = Some f ->
  let currentTime := minutesOfDay (tzOffset e) (clock e (clock_pos w)) in
  0 <= currentTime <= 1439 /\
  (result isWithinWorkingHours e w = Returned true <-> s <= currentTime <= f) /\
  (s <= 0 -> 1439 <= f -> result isWithinWorkingHours e w = Returned true).
Proof.
  intros Hs Hf currentTime.
  pose proof (minutesOfDay_bounds (tzOffset e) (clock e (clock_pos w))) as Hb.
  fold currentTime in Hb.
  assert (Hiff : inWorkingHours (settings w) currentTime = true <-> s <= currentTime <= f).
  { unfold inWorkingHours. rewrite Hs, Hf. apply withinHours_iff. }
  unfold result. rewrite isWithinWorkingHours_run. cbn [fst]. fold currentTime.
  split; [exact Hb |]. split.
  - rewrite <- Hiff. split; [now intros [= ->] | now intros ->].
  - intros H0 H1. f_equal. apply Hiff. lia.
Qed.

Lemma window_open_times_witness :
  let e := Sample.mkEnv [] [Sample.at_ 9 0] [] in
  toMinutes "09:00" = Some 540 /\ toMinutes "17:00" = Some 1020 /\
  minutesOfDay (tzOffset e) (clock e (clock_pos Sample.world0)) = 540 /\
  result isWithinWorkingHours e Sample.world0 = Returned true.
Proof.
  intros e.
  destruct (window_open_times e Sample.world0 540 1020 eq_refl eq_refl)
    as (_ & Hiff & _).
  split; [reflexivity |]. split; [reflexivity |]. split; [reflexivity |].
  apply Hiff. vm_compute. split; discriminate.
Defined.

(* ================================================================== *)
(** * The statistics of [App]: properties                              *)
(* ================================================================== *)

Lemma setAdd_In (x y : string) (s : list string) :
  In x (setAdd String.eqb s y) <-> In x s \/ x = y.
Proof.
  induction s as [| z s IH]; cbn.
  - intuition.
  - destruct (String.eqb_spec z y) as [-> | Hne]; cbn.
    + intuition.
    + rewrite IH. intuition.
Qed.

Lemma setAdd_NoDup (y : string) (s : list string) :
  NoDup s -> NoDup (setAdd String.eqb s y).
Proof.
  induction s as [| z s IH]; intros Hnd; cbn.
  - constructor; [intros [] | constructor].
  - destruct (String.eqb_spec z y) as [-> | Hne]; [exact Hnd |].
    inversion Hnd as [| ? ? Hz Hs]; subst. constructor; [| now apply IH].
    rewrite setAdd_In. intros [H | H]; [contradiction | congruence].
Qed.

Lemma newSet_spec (l : list string) :
  NoDup (newSet String.eqb l) /\ (forall x, In x (newSet String.eqb l) <-> In x l).
Proof.
  unfold newSet.
  assert (H : forall s, NoDup s ->
            NoDup (fold_left (setAdd String.eqb) l s) /\
            (forall x, In x (fold_left (setAdd String.eqb) l s) <-> In x s \/ In x l)).
  { induction l as [| y l IH]; intros s Hs; cbn [fold_left].
    - split; [exact Hs |]. intros x. cbn. tauto.
    - destruct (IH (setAdd String.eqb s y) (setAdd_NoDup y s Hs)) as [Hn Hi].
      split; [exact Hn |]. intros x. rewrite Hi, setAdd_In. cbn. intuition. }
  destruct (H [] (NoDup_nil _)) as [Hn Hi]. split; [exact Hn |].
  intros x. rewrite Hi. cbn. tauto.
Qed.

Lemma setAdd_length {A} (same : A -> A -> bool) (s : list A) (x : A) :
  (List.length s <= List.length (setAdd same s x) <= S (List.length s))%nat /\
  (1 <= List.length (setAdd same s x))%nat.
Proof.
  induction s as [| y s IH]; cbn.
  - lia.
  - destruct (same y x); cbn; lia.
Qed.

Lemma fold_setAdd_length {A} (same : A -> A -> bool) (l : list A) :
  forall s,
    (List.length s <= List.length (fold_left (setAdd same) l s)
     <= List.length s + List.length l)%nat.
Proof.
  induction l as [| y l IH]; intros s; cbn [fold_left List.length].
  - lia.
  - pose proof (IH (setAdd same s y)). pose proof (setAdd_length same s y). lia.
Qed.

Lemma newSet_length {A} (same : A -> A -> bool) (l : list A) :
  (List.length (newSet same l) <= List.length l)%nat /\
  (l <> [] -> 1 <= List.length (newSet same l))%nat.
Proof.
  unfold newSet. split.
  - pose proof (fold_setAdd_length same l []). cbn in *. lia.
  - destruct l as [| y l]; [congruence |]. intros _. cbn [fold_left].
    pose proof (fold_setAdd_length same l (setAdd same [] y)). cbn in *. lia.
Qed.

Lemma recordsOfToday_run (e : Env) (l : list AttendanceRecord.t) :
  forall w : World,
    recordsOfToday l e w =
    (Returned (keptToday e (clock_pos w) l),
     with_clock_pos (clock_pos w + List.length l) w).
Proof.
  induction l as [| r rest IH]; intros w.
  - cbn. unfold ret, with_clock_pos. rewrite Nat.add_0_r. destruct w; reflexivity.
  - cbn [recordsOfToday keptToday List.length].
    unfold bind at 1. unfold asks at 1.
    unfold bind at 1. unfold new_Date at 1.
    unfold bind at 1. rewrite IH. cbn [clock_pos with_clock_pos andb].
    unfold ret. f_equal. unfold with_clock_pos. cbn. f_equal. lia.
Qed.

Lemma keptToday_incl (e : Env) (l : list AttendanceRecord.t) :
  forall c r, In r (keptToday e c l) -> In r l.
Proof.
  induction l as [| x rest IH]; intros c r H; cbn in H; [contradiction |].
  destruct (JS.sameDateString _ _); [destruct H as [<- | H] |];
    [now left | right; eauto | right; eauto].
Qed.

Lemma keptToday_length (e : Env) (l : list AttendanceRecord.t) :
  forall c, (List.length (keptToday e c l) <= List.length l)%nat.
Proof.
  induction l as [| x rest IH]; intros c; cbn; [lia |].
  destruct (JS.sameDateString _ _); cbn; pose proof (IH (S c)); lia.
Qed.

Lemma attendanceRate_run (e : Env) (w : World) :
  attendanceRate e w =
  let total := Z.of_nat (List.length (filter Student.isActive (students (database w)))) in
  if 0 <? total then
    (Returned
       (inject_Z (setSize (newSet String.eqb
                    (map AttendanceRecord.studentId
                         (keptToday e (clock_pos w) (records (database w))))))
        / inject_Z total * 100)%Q,
     with_clock_pos (clock_pos w + List.length (records (database w))) w)
  else (Returned 0%Q, w).
Proof.
  unfold attendanceRate. unfold bind at 1. unfold gets at 1. cbv zeta.
  destruct (0 <? _); [| reflexivity].
  unfold bind at 1. unfold gets at 1. unfold bind at 1.
  rewrite recordsOfToday_run. reflexivity.
Qed.

(** X15. The attendance rate of the dashboard.  With no active student
    it is 0 and the clock is not read.  Otherwise it is never negative,
    and it is at most 100 when every held record is of a student that is
    held as active. *)
Theorem attendance_rate_bounds (e : Env) (w : World) :
  (filter Student.isActive (students (database w)) = [] ->
   attendanceRate e w = (Returned 0%Q, w)) /\
  exists q, result attendanceRate e w = Returned q /\ (0 <= q)%Q /\
            (recordsOfActiveStudents w -> (q <= 100)%Q).
Proof.
  unfold result. rewrite attendanceRate_run. cbv zeta. split.
  - intros ->. reflexivity.
  - set (active := filter Student.isActive (students (database w))).
    set (ids := map AttendanceRecord.studentId
                    (keptToday e (clock_pos w) (records (database w)))).
    destruct (Z.ltb_spec 0 (Z.of_nat (List.length active))) as [Hpos | Hzero].
    + cbn [fst]. eexists. split; [reflexivity |].
      assert (Hsize : 0 <= setSize (newSet String.eqb ids)) by (unfold setSize; lia).
      assert (Htot : (0 < inject_Z (Z.of_nat (List.length active)))%Q)
        by (change 0%Q with (inject_Z 0); rewrite <- Zlt_Qlt; exact Hpos).
      split.
      * apply Qmult_le_0_compat; [| discriminate].
        apply Qle_shift_div_l; [exact Htot |]. rewrite Qmult_0_l.
        change 0%Q with (inject_Z 0). rewrite <- Zle_Qle. exact Hsize.
      * intros Hact.
        assert (Hle : setSize (newSet String.eqb ids) <= Z.of_nat (List.length active)).
        { unfold setSize. apply inj_le.
          rewrite <- (length_map Student.id active).
          destruct (newSet_spec ids) as [Hnd Hin].
          apply NoDup_incl_length; [exact Hnd |].
          intros x Hx. apply Hin in Hx. unfold ids in Hx.
          apply in_map_iff in Hx. destruct Hx as (r & <- & Hr).
          apply keptToday_incl in Hr. destruct (Hact r Hr) as (s & Hs & Ha & Hid).
          rewrite <- Hid. apply in_map. unfold active. apply filter_In. auto. }
        change 100%Q with (1 * 100)%Q at 2.
        apply Qmult_le_compat_r; [| discriminate].
        apply Qle_shift_div_r; [exact Htot |]. rewrite Qmult_1_l.
        rewrite <- Zle_Qle. exact Hle.
    + cbn [fst]. exists 0%Q. split; [reflexivity |]. split; [apply Qle_refl | discriminate].
Qed.

Lemma attendance_rate_bounds_witness :
  let e := Sample.mkEnv [] [Sample.at_ 9 0] [] in
  let w := Sample.mkWorld Sample.defaultSettings 0.75 [] []  [] in
  filter Student.isActive (students (database w)) = [] /\
  attendanceRate e w = (Returned 0%Q, w).
Proof.
  intros e w. split; [reflexivity |].
  apply (proj1 (attendance_rate_bounds e w)). reflexivity.
Defined.

(** Two students attended today and were deactivated since; with one
    active student left the dashboard shows a rate of 200. *)
Example attendance_rate_above_100 :
  let e := Sample.mkEnv [] [Sample.at_ 9 0] [] in
  let w := Sample.mkWorld Sample.defaultSettings 0.75 [Sample.carol]
             [Sample.aliceRow "row-a" (Sample.at_ 8 0);
              Sample.bobRow "row-b" (Sample.at_ 8 5)] [] in
  exists q, result attendanceRate e w = Returned q /\ (q == 200)%Q.
Proof. cbv zeta. eexists. split; reflexivity. Qed.

Lemma presentToday_run (e : Env) (w : World) :
  presentToday e w =
  (Returned (setSize (newSet String.eqb
               (map AttendanceRecord.studentId
                    (keptToday e (clock_pos w) (records (database w)))))),
   with_clock_pos (clock_pos w + List.length (records (database w))) w).
Proof.
  unfold presentToday. unfold bind at 1. unfold gets at 1. unfold bind at 1.
  rewrite recordsOfToday_run. reflexivity.
Qed.

(** X16. [presentToday] counts students, not records: it lies between 0
    and the number of held records, it is at most 1 when all held records
    are of one student, and it is at least 1 as soon as one record is
    kept as being of today.  The clock is read once per held record. *)
Theorem present_today_counts_students (e : Env) (w : World) :
  exists n, result presentToday e w = Returned n /\
    0 <= n <= Z.of_nat (List.length (records (database w))) /\
    clock_pos (after presentToday e w)
      = (clock_pos w + List.length (records (database w)))%nat /\
    ((forall r r', In r (records (database w)) -> In r' (records (database w)) ->
        AttendanceRecord.studentId r = AttendanceRecord.studentId r') -> n <= 1) /\
    (keptToday e (clock_pos w) (records (database w)) <> [] -> 1 <= n).
Proof.
  unfold result, after. rewrite presentToday_run. cbn [fst snd]. eexists.
  split; [reflexivity |].
  set (kept := keptToday e (clock_pos w) (records (database w))).
  set (ids := map AttendanceRecord.studentId kept).
  pose proof (newSet_length String.eqb ids) as [Hlen Hpos].
  pose proof (keptToday_length e (records (database w)) (clock_pos w)) as Hk.
  fold kept in Hk.
  assert (Hids : List.length ids = List.length kept) by apply length_map.
  unfold setSize. repeat split; try lia; try reflexivity.
  - intros Hone.
    destruct (newSet_spec ids) as [Hnd Hin].
    destruct (newSet String.eqb ids) as [| a [| b rest]] eqn:Es; cbn; try lia.
    exfalso. inversion Hnd as [| ? ? Hnot _]; subst. apply Hnot. left.
    assert (Ha : In a ids) by (apply Hin; now left).
    assert (Hb : In b ids) by (apply Hin; right; now left).
    unfold ids in Ha, Hb. apply in_map_iff in Ha, Hb.
    destruct Ha as (r & <- & Hr), Hb as (r' & <- & Hr').
    apply keptToday_incl in Hr, Hr'. symmetry. now apply Hone.
  - intros Hne.
    assert (ids <> []) by (unfold ids; destruct kept; [congruence | discriminate]).
    specialize (Hpos H). lia.
Qed.

Lemma present_today_counts_students_witness :
  let e := Sample.mkEnv [] [Sample.at_ 9 0] [] in
  let w := Sample.mkWorld Sample.defaultSettings 0.75 [Sample.alice]
             [Sample.aliceRow "row-a" (Sample.at_ 8 0);
              Sample.aliceRow "row-b" (Sample.at_ 8 30)] [] in
  (forall r r', In r (records (database w)) -> In r' (records (database w)) ->
     AttendanceRecord.studentId r = AttendanceRecord.studentId r') /\
  result presentToday e w = Returned 1.
Proof.
  intros e w.
  assert (Hone : forall r r', In r (records (database w)) -> In r' (records (database w)) ->
                   AttendanceRecord.studentId r = AttendanceRecord.studentId r').
  { intros r r' [<- | [<- | []]] [<- | [<- | []]]; reflexivity. }
  split; [exact Hone |].
  destruct (present_today_counts_students e w) as (n & Hres & _ & _ & Hle & Hge).
  rewrite Hres. f_equal.
  assert (Hkept : keptToday e (clock_pos w) (records (database w)) <> []) by discriminate.
  specialize (Hle Hone). specialize (Hge Hkept). lia.
Defined.

(** ** The most recent records *)

Lemma sortInsert_perm {A} (cmp : A -> A -> Z) (x : A) (l : list A) :
  Permutation (sortInsert cmp x l) (x :: l).
Proof.
  induction l as [| y l IH]; cbn; [reflexivity |].
  destruct (cmp x y <=? 0); [reflexivity |].
  rewrite IH. apply perm_swap.
Qed.

Lemma Array_sort_perm {A} (cmp : A -> A -> Z) (l : list A) :
  Permutation (Array_sort cmp l) l.
Proof.
  unfold Array_sort. induction l as [| x l IH]; cbn; [reflexivity |].
  rewrite sortInsert_perm. now constructor.
Qed.

Lemma sortInsert_descending (x : AttendanceRecord.t) (l : list AttendanceRecord.t) :
  descending timeOf l -> descending timeOf (sortInsert newestFirst x l).
Proof.
  induction l as [| y l IH]; intros Hd; cbn.
  - split; [intros ? [] | exact I].
  - destruct Hd as [Hy Hl].
    destruct (Z.leb_spec (newestFirst x y) 0) as [Hle | Hgt]; unfold newestFirst in *.
    + split; [| split; assumption].
      intros z [<- | Hz]; [unfold timeOf; lia |].
      specialize (Hy z Hz). unfold timeOf in *. lia.
    + split; [| now apply IH].
      intros z Hz. apply (Permutation_in _ (sortInsert_perm _ x l)) in Hz.
      destruct Hz as [<- | Hz]; [unfold timeOf; lia | now apply Hy].
Qed.

Lemma Array_sort_descending (l : list AttendanceRecord.t) :
  descending timeOf (Array_sort newestFirst l).
Proof.
  unfold Array_sort. induction l as [| x l IH]; cbn; [exact I |].
  now apply sortInsert_descending.
Qed.

Lemma firstn_incl {A} (n : nat) (l : list A) (x : A) :
  In x (firstn n l) -> In x l.
Proof.
  intros H. rewrite <- (firstn_skipn n l). apply in_or_app. now left.
Qed.

Lemma descending_split {A} (key : A -> Z) (n : nat) (l : list A) :
  descending key l ->
  descending key (firstn n l) /\
  (forall x y, In x (firstn n l) -> In y (skipn n l) -> key y <= key x).
Proof.
  revert n. induction l as [| a l IH]; intros n Hd.
  - rewrite firstn_nil, skipn_nil. split; [exact I | intros ? ? []].
  - destruct n as [| n]; cbn.
    + split; [exact I | intros ? ? []].
    + destruct Hd as [Ha Hl]. destruct (IH n Hl) as [Hf Hc]. split.
      * split; [| exact Hf]. intros y Hy. apply Ha. eapply firstn_incl; eauto.
      * intros x y [<- | Hx] Hy.
        -- apply Ha. rewrite <- (firstn_skipn n l). apply in_or_app. now right.
        -- now apply Hc.
Qed.

Lemma filter_all {A} (l : list A) : filter (fun _ => true) l = l.
Proof. induction l as [| x l IH]; cbn; [reflexivity | now rewrite IH]. Qed.

(** X17. The recent records of the dashboard are the newest held ones:
    at most five (all of them when fewer are held), newest first, each a
    held record, and every held record that is left out is no newer than
    any record that is listed. *)
Theorem recent_records_are_the_newest (records : list AttendanceRecord.t) :
  let recent := recentRecords records in
  List.length recent = Nat.min 5 (List.length records) /\
  descending timeOf recent /\
  (forall r, In r recent -> In r records) /\
  exists rest,
    Permutation records (recent ++ rest) /\
    (forall r o, In r recent -> In o rest -> timeOf o <= timeOf r).
Proof.
  cbv zeta. unfold recentRecords, slice0. rewrite filter_all.
  set (sorted := Array_sort newestFirst records).
  pose proof (Array_sort_perm newestFirst records) as Hperm. fold sorted in Hperm.
  pose proof (Array_sort_descending records) as Hdesc. fold sorted in Hdesc.
  destruct (descending_split timeOf 5 sorted Hdesc) as [Hfirst Hcross].
  split; [| split; [| split]].
  - rewrite length_firstn, (Permutation_length Hperm). reflexivity.
  - exact Hfirst.
  - intros r Hr. apply (Permutation_in _ Hperm). eapply firstn_incl; eauto.
  - exists (skipn 5 sorted). split.
    + rewrite firstn_skipn. now symmetry.
    + intros r o Hr Ho. now apply Hcross.
Qed.

Lemma recent_records_are_the_newest_witness :
  let held := map formatRecord
                [Sample.aliceRow "r1" (Sample.at_ 8 0); Sample.aliceRow "r2" (Sample.at_ 13 0);
                 Sample.aliceRow "r3" (Sample.at_ 9 0); Sample.aliceRow "r4" (Sample.at_ 12 0);
                 Sample.aliceRow "r5" (Sample.at_ 10 0); Sample.aliceRow "r6" (Sample.at_ 11 0)] in
  map AttendanceRecord.id (recentRecords held) = ["r2"; "r4"; "r6"; "r5"; "r3"] /\
  List.length (recentRecords held) = 5%nat /\
  (forall r, In r (recentRecords held) -> In r held).
Proof.
  intros held.
  destruct (recent_records_are_the_newest held) as (Hlen & _ & Hin & _).
  split; [reflexivity |]. split; [exact Hlen | exact Hin].
Defined.

(* ================================================================== *)
(** * The attendance report: properties                                *)
(* ================================================================== *)

Lemma JSMap_get_set {V} (m : JSMap.t V) (k k' : string) (v : V) :
  JSMap.get (JSMap.set m k v) k' = if String.eqb k k' then Some v else JSMap.get m k'.
Proof.
  induction m as [| [k0 v0] m IH]; cbn.
  - reflexivity.
  - destruct (String.eqb_spec k0 k) as [-> | Hne]; cbn.
    + destruct (String.eqb_spec k k'); reflexivity.
    + rewrite IH. destruct (String.eqb_spec k0 k') as [-> | Hne'].
      * destruct (String.eqb_spec k k'); [congruence | reflexivity].
      * reflexivity.
Qed.

Lemma recordsOf_app (id : string) (a b : list AttendanceRecord.t) :
  recordsOf id (a ++ b) = recordsOf id a ++ recordsOf id b.
Proof. unfold recordsOf. apply filter_app. Qed.

Lemma groupStep_grouped (m : JSMap.t (list AttendanceRecord.t))
    (done : list AttendanceRecord.t) (r : AttendanceRecord.t) :
  (forall id, JSMap.get m id = grouped done id) ->
  forall id, JSMap.get (groupStep m r) id = grouped (done ++ [r]) id.
Proof.
  intros Hm id. unfold groupStep. rewrite JSMap_get_set, !Hm.
  unfold grouped. rewrite recordsOf_app.
  assert (Hr : recordsOf id [r]
               = if String.eqb (AttendanceRecord.studentId r) id then [r] else []).
  { unfold recordsOf. cbn. now destruct (String.eqb _ id). }
  rewrite Hr.
  destruct (String.eqb_spec (AttendanceRecord.studentId r) id) as [-> | Hne].
  - destruct (recordsOf _ done); reflexivity.
  - now rewrite app_nil_r.
Qed.

Lemma groupByStudent_grouped (records : list AttendanceRecord.t) (id : string) :
  JSMap.get (groupByStudent records) id = grouped records id.
Proof.
  unfold groupByStudent.
  assert (H : forall rest m done,
            (forall k, JSMap.get m k = grouped done k) ->
            forall k, JSMap.get (fold_left groupStep rest m) k = grouped (done ++ rest) k).
  { induction rest as [| r rest IH]; intros m done Hm k; cbn [fold_left].
    - rewrite app_nil_r. apply Hm.
    - replace (done ++ r :: rest) with ((done ++ [r]) ++ rest)
        by (rewrite <- app_assoc; reflexivity).
      apply IH. now apply groupStep_grouped. }
  apply (H records [] []). reflexivity.
Qed.

(** X18. The grouping of the report.  After all records went into the
    map, the entry of a student id holds exactly the records of that id,
    in the order they were given; an id without records has no entry. *)
Theorem report_groups_records_by_student (records : list AttendanceRecord.t) (id : string) :
  match JSMap.get (groupByStudent records) id with
  | Some l => l = recordsOf id records /\ l <> []
  | None => recordsOf id records = []
  end.
Proof.
  rewrite groupByStudent_grouped. unfold grouped.
  destruct (recordsOf id records); [reflexivity | split; [reflexivity | discriminate]].
Qed.

Lemma grouped_or_empty (records : list AttendanceRecord.t) (id : string) :
  match JSMap.get (groupByStudent records) id with Some l => l | None => [] end
  = recordsOf id records.
Proof.
  rewrite groupByStudent_grouped. unfold grouped. now destruct (recordsOf id records).
Qed.

Lemma reportRow_totals (fmt : JS.Date -> string) (tz : Z -> Z)
    (records : list AttendanceRecord.t) (student : Student.t) :
  let row := reportRow fmt tz (groupByStudent records) student in
  let mine := recordsOf (Student.id student) records in
  ReportRow.totalRecords row = Z.of_nat (List.length mine) /\
  0 <= ReportRow.uniqueDays row <= ReportRow.totalRecords row /\
  (mine <> [] -> 1 <= ReportRow.uniqueDays row) /\
  (mine = [] ->
   ReportRow.uniqueDays row = 0 /\ ReportRow.avgConfidence row = "0.0" /\
   ReportRow.firstRecord row = "N/A" /\ ReportRow.lastRecord row = "N/A").
Proof.
  cbv zeta. unfold reportRow. rewrite grouped_or_empty.
  cbn [ReportRow.totalRecords ReportRow.uniqueDays ReportRow.avgConfidence
       ReportRow.firstRecord ReportRow.lastRecord].
  set (mine := recordsOf (Student.id student) records).
  set (days := map (fun r => JS.toDateString tz (AttendanceRecord.timestamp r)) mine).
  pose proof (newSet_length JS.sameDateString days) as [Hle Hpos].
  assert (Hdays : List.length days = List.length mine) by apply length_map.
  unfold setSize. split; [reflexivity |]. split; [lia |]. split.
  - intros Hne. assert (days <> []) by (unfold days; destruct mine; [congruence | discriminate]).
    specialize (Hpos H). lia.
  - intros Hnil. unfold days. rewrite Hnil. cbn. repeat split.
Qed.

(** X19. The rows of the report.  There is one row per student, in the
    order of the students.  The row of a student gives as total the number
    of records of that student id, a number of days between 0 and that
    total (at least 1 when there is a record), and for a student without
    records 0 days, an average of "0.0" and "N/A" as first and last
    record. *)
Theorem report_rows (fmt : JS.Date -> string) (tz : Z -> Z)
    (records : list AttendanceRecord.t) (students : list Student.t) :
  let rows := reportData fmt tz records students in
  List.length rows = List.length students /\
  map ReportRow.name rows = map Student.name students /\
  forall i student row,
    nth_error students i = Some student -> nth_error rows i = Some row ->
    let mine := recordsOf (Student.id student) records in
    ReportRow.totalRecords row = Z.of_nat (List.length mine) /\
    0 <= ReportRow.uniqueDays row <= ReportRow.totalRecords row /\
    (mine <> [] -> 1 <= ReportRow.uniqueDays row) /\
    (mine = [] ->
     ReportRow.uniqueDays row = 0 /\ ReportRow.avgConfidence row = "0.0" /\
     ReportRow.firstRecord row = "N/A" /\ ReportRow.lastRecord row = "N/A").
Proof.
  cbv zeta. unfold reportData. split; [apply length_map |]. split.
  - rewrite map_map. reflexivity.
  - intros i student row Hs Hr.
    rewrite (map_nth_error _ _ _ Hs) in Hr. injection Hr as <-.
    apply reportRow_totals.
Qed.

Lemma report_rows_witness :
  let fmt := fun d : JS.Date => JS.toString d in
  let records := map formatRecord [Sample.aliceRow "row-a" (Sample.at_ 8 0);
                                   Sample.aliceRow "row-b" (Sample.at_ 16 0)] in
  let students := [Sample.alice; Sample.bob] in
  nth_error students 0 = Some Sample.alice /\
  map ReportRow.totalRecords (reportData fmt (fun _ => 0) records students) = [2; 0] /\
  map ReportRow.uniqueDays (reportData fmt (fun _ => 0) records students) = [1; 0] /\
  map ReportRow.avgConfidence (reportData fmt (fun _ => 0) records students)
    = ["88.0"; "0.0"].
Proof.
  intros fmt records students.
  destruct (report_rows fmt (fun _ => 0) records students) as (_ & _ & Hrow).
  pose proof (Hrow 0%nat Sample.alice _ eq_refl eq_refl) as (Htot & _).
  split; [reflexivity |]. split; [| split; reflexivity].
  cbn [map]. reflexivity.
Defined.

Lemma sumZ_cons (x : Z) (l : list Z) : sumZ (x :: l) = x + sumZ l.
Proof. reflexivity. Qed.

Lemma count_absent (students : list Student.t) (k : string) :
  ~ In k (map Student.id students) ->
  sumZ (map (fun s => if String.eqb k (Student.id s) then 1 else 0) students) = 0.
Proof.
  induction students as [| s rest IH]; intros Hnot; cbn [map]; [reflexivity |].
  rewrite sumZ_cons. cbn [map] in Hnot.
  destruct (String.eqb_spec k (Student.id s)) as [E | _].
  - exfalso. apply Hnot. left. now symmetry.
  - rewrite IH; [reflexivity |]. intros H. apply Hnot. now right.
Qed.

Lemma count_of_id (students : list Student.t) (k : string) :
  NoDup (map Student.id students) ->
  In k (map Student.id students) ->
  sumZ (map (fun s => if String.eqb k (Student.id s) then 1 else 0) students) = 1.
Proof.
  induction students as [| s rest IH]; intros Hnd Hin; cbn [map] in *; [contradiction |].
  inversion Hnd as [| ? ? Hnot Hrest]; subst. rewrite sumZ_cons.
  destruct (String.eqb_spec k (Student.id s)) as [-> | Hne].
  - now rewrite count_absent.
  - destruct Hin as [E | Hin]; [congruence |]. now rewrite IH.
Qed.

Lemma sum_of_counts (students : list Student.t) (records : list AttendanceRecord.t) :
  NoDup (map Student.id students) ->
  (forall r, In r records -> In (AttendanceRecord.studentId r) (map Student.id students)) ->
  sumZ (map (fun s => Z.of_nat (List.length (recordsOf (Student.id s) records))) students)
  = Z.of_nat (List.length records).
Proof.
  intros Hnd. induction records as [| r rest IH]; intros Hall.
  - clear. induction students as [| s l IHs]; [reflexivity |].
    cbn [map]. rewrite sumZ_cons, IHs. reflexivity.
  - assert (Hsplit :
      sumZ (map (fun s => Z.of_nat (List.length (recordsOf (Student.id s) (r :: rest))))
                students)
      = sumZ (map (fun s => if String.eqb (AttendanceRecord.studentId r) (Student.id s)
                            then 1 else 0) students)
        + sumZ (map (fun s => Z.of_nat (List.length (recordsOf (Student.id s) rest)))
                    students)).
    { clear. induction students as [| s l IHs]; [reflexivity |].
      cbn [map]. rewrite !sumZ_cons, IHs.
      unfold recordsOf. cbn [filter].
      destruct (String.eqb (AttendanceRecord.studentId r) (Student.id s));
        cbn [List.length]; lia. }
    rewrite Hsplit, IH by (intros x Hx; apply Hall; now right).
    rewrite count_of_id; [| exact Hnd | apply Hall; now left].
    cbn [List.length]. lia.
Qed.

(** X20. When the students have pairwise different ids and every record
    is of one of them, the totals of the rows add up to the number of
    records (the "Total Records" of the header of the report). *)
Theorem report_totals_add_up (fmt : JS.Date -> string) (tz : Z -> Z)
    (records : list AttendanceRecord.t) (students : list Student.t) :
  NoDup (map Student.id students) ->
  (forall r, In r records -> In (AttendanceRecord.studentId r) (map Student.id students)) ->
  sumZ (map ReportRow.totalRecords (reportData fmt tz records students))
  = Z.of_nat (List.length records).
Proof.
  intros Hnd Hall. unfold reportData. rewrite map_map.
  rewrite <- (sum_of_counts students records Hnd Hall). f_equal.
  apply map_ext. intros s. apply (reportRow_totals fmt tz records s).
Qed.

Lemma report_totals_add_up_witness :
  let fmt := fun d : JS.Date => JS.toString d in
  let records := map formatRecord [Sample.aliceRow "row-a" (Sample.at_ 8 0);
                                   Sample.bobRow "row-b" (Sample.at_ 8 5);
                                   Sample.aliceRow "row-c" (Sample.at_ 16 0)] in
  let students := [Sample.alice; Sample.bob; Sample.carol] in
  NoDup (map Student.id students) /\
  sumZ (map ReportRow.totalRecords (reportData fmt (fun _ => 0) records students)) = 3.
Proof.
  intros fmt records students.
  assert (Hnd : NoDup (map Student.id students)).
  { repeat constructor; cbn; intuition discriminate. }
  split; [exact Hnd |].
  apply (report_totals_add_up fmt (fun _ => 0) records students Hnd).
  intros r [<- | [<- | [<- | []]]]; cbn; auto.
Defined.

(* ================================================================== *)
(** * The exports: properties                                          *)
(* ================================================================== *)

Lemma split_nonempty (sep : ascii) (s : string) : JS.split sep s <> [].
Proof.
  destruct s as [| c rest]; cbn; [discriminate |].
  destruct (Ascii.eqb c sep); [discriminate |].
  destruct (JS.split sep rest); discriminate.
Qed.

Lemma split_length (sep : ascii) (s : string) :
  List.length (JS.split sep s) = S (countChar sep s).
Proof.
  induction s as [| c rest IH]; cbn; [reflexivity |].
  destruct (Ascii.eqb c sep); cbn.
  - now rewrite IH.
  - pose proof (split_nonempty sep rest).
    destruct (JS.split sep rest) as [| h t]; [contradiction |]. cbn in *. lia.
Qed.

Lemma countChar_append (c : ascii) (a b : string) :
  countChar c (String.append a b) = (countChar c a + countChar c b)%nat.
Proof. induction a as [| x a IH]; cbn; [reflexivity | rewrite IH; lia]. Qed.

Lemma countChar_join (c : ascii) (parts : list string) :
  parts <> [] ->
  S (countChar c (join (String c EmptyString) parts))
  = (List.length parts + countIn c parts)%nat.
Proof.
  unfold join. induction parts as [| p rest IH]; intros Hne; [congruence |].
  destruct rest as [| q rest].
  - cbn. lia.
  - cbn [String.concat countIn fold_right List.length].
    rewrite !countChar_append. cbn [countChar]. rewrite Ascii.eqb_refl.
    assert (Hq : q :: rest <> []) by discriminate.
    specialize (IH Hq). cbn [countIn fold_right List.length] in IH.
    cbn [String.concat] in IH. lia.
Qed.

Lemma split_join_same (c : ascii) (parts : list string) :
  parts <> [] -> countIn c parts = 0%nat ->
  JS.split c (join (String c EmptyString) parts) = parts.
Proof.
  unfold join. induction parts as [| p rest IH]; intros Hne Hz; [congruence |].
  cbn [countIn fold_right] in Hz.
  assert (Hp : countChar c p = 0%nat) by lia.
  assert (Hrest : countIn c rest = 0%nat) by (unfold countIn; lia).
  assert (Hsplit : forall t, countChar c p = 0%nat ->
            JS.split c (String.append p (String c t)) = p :: JS.split c t).
  { clear. induction p as [| a p IHp]; intros t H; cbn in *.
    - now rewrite Ascii.eqb_refl.
    - destruct (Ascii.eqb a c); [discriminate |]. rewrite IHp by lia. reflexivity. }
  assert (Hone : countChar c p = 0%nat -> JS.split c p = [p]).
  { clear. induction p as [| a p IHp]; intros H; cbn in *; [reflexivity |].
    destruct (Ascii.eqb a c); [discriminate |]. rewrite IHp by lia. reflexivity. }
  destruct rest as [| q rest].
  - cbn. now apply Hone.
  - cbn [String.concat]. change (String.append (String c EmptyString) ?t) with (String c t).
    cbn [String.append]. rewrite Hsplit by exact Hp. f_equal.
    apply IH; [discriminate | exact Hrest].
Qed.

Lemma append_assoc (a b c : string) :
  String.append (String.append a b) c = String.append a (String.append b c).
Proof. induction a as [| x a IH]; cbn; [reflexivity | now rewrite IH]. Qed.

Lemma toFixed1_percent (n : Z) :
  0 <= n ->
  toFixed1 ((n # 100) * 100)%Q = String.append (JS.toString n) ".0".
Proof.
  intros Hn. unfold toFixed1.
  assert (Hneg : JS.lt ((n # 100) * 100)%Q 0 = false).
  { apply lt_false. unfold Qle. cbn. lia. }
  rewrite Hneg.
  assert (Hfloor : Qfloor ((n # 100) * 100 * 10 + (1 # 2))%Q = n * 10).
  { unfold Qfloor. cbn. symmetry. apply Z.div_unique with (r := 100); lia. }
  rewrite Hfloor, Z.div_mul, Z.mod_mul by lia. reflexivity.
Qed.

(** X21. The lines of [exportToCSV]: the header first, then one line per
    record, in the order of the records.  Fields are joined by commas and
    never quoted: read back by splitting at the commas, a line gives as
    many columns as the six fields plus the commas inside the fields, and
    it gives the six fields back when none of them holds a comma. *)
Theorem csv_lines_and_columns (fmtDate fmtTime : JS.Date -> string)
    (records : list AttendanceRecord.t) :
  let lines := csvLines fmtDate fmtTime records in
  nth_error lines 0 = Some "Student Name,Date,Time,Confidence,Location,Device" /\
  List.length lines = S (List.length records) /\
  forall i record,
    nth_error records i = Some record ->
    let fields := csvFields fmtDate fmtTime record in
    nth_error lines (S i) = Some (join "," fields) /\
    List.length (JS.split "," (join "," fields)) = (6 + countIn "," fields)%nat /\
    (countIn "," fields = 0%nat -> JS.split "," (join "," fields) = fields).
Proof.
  cbv zeta. unfold csvLines. split; [reflexivity |]. split.
  - cbn. now rewrite length_map.
  - intros i record Hi. split; [| split].
    + cbn [nth_error].
      exact (map_nth_error (fun r => join "," (csvFields fmtDate fmtTime r)) _ _ Hi).
    + rewrite split_length.
      rewrite (countChar_join "," (csvFields fmtDate fmtTime record)) by discriminate.
      reflexivity.
    + intros Hz. apply split_join_same; [discriminate | exact Hz].
Qed.

Lemma csv_lines_and_columns_witness :
  let fmtDate := fun _ : JS.Date => "11/1/2026" in
  let fmtTime := fun _ : JS.Date => "8:00:00 AM" in
  let record := formatRecord (Sample.aliceRow "row-a" (Sample.at_ 8 0)) in
  nth_error [record] 0 = Some record /\
  countIn "," (csvFields fmtDate fmtTime record) = 0%nat /\
  JS.split "," (join "," (csvFields fmtDate fmtTime record))
    = ["Alice"; "11/1/2026"; "8:00:00 AM"; "88.0%"; "Main Campus"; "Mozilla/5.0"].
Proof.
  intros fmtDate fmtTime record.
  destruct (csv_lines_and_columns fmtDate fmtTime [record]) as (_ & _ & Hline).
  destruct (Hline 0%nat record eq_refl) as (_ & _ & Hback).
  split; [reflexivity |]. split; [reflexivity |].
  rewrite (Hback eq_refl). reflexivity.
Defined.

(** X22. The confidence column of the exports.  A confidence of a whole
    number [n] of hundredths, as every stored match has, is printed as
    that number with one zero decimal and a percent sign ("88.0%" for
    0.88); a missing or empty location or device is printed as "N/A". *)
Theorem csv_record_fields (fmtDate fmtTime : JS.Date -> string)
    (record : AttendanceRecord.t) (n : Z) :
  AttendanceRecord.confidence record = n # 100 -> 0 <= n ->
  nth_error (csvFields fmtDate fmtTime record) 3
    = Some (String.append (JS.toString n) ".0%") /\
  (JS.truthy (AttendanceRecord.location record) = false ->
   nth_error (csvFields fmtDate fmtTime record) 4 = Some "N/A") /\
  (JS.truthy (AttendanceRecord.deviceInfo record) = false ->
   nth_error (csvFields fmtDate fmtTime record) 5 = Some "N/A").
Proof.
  intros Hc Hn. unfold csvFields. cbn [nth_error]. rewrite Hc, toFixed1_percent by exact Hn.
  split; [| split].
  - f_equal. rewrite append_assoc. reflexivity.
  - intros H. f_equal. unfold orNA. destruct (AttendanceRecord.location record); [| reflexivity].
    now rewrite H.
  - intros H. f_equal. unfold orNA. destruct (AttendanceRecord.deviceInfo record); [| reflexivity].
    now rewrite H.
Qed.

Lemma csv_record_fields_witness :
  let record := formatRecord (Sample.aliceRow "row-a" (Sample.at_ 8 0)) in
  AttendanceRecord.confidence record = 88 # 100 /\
  nth_error (csvFields (fun _ => "d") (fun _ => "t") record) 3 = Some "88.0%".
Proof.
  intros record. split; [reflexivity |].
  destruct (csv_record_fields (fun _ => "d") (fun _ => "t") record 88 eq_refl) as [H _].
  - discriminate.
  - exact H.
Defined.

Lemma studentMapOf_get (students : list Student.t) (id : string) :
  JSMap.get (studentMapOf students) id
  = find (fun s => String.eqb (Student.id s) id) (rev students).
Proof.
  unfold studentMapOf.
  assert (H : forall rest m done,
            (forall k, JSMap.get m k = find (fun s => String.eqb (Student.id s) k) (rev done)) ->
            forall k, JSMap.get (fold_left (fun m s => JSMap.set m (Student.id s) s) rest m) k
                      = find (fun s => String.eqb (Student.id s) k) (rev (done ++ rest))).
  { induction rest as [| s rest IH]; intros m done Hm k; cbn [fold_left].
    - rewrite app_nil_r. apply Hm.
    - replace (done ++ s :: rest) with ((done ++ [s]) ++ rest)
        by (rewrite <- app_assoc; reflexivity).
      apply IH. intros k'. rewrite JSMap_get_set, Hm, rev_app_distr. cbn.
      reflexivity. }
  apply (H students [] []). reflexivity.
Qed.

(** X23. The student columns of [exportDetailedReport].  A record whose
    student is not among the students given (a removed or deactivated
    student) gets "N/A" in the four student columns; otherwise the columns
    come from the last student of that id in the list. *)
Theorem detailed_report_student_columns (fmtDate fmtTime : JS.Date -> string)
    (students : list Student.t) (record : AttendanceRecord.t) :
  let fields := detailedFields fmtDate fmtTime (studentMapOf students) record in
  let id := AttendanceRecord.studentId record in
  ((forall s, In s students -> Student.id s <> id) ->
   firstn 4 (skipn 1 fields) = ["N/A"; "N/A"; "N/A"; "N/A"]) /\
  (forall s, find (fun s => String.eqb (Student.id s) id) (rev students) = Some s ->
     In s students /\ Student.id s = id /\
     firstn 4 (skipn 1 fields)
       = [orNA (Student.studentId s); orNA (Some (Student.email s));
          orNA (Student.department s); orNA (Student.year s)]).
Proof.
  cbv zeta. unfold detailedFields. rewrite studentMapOf_get. split.
  - intros Hnone.
    destruct (find _ (rev students)) as [s |] eqn:Hf; [| reflexivity].
    apply find_some in Hf. destruct Hf as [Hin Hid].
    apply in_rev in Hin. apply String.eqb_eq in Hid. now apply Hnone in Hin.
  - intros s Hf. rewrite Hf. apply find_some in Hf. destruct Hf as [Hin Hid].
    apply in_rev in Hin. apply String.eqb_eq in Hid. repeat split; assumption.
Qed.

Lemma detailed_report_student_columns_witness :
  let record := formatRecord (Sample.aliceRow "row-a" (Sample.at_ 8 0)) in
  (forall s, In s [Sample.bob; Sample.carol] ->
     Student.id s <> AttendanceRecord.studentId record) /\
  firstn 4 (skipn 1 (detailedFields (fun _ => "d") (fun _ => "t")
                       (studentMapOf [Sample.bob; Sample.carol]) record))
    = ["N/A"; "N/A"; "N/A"; "N/A"].
Proof.
  intros record.
  assert (Hnone : forall s, In s [Sample.bob; Sample.carol] ->
                    Student.id s <> AttendanceRecord.studentId record).
  { intros s [<- | [<- | []]]; discriminate. }
  split; [exact Hnone |].
  apply (proj1 (detailed_report_student_columns (fun _ => "d") (fun _ => "t")
                  [Sample.bob; Sample.carol] record)).
  exact Hnone.
Defined.
